(** * uweb3 template parser: a shallow embedding of [uweb3/templateparser.py]

    The development follows the module top to bottom: the exception classes,
    the Python values a replacements mapping can hold, [TemplateTag] with its
    lexer, the expression evaluation of [TemplateConditional], the node tree
    and its rendering, the compiler of [Template] with its scope stack, and
    the disk reload of [FileTemplate].

    Text is ASCII: a [string] is a sequence of bytes and the character
    classes of the regular expressions ([\w], [\s]) are taken on bytes below
    128.  A computation has three results: a value, a raised exception, or
    [Beyond] when the host (Python builtins on values that are not part of
    [value], the parser cache, expressions outside the evaluated fragment)
    leaves the part of the program that is described here. *)

From Stdlib Require Import ZArith String Ascii List Bool Lia DecimalString.
From stdpp Require Import base gmap strings list.

Set Warnings "-register-all".
Local Open Scope Z_scope.

(** ** Exceptions *)

(** The messages of [TemplateSyntaxError], one constructor per [raise]. *)
Inductive syntax_error :=
| ClosedTooMany (n : Z)                 (* 'Closed %d scopes too many' *)
| LeftOpen (n : Z)                      (* 'Template left %d open scopes.' *)
| UnknownFunction (name : string)       (* 'Unknown template function {{ %s }}' *)
| TriedToClose (cls open : string)      (* 'Tried to close %s, but open scope is %s' *)
| ExpectedOpenScope (cls open : string) (* 'Expected open scope %s, but scope is %s' *)
| ElifAfterElse                         (* '{{ elif }} clause may not follow {{ else }}.' *)
| OnlyOneElse                           (* 'Only one {{ else }} clause is allowed.' *)
| InvalidTag (tag : string)             (* 'Invalid Tag syntax: %r' *)
| InvalidLoopTag (tag : string)         (* 'Tag %r in {{ for }} loop is not valid' *)
| InvalidArgument (args : string).      (* 'Invalid argument syntax: %r' *)

Inductive name_error :=
| NoReplacement (name : string)         (* 'No replacement with name %r' *)
| UnknownTagFunction                    (* 'Unknown template tag function %r' *)
| TryAsTagname.                         (* '... . Try it as tagname?' *)

Inductive value_error :=
| CannotUnpackCount (have want : nat)   (* 'Cannot unpack %d values into %d tags' *)
| CannotUnpackType (want : nat).        (* 'Cannot unpack %s into %d tags' *)

(** The classes of the module and the builtin classes its handlers name.
    [PyOther] is an exception of a class that none of the handlers names. *)
Inductive exn :=
| TemplateKeyError (needle : string)
| TemplateNameError (m : name_error)
| TemplateValueError (m : value_error)
| TemplateTypeError (func : string)
| TemplateSyntaxError (m : syntax_error)
| TemplateReadError (path : string)
| PyTypeError
| PyKeyError
| PyIndexError
| PyAttributeError
| PyNameError
| PySyntaxError
| PyOSError
| PyOther (cls : string).

(** [isinstance(e, cls)] for the classes that appear in [except] clauses.
    [TemplateKeyError] and [TemplateNameError] derive from [Error] only;
    [TemplateTypeError] is a [TypeError], [TemplateReadError] an [IOError]. *)
Definition is_KeyError (e : exn) : bool :=
  match e with PyKeyError => true | _ => false end.
Definition is_LookupError (e : exn) : bool :=
  match e with PyKeyError | PyIndexError => true | _ => false end.
Definition is_AttributeError (e : exn) : bool :=
  match e with PyAttributeError => true | _ => false end.
Definition is_TypeError (e : exn) : bool :=
  match e with PyTypeError | TemplateTypeError _ => true | _ => false end.
Definition is_NameError (e : exn) : bool :=
  match e with PyNameError => true | _ => false end.
Definition is_SyntaxError (e : exn) : bool :=
  match e with PySyntaxError => true | _ => false end.
Definition is_OSError (e : exn) : bool :=
  match e with PyOSError | TemplateReadError _ => true | _ => false end.
Definition is_TemplateKeyError (e : exn) : bool :=
  match e with TemplateKeyError _ => true | _ => false end.
Definition is_TemplateNameError (e : exn) : bool :=
  match e with TemplateNameError _ => true | _ => false end.

Inductive outcome (A : Type) :=
| Ok (a : A)
| Raise (e : exn)
| Beyond.
Arguments Ok {A} a.
Arguments Raise {A} e.
Arguments Beyond {A}.

Definition bind {A B} (m : outcome A) (k : A -> outcome B) : outcome B :=
  match m with
  | Ok a => k a
  | Raise e => Raise e
  | Beyond => Beyond
  end.

Notation "x <- m ;; k" := (bind m (fun x => k))
  (at level 100, m at next level, right associativity).

(** [try: m except <classes>: h] *)
Definition catch {A} (m : outcome A) (caught : exn -> bool) (h : exn -> outcome A)
  : outcome A :=
  match m with
  | Raise e => if caught e then h e else Raise e
  | r => r
  end.

(** ** Characters and strings *)

Definition code (c : ascii) : nat := nat_of_ascii c.

Definition is_digit (c : ascii) : bool :=
  (48 <=? code c)%nat && (code c <=? 57)%nat.
Definition is_upper (c : ascii) : bool :=
  (65 <=? code c)%nat && (code c <=? 90)%nat.
Definition is_lower (c : ascii) : bool :=
  (97 <=? code c)%nat && (code c <=? 122)%nat.
Definition is_alpha (c : ascii) : bool := is_upper c || is_lower c.

(** [\w] *)
Definition is_word (c : ascii) : bool :=
  is_alpha c || is_digit c || (code c =? 95)%nat.
(** [[\w-]] *)
Definition is_word_dash (c : ascii) : bool :=
  is_word c || (code c =? 45)%nat.
(** [\s], and the separators of [str.split()]: tab to carriage return, the
    four information separators and the space. *)
Definition is_space (c : ascii) : bool :=
  ((9 <=? code c)%nat && (code c <=? 13)%nat)
  || ((28 <=? code c)%nat && (code c <=? 32)%nat).
(** [.] without DOTALL *)
Definition is_dot (c : ascii) : bool := negb (code c =? 10)%nat.
(** [[^()]] *)
Definition is_no_paren (c : ascii) : bool :=
  negb ((code c =? 40)%nat || (code c =? 41)%nat).

Definition to_upper (c : ascii) : ascii :=
  if is_lower c then ascii_of_nat (code c - 32) else c.
Definition to_lower (c : ascii) : ascii :=
  if is_upper c then ascii_of_nat (code c + 32) else c.

(** The longest prefix whose characters satisfy [p], and the rest. *)
Fixpoint span (p : ascii -> bool) (s : string) : string * string :=
  match s with
  | String c r =>
      if p c then let '(a, b) := span p r in (String c a, b) else (EmptyString, s)
  | EmptyString => (EmptyString, EmptyString)
  end.

Fixpoint all_chars (p : ascii -> bool) (s : string) : bool :=
  match s with
  | String c r => p c && all_chars p r
  | EmptyString => true
  end.

Definition starts_with (pre s : string) : bool := String.prefix pre s.

Fixpoint drop_chars (n : nat) (s : string) : string :=
  match n, s with
  | S n', String _ r => drop_chars n' r
  | _, _ => s
  end.

Fixpoint join (sep : string) (parts : list string) : string :=
  match parts with
  | [] => ""
  | [p] => p
  | p :: rest => p +:+ sep +:+ join sep rest
  end.

Definition concat_str (parts : list string) : string :=
  fold_right String.append "" parts.

(** [s.split(sep)] for a one-character separator. *)
Fixpoint split_on (sep : ascii) (s : string) : list string :=
  match s with
  | EmptyString => [EmptyString]
  | String c r =>
      if Ascii.eqb c sep then EmptyString :: split_on sep r
      else match split_on sep r with
           | h :: t => String c h :: t
           | [] => [String c EmptyString]
           end
  end.

(** [s.split()]: the maximal runs of characters that are not whitespace. *)
Fixpoint words_aux (cur : option string) (s : string) : list string :=
  match s with
  | EmptyString => match cur with Some w => [String.rev w] | None => [] end
  | String c r =>
      if is_space c
      then match cur with Some w => String.rev w :: words_aux None r | None => words_aux None r end
      else words_aux (Some (String c (default EmptyString cur))) r
  end.
Definition str_split (s : string) : list string := words_aux None s.

(** [s.strip()] is empty exactly when [s] holds whitespace only. *)
Definition strip_is_empty (s : string) : bool := all_chars is_space s.

(** [s.lstrip(c)] *)
Fixpoint lstrip (c : ascii) (s : string) : string :=
  match s with
  | String d r => if Ascii.eqb d c then lstrip c r else s
  | EmptyString => EmptyString
  end.

(** [s.title()]: a letter is upper-cased after a character that is not a
    letter and lower-cased after a letter. *)
Fixpoint title_aux (prev_cased : bool) (s : string) : string :=
  match s with
  | String c r =>
      if is_alpha c
      then String (if prev_cased then to_lower c else to_upper c) (title_aux true r)
      else String c (title_aux false r)
  | EmptyString => EmptyString
  end.
Definition title (s : string) : string := title_aux false s.

(** [s.isdigit()] *)
Definition isdigit (s : string) : bool :=
  match s with
  | EmptyString => false
  | _ => all_chars is_digit s
  end.

(** The number that a string of decimal digits writes. *)
Fixpoint int_of_digits (acc : Z) (s : string) : Z :=
  match s with
  | String c r => int_of_digits (10 * acc + Z.of_nat (code c - 48)) r
  | EmptyString => acc
  end.

(** [sys.get_int_max_str_digits()], as the interpreter starts with it. *)
Definition int_max_str_digits : nat := 4300.

(** [int(s)] on a string of decimal digits: the number, or [ValueError]
    when the string has more digits than the interpreter converts, leading
    zeros counted. *)
Definition py_int (s : string) : outcome Z :=
  if (int_max_str_digits <? String.length s)%nat
  then Raise (PyOther "ValueError")
  else Ok (int_of_digits 0 s).

(** ['%d' % n] *)
Definition str_of_Z (z : Z) : string := NilZero.string_of_int (Z.to_int z).
Definition str_of_nat (n : nat) : string := NilZero.string_of_uint (Nat.to_uint n).

(** ** Python values

    The values a replacements mapping holds in this development.  A [VObj]
    is an object of a user class with the given [str()] and instance
    attributes, and nothing else: no items, no length, no iteration. *)

(** Modelled from the spec: the classes of the missing module [safestring].
    A safe string is a string value carrying a safety class, HTML-safe or
    URL-query-safe; a string without one is a plain [str].  [VSafe] below
    is an instance of such a subclass of [Basesafestring]: a [str] as to its
    text, its length and its truth. *)
Inductive safety := Html | Url.

Inductive key :=
| KInt (z : Z)
| KStr (s : string).

Inductive value :=
| VNone
| VBool (b : bool)
| VInt (z : Z)
| VStr (s : string)
| VSafe (c : safety) (s : string)
| VList (items : list value)
| VTuple (items : list value)
| VDict (items : list (key * value))
| VObj (text : string) (attrs : list (string * value)).

Definition key_eqb (a b : key) : bool :=
  match a, b with
  | KInt x, KInt y => (x =? y)%Z
  | KStr x, KStr y => String.eqb x y
  | _, _ => false
  end.

Definition value_of_key (k : key) : value :=
  match k with KInt z => VInt z | KStr s => VStr s end.

(** The entry of a key in a dict is the first pair that carries it. *)
Fixpoint dict_get (d : list (key * value)) (k : key) : option value :=
  match d with
  | (k', v) :: r => if key_eqb k' k then Some v else dict_get r k
  | [] => None
  end.

Fixpoint assoc {A} (l : list (string * A)) (k : string) : option A :=
  match l with
  | (k', v) :: r => if String.eqb k' k then Some v else assoc r k
  | [] => None
  end.

Fixpoint chars (s : string) : list string :=
  match s with
  | String c r => String c EmptyString :: chars r
  | EmptyString => []
  end.

Fixpoint contains_char (c : ascii) (s : string) : bool :=
  match s with
  | String d r => Ascii.eqb d c || contains_char c r
  | EmptyString => false
  end.

Definition hex_digit (n : nat) : ascii :=
  if (n <? 10)%nat then ascii_of_nat (48 + n) else ascii_of_nat (87 + n).

(** [repr] of a [str]: in single quotes, or in double quotes when the text
    holds a single quote and no double one; backslash, the quote in use and
    control characters escaped. *)
Fixpoint repr_body (quote : ascii) (s : string) : string :=
  match s with
  | EmptyString => EmptyString
  | String c r =>
      let rest := repr_body quote r in
      if (code c =? 92)%nat then String "\" (String "\" rest)
      else if Ascii.eqb c quote then String "\" (String c rest)
      else if (code c =? 9)%nat then String "\" (String "t" rest)
      else if (code c =? 10)%nat then String "\" (String "n" rest)
      else if (code c =? 13)%nat then String "\" (String "r" rest)
      else if (code c <? 32)%nat || (code c =? 127)%nat
      then String "\" (String "x" (String (hex_digit (code c / 16))
                                     (String (hex_digit (code c mod 16)) rest)))
      else String c rest
  end.

Definition repr_str (s : string) : string :=
  let quote : ascii :=
    if contains_char "'" s && negb (contains_char "034" s) then "034"%char else "'"%char in
  String quote (repr_body quote s +:+ String quote EmptyString).

Definition repr_key (k : key) : string :=
  match k with KInt z => str_of_Z z | KStr s => repr_str s end.

(** [repr(v)].  The [repr] of a safe string and of a user object is the
    business of classes that are not described here. *)
Fixpoint py_repr (v : value) : outcome string :=
  let fix reprs (l : list value) : outcome (list string) :=
    match l with
    | [] => Ok []
    | x :: r => a <- py_repr x ;; b <- reprs r ;; Ok (a :: b)
    end in
  match v with
  | VNone => Ok "None"
  | VBool b => Ok (if b then "True" else "False")
  | VInt z => Ok (str_of_Z z)
  | VStr s => Ok (repr_str s)
  | VSafe _ _ => Beyond
  | VList l => parts <- reprs l ;; Ok ("[" +:+ join ", " parts +:+ "]")
  | VTuple l =>
      parts <- reprs l ;;
      Ok (match parts with
          | [p] => "(" +:+ p +:+ ",)"
          | _ => "(" +:+ join ", " parts +:+ ")"
          end)
  | VDict d =>
      parts <- (fix pairs (d : list (key * value)) : outcome (list string) :=
                  match d with
                  | [] => Ok []
                  | (k, x) :: r =>
                      a <- py_repr x ;; b <- pairs r ;;
                      Ok ((repr_key k +:+ ": " +:+ a) :: b)
                  end) d ;;
      Ok ("{" +:+ join ", " parts +:+ "}")
  | VObj _ _ => Beyond
  end.

(** [str(v)] *)
Definition py_str (v : value) : outcome string :=
  match v with
  | VStr s => Ok s
  | VSafe _ s => Ok s
  | VObj text _ => Ok text
  | _ => py_repr v
  end.

(** [bool(v)] *)
Definition py_bool (v : value) : bool :=
  match v with
  | VNone => false
  | VBool b => b
  | VInt z => negb (z =? 0)%Z
  | VStr s | VSafe _ s => negb (String.eqb s "")
  | VList l | VTuple l => match l with [] => false | _ => true end
  | VDict d => match d with [] => false | _ => true end
  | VObj _ _ => true
  end.

(** [len(v)] *)
Definition py_len (v : value) : outcome nat :=
  match v with
  | VStr s | VSafe _ s => Ok (String.length s)
  | VList l | VTuple l => Ok (length l)
  | VDict d => Ok (length d)
  | VNone | VBool _ | VInt _ | VObj _ _ => Raise PyTypeError
  end.

(** [iter(v)], as the list of the items it yields. *)
Definition py_iter (v : value) : outcome (list value) :=
  match v with
  | VStr s => Ok (map VStr (chars s))
  | VSafe _ _ => Beyond
  | VList l | VTuple l => Ok l
  | VDict d => Ok (map (fun kv => value_of_key (fst kv)) d)
  | VNone | VBool _ | VInt _ | VObj _ _ => Raise PyTypeError
  end.

Definition seq_index {A} (l : list A) (z : Z) : option A :=
  let i := if (z <? 0)%Z then z + Z.of_nat (length l) else z in
  if (i <? 0)%Z then None else nth_error l (Z.to_nat i).

(** [haystack[k]] *)
Definition py_getitem (haystack : value) (k : key) : outcome value :=
  match haystack with
  | VList l | VTuple l =>
      match k with
      | KInt z => match seq_index l z with Some v => Ok v | None => Raise PyIndexError end
      | KStr _ => Raise PyTypeError
      end
  | VStr s =>
      match k with
      | KInt z => match seq_index (chars s) z with
                  | Some c => Ok (VStr c)
                  | None => Raise PyIndexError
                  end
      | KStr _ => Raise PyTypeError
      end
  | VSafe _ _ => Beyond
  | VDict d => match dict_get d k with Some v => Ok v | None => Raise PyKeyError end
  | VNone | VBool _ | VInt _ | VObj _ _ => Raise PyTypeError
  end.

(** [getattr(haystack, name)].  The attributes of the builtin types
    (methods, dunder names) are not values of this development. *)
Definition py_getattr (haystack : value) (name : string) : outcome value :=
  match haystack with
  | VObj _ attrs =>
      match assoc attrs name with Some v => Ok v | None => Raise PyAttributeError end
  | _ => Beyond
  end.

Definition is_safestring (v : value) : bool :=
  match v with VSafe _ _ => true | _ => false end.

(** The replacements mapping, [**kwds]. *)
Abbreviation kwds := (gmap string value).

(** ** Tag functions

    An entry of [TAG_FUNCTIONS] is a Python callable.  A tag uses it in two
    ways: [f(value)], and [f( *args)(value)] for a closure. *)
Record tagfunc := {
  call : value -> outcome value;
  closure : list value -> value -> outcome value }.

Abbreviation registry := (gmap string tagfunc).

(** A function of one parameter that returns data: called on the arguments
    of a closure it fails on their number, or returns something that cannot
    be called. *)
Definition function1 (f : value -> outcome value) : tagfunc :=
  {| call := f;
     closure := fun args _ =>
       match args with
       | [a] => _ <- f a ;; Raise PyTypeError
       | _ => Raise PyTypeError
       end |}.

Section InitialFunctions.
(** The names that [from ...safestring import *] brings in, and [sorted]. *)
Variable HTMLsafestring_add : value -> outcome value.       (* HTMLsafestring('') + d *)
Variable URLqueryargumentsafestring : value -> outcome value. (* ...(d, unsafe=True) *)
Variable sorted : value -> outcome value.

Definition dict_items (d : value) : outcome value :=
  match d with
  | VDict l => Ok (VList (map (fun kv => VTuple [value_of_key (fst kv); snd kv]) l))
  | VObj _ _ => Beyond
  | _ => Raise PyAttributeError
  end.

Definition dict_values (d : value) : outcome value :=
  match d with
  | VDict l => Ok (VList (map snd l))
  | VObj _ _ => Beyond
  | _ => Raise PyAttributeError
  end.

Definition TAG_FUNCTIONS : registry :=
  <["default" := function1 HTMLsafestring_add]>
  (<["html" := function1 HTMLsafestring_add]>
  (<["raw" := function1 Ok]>
  (<["url" := function1 URLqueryargumentsafestring]>
  (<["items" := function1 dict_items]>
  (<["values" := function1 dict_values]>
  (<["sorted" := function1 sorted]>
  (<["len" := function1 (fun v => n <- py_len v ;; Ok (VInt (Z.of_nat n)))]> ∅))))))).
End InitialFunctions.

(** ** The regular expressions of the module

    Each matcher follows its pattern from left to right.  The greedy
    repetitions of these patterns never have to give characters back: what
    may follow a run of [\w] or [[\w-]] is a character outside that class. *)

(** The text [s] up to the suffix [rest] of it. *)
Definition matched (s rest : string) : string :=
  String.substring 0 (String.length s - String.length rest) s.

(** [(?::[\w-]+)+], as far as it goes. *)
Fixpoint scan_indices (fuel : nat) (s : string) : string :=
  match fuel, s with
  | S fuel', String ":" r =>
      match span is_word_dash r with
      | (String _ _, rest) => scan_indices fuel' rest
      | _ => s
      end
  | _, _ => s
  end.

(** [\([^()]*?\)] at the head of [s]: the rest after it. *)
Definition scan_parens (s : string) : option string :=
  match s with
  | String "(" r =>
      match span is_no_paren r with
      | (_, String ")" rest) => Some rest
      | _ => None
      end
  | _ => None
  end.

(** [\|[\w-]+(?:\([^()]*?\))?] at the head of [s]: the rest after it. *)
Definition scan_function (s : string) : option string :=
  match s with
  | String "|" r =>
      match span is_word_dash r with
      | (String _ _, rest) =>
          Some (match scan_parens rest with Some rest' => rest' | None => rest end)
      | _ => None
      end
  | _ => None
  end.

(** [(?:\|[\w-]+(?:\([^()]*?\))?)+], as far as it goes. *)
Fixpoint scan_functions (fuel : nat) (s : string) : string :=
  match fuel with
  | S fuel' =>
      match scan_function s with
      | Some rest => scan_functions fuel' rest
      | None => s
      end
  | O => s
  end.

(** A group that matched no character did not take part in the match. *)
Definition group (s rest : string) : option string :=
  match matched s rest with
  | EmptyString => None
  | g => Some g
  end.

(** [TemplateTag.TAG.match(s)]: the three groups and the rest of [s]. *)
Definition TAG_match (s : string)
  : option (string * option string * option string * string) :=
  match s with
  | String "[" s1 =>
      match span is_word s1 with
      | (String c n, s2) =>
          let s3 := scan_indices (String.length s2) s2 in
          let s4 := scan_functions (String.length s3) s3 in
          match s4 with
          | String "]" rest => Some (String c n, group s2 s3, group s3 s4, rest)
          | _ => None
          end
      | _ => None
      end
  | _ => None
  end.

(** [FUNC_FINDER.findall(s)] *)
Fixpoint FUNC_FINDER_findall (skip : nat) (s : string) : list string :=
  match s with
  | EmptyString => []
  | String _ r =>
      match skip with
      | S k => FUNC_FINDER_findall k r
      | O =>
          match scan_function s with
          | Some rest =>
              matched r rest
              :: FUNC_FINDER_findall (String.length s - String.length rest - 1) r
          | None => FUNC_FINDER_findall 0 r
          end
      end
  end.

(** The text before the last [c] of [s]. *)
Fixpoint before_last (c : ascii) (s : string) : option string :=
  match s with
  | EmptyString => None
  | String d r =>
      match before_last c r with
      | Some p => Some (String d p)
      | None => if Ascii.eqb d c then Some EmptyString else None
      end
  end.

(** [FUNC_CLOSURE.match(func)]: a run of [\w], an opening parenthesis,
    the longest run of [.] that a closing parenthesis follows.  Both groups. *)
Definition FUNC_CLOSURE_match (func : string) : option (string * string) :=
  match span is_word func with
  | (String c w, String "(" r) =>
      match before_last ")" (fst (span is_dot r)) with
      | Some args => Some (String c w, args)
      | None => None
      end
  | _ => None
  end.

(** [Template.TAG.split(s)]: text, tag, text, ..., text. *)
Fixpoint TAG_split_aux (skip : nat) (text : string) (s : string) : list string :=
  match s with
  | EmptyString => [String.rev text]
  | String c r =>
      match skip with
      | S k => TAG_split_aux k text r
      | O =>
          match TAG_match s with
          | Some (_, rest) =>
              String.rev text :: matched s rest
              :: TAG_split_aux (String.length s - String.length rest - 1) EmptyString r
          | None => TAG_split_aux 0 (String c text) r
          end
      end
  end.
Definition TAG_split (s : string) : list string := TAG_split_aux 0 EmptyString s.

(** [(.*?)\s*\}\}]: the shortest capture, and the rest after the braces. *)
Fixpoint scan_capture (acc : string) (s : string) : option (string * string) :=
  match snd (span is_space s) with
  | String "}" (String "}" rest) => Some (String.rev acc, rest)
  | _ =>
      match s with
      | String c r => if is_dot c then scan_capture (String c acc) r else None
      | EmptyString => None
      end
  end.

(** [\{\{\s*(.*?)\s*\}\}] at the head of [s]. *)
Definition FUNCTION_match (s : string) : option (string * string) :=
  match s with
  | String "{" (String "{" r) => scan_capture EmptyString (snd (span is_space r))
  | _ => None
  end.

(** [Template.FUNCTION.split(s)]: text, function, text, ..., text. *)
Fixpoint FUNCTION_split_aux (skip : nat) (text : string) (s : string) : list string :=
  match s with
  | EmptyString => [String.rev text]
  | String c r =>
      match skip with
      | S k => FUNCTION_split_aux k text r
      | O =>
          match FUNCTION_match s with
          | Some (capture, rest) =>
              String.rev text :: capture
              :: FUNCTION_split_aux (String.length s - String.length rest - 1) EmptyString r
          | None => FUNCTION_split_aux 0 (String c text) r
          end
      end
  end.
Definition FUNCTION_split (s : string) : list string :=
  FUNCTION_split_aux 0 EmptyString s.

(** ** Calls that unpack the mapping as keyword arguments

    Such a call raises [TypeError] when a key of the mapping is the name of
    a parameter that the call has already bound ([self], or the first
    parameter of a static method). *)
Definition binds (kw : kwds) (param : string) : bool :=
  match kw !! param with Some _ => true | None => false end.

Definition call_kwds {A} (param : string) (kw : kwds) (body : outcome A) : outcome A :=
  if binds kw param then Raise PyTypeError else body.

(** ** [class TemplateTag] *)

Module TemplateTag.

Record t := New { name : string; indices : list string; functions : list string }.

(** [__str__] *)
Definition str (self : t) : string :=
  "[" +:+ name self
  +:+ concat_str (map (fun index => ":" +:+ index) (indices self))
  +:+ concat_str (map (fun func => "|" +:+ func) (functions self))
  +:+ "]".

Definition _GetFunctions (raw_functions : option string) : list string :=
  match raw_functions with
  | Some (String c r) => FUNC_FINDER_findall 0 (String c r)
  | _ => []
  end.

Definition _GetIndices (raw_indices : option string) : list string :=
  match raw_indices with
  | Some (String c r) => split_on ":" (lstrip ":" (String c r))
  | _ => []
  end.

Definition FromString (tag : string) : outcome t :=
  match TAG_match tag with
  | Some (name, indices, functions, _) =>
      Ok (New name (_GetIndices indices) (_GetFunctions functions))
  | None => Raise (TemplateSyntaxError (InvalidTag tag))
  end.

Definition _GetIndex (haystack : value) (needle : string) : outcome value :=
  catch
    (if isdigit needle
     then catch (index <- py_int needle ;; py_getitem haystack (KInt index))
                is_KeyError
                (fun _ => py_getitem haystack (KStr needle))
     else catch (py_getitem haystack (KStr needle))
                (fun e => is_KeyError e || is_TypeError e)
                (fun _ => py_getattr haystack needle))
    (fun e => is_AttributeError e || is_LookupError e)
    (fun _ => Raise (TemplateKeyError needle)).

Fixpoint reduce_indices (val : value) (indices : list string) : outcome value :=
  match indices with
  | [] => Ok val
  | index :: rest => v <- _GetIndex val index ;; reduce_indices v rest
  end.

Definition GetValue (self : t) (replacements : kwds) : outcome value :=
  catch
    (val <- match replacements !! name self with
            | Some v => Ok v
            | None => Raise PyKeyError
            end ;;
     reduce_indices val (indices self))
    is_KeyError
    (fun _ => Raise (TemplateNameError (NoReplacement (name self)))).

Section Functions.
(** The content of [TAG_FUNCTIONS] when a tag is parsed, and the host's
    [eval] of the argument text of a closure. *)
Variable registered : registry.
Variable eval_arguments : string -> outcome (list value).

Definition lookup_function (func : string) : outcome tagfunc :=
  match registered !! func with
  | Some f => Ok f
  | None => Raise PyKeyError
  end.

Definition ApplyFunction (func : string) (val : value) : outcome value :=
  match FUNC_CLOSURE_match func with
  | None =>
      match (f <- lookup_function func ;; call f val) with
      | Raise e =>
          (* the handler of SyntaxError reads [args], which is not bound here *)
          if is_SyntaxError e then Raise PyNameError
          else if is_TypeError e then Raise (TemplateTypeError func)
          else if is_KeyError e then Raise (TemplateNameError UnknownTagFunction)
          else Raise e
      | r => r
      end
  | Some (fname, args) =>
      match (argv <- (if strip_is_empty args then Ok [] else eval_arguments (args +:+ ",")) ;;
             f <- lookup_function fname ;;
             closure f argv val) with
      | Raise e =>
          if is_SyntaxError e then Raise (TemplateSyntaxError (InvalidArgument args))
          else if is_TypeError e then Raise (TemplateTypeError fname)
          else if is_KeyError e then Raise (TemplateNameError UnknownTagFunction)
          else Raise e
      | r => r
      end
  end.

Fixpoint apply_functions (funcs : list string) (val : value) : outcome value :=
  match funcs with
  | [] => Ok val
  | func :: rest => v <- ApplyFunction func val ;; apply_functions rest v
  end.

Definition Parse (self : t) (kw : kwds) : outcome string :=
  call_kwds "self" kw
    match GetValue self kw with
    | Raise e =>
        if is_TemplateKeyError e || is_TemplateNameError e
        then Ok (str self)
        else Raise e
    | Beyond => Beyond
    | Ok val =>
        val <- match functions self with
               | _ :: _ => apply_functions (functions self) val
               | [] =>
                   if negb (is_safestring val)
                   then f <- lookup_function "default" ;; call f val
                   else Ok val
               end ;;
        py_str val
    end.

Fixpoint iterator_functions (funcs : list string) (val : value) : outcome value :=
  match funcs with
  | [] => Ok val
  | func :: rest =>
      f <- lookup_function func ;; v <- call f val ;; iterator_functions rest v
  end.

(** The items that the returned iterator yields: none for [()]. *)
Definition Iterator (self : t) (kw : kwds) : outcome (list value) :=
  call_kwds "self" kw
    match GetValue self kw with
    | Raise e => if is_TemplateKeyError e then Ok [] else Raise e
    | Beyond => Beyond
    | Ok val =>
        val <- iterator_functions (functions self) val ;;
        py_iter val
    end.

End Functions.
End TemplateTag.

(** ** The host's [eval] on conditional expressions

    [TemplateConditional.Expression] hands the text of a condition to
    [eval].  The fragment of Python expressions that is evaluated here:
    names, decimal integers of no more digits than the interpreter
    converts, quoted strings without escapes, [True],
    [False], [None], parentheses, one comparison between two atoms, [not],
    [and], [or], with Python's precedences.  Any other text is [Beyond]. *)

Inductive cmp_op := OpEq | OpNe | OpLt | OpLe | OpGt | OpGe | OpIn | OpNotIn.

Inductive token :=
| TName (s : string)
| TNumber (z : Z)
| TString (s : string)
| TCmp (op : cmp_op)
| TLParen
| TRParen
| TAnd
| TOr
| TNot
| TIn
| TConst (v : value).

Inductive expr :=
| EName (x : string)
| EConst (v : value)
| ENot (e : expr)
| EAnd (l r : expr)
| EOr (l r : expr)
| ECmp (op : cmp_op) (l r : expr).

(** Words that are neither names nor part of the fragment. *)
Definition other_keywords : list string :=
  ["is"; "if"; "else"; "lambda"; "for"; "await"; "yield"; "from"; "as"; "assert";
   "async"; "break"; "class"; "continue"; "def"; "del"; "elif"; "except";
   "finally"; "global"; "import"; "nonlocal"; "pass"; "raise"; "return"; "try";
   "while"; "with"].

Definition word_token (w : string) : option token :=
  if String.eqb w "and" then Some TAnd
  else if String.eqb w "or" then Some TOr
  else if String.eqb w "not" then Some TNot
  else if String.eqb w "in" then Some TIn
  else if String.eqb w "True" then Some (TConst (VBool true))
  else if String.eqb w "False" then Some (TConst (VBool false))
  else if String.eqb w "None" then Some (TConst VNone)
  else if existsb (String.eqb w) other_keywords then None
  else Some (TName w).

Definition is_blank (c : ascii) : bool :=
  (code c =? 32)%nat || (code c =? 9)%nat.

Fixpoint tokenize (fuel : nat) (s : string) : option (list token) :=
  match fuel with
  | O => None
  | S fuel' =>
      match s with
      | EmptyString => Some []
      | String c r =>
          if is_blank c then tokenize fuel' r
          else if is_alpha c || (code c =? 95)%nat then
            let '(w, rest) := span is_word s in
            t ← word_token w;
            ts ← tokenize fuel' rest;
            Some (t :: ts)
          else if is_digit c then
            let '(d, rest) := span is_digit s in
            match rest with
            | String e _ => if is_word e || (code e =? 46)%nat then None else Some tt
            | EmptyString => Some tt
            end ≫= fun _ =>
            if (1 <? String.length d)%nat && (code c =? 48)%nat then None
            else if (int_max_str_digits <? String.length d)%nat then None
            else ts ← tokenize fuel' rest; Some (TNumber (int_of_digits 0 d) :: ts)
          else if (code c =? 39)%nat || (code c =? 34)%nat then
            let '(body, rest) :=
              span (fun d => negb (Ascii.eqb d c || (code d =? 92)%nat || (code d =? 10)%nat)) r in
            match rest with
            | String e rest' =>
                if Ascii.eqb e c
                then ts ← tokenize fuel' rest'; Some (TString body :: ts)
                else None
            | EmptyString => None
            end
          else
            let two op rest := ts ← tokenize fuel' rest; Some (TCmp op :: ts) in
            match s with
            | String "=" (String "=" rest) => two OpEq rest
            | String "!" (String "=" rest) => two OpNe rest
            | String "<" (String "=" rest) => two OpLe rest
            | String ">" (String "=" rest) => two OpGe rest
            | String "<" rest => two OpLt rest
            | String ">" rest => two OpGt rest
            | String "(" rest => ts ← tokenize fuel' rest; Some (TLParen :: ts)
            | String ")" rest => ts ← tokenize fuel' rest; Some (TRParen :: ts)
            | _ => None
            end
      end
  end.

Inductive level := LOr | LAnd | LNot | LCmp | LAtom.

Definition comparison_at (ts : list token) : option (cmp_op * list token) :=
  match ts with
  | TCmp op :: r => Some (op, r)
  | TIn :: r => Some (OpIn, r)
  | TNot :: TIn :: r => Some (OpNotIn, r)
  | _ => None
  end.

Fixpoint parse_expr (fuel : nat) (lvl : level) (ts : list token)
  : option (expr * list token) :=
  match fuel with
  | O => None
  | S fuel' =>
      match lvl with
      | LOr =>
          '(l, ts1) ← parse_expr fuel' LAnd ts;
          match ts1 with
          | TOr :: ts2 => '(r, ts3) ← parse_expr fuel' LOr ts2; Some (EOr l r, ts3)
          | _ => Some (l, ts1)
          end
      | LAnd =>
          '(l, ts1) ← parse_expr fuel' LNot ts;
          match ts1 with
          | TAnd :: ts2 => '(r, ts3) ← parse_expr fuel' LAnd ts2; Some (EAnd l r, ts3)
          | _ => Some (l, ts1)
          end
      | LNot =>
          match ts with
          | TNot :: ts1 => '(e, ts2) ← parse_expr fuel' LNot ts1; Some (ENot e, ts2)
          | _ => parse_expr fuel' LCmp ts
          end
      | LCmp =>
          '(l, ts1) ← parse_expr fuel' LAtom ts;
          match comparison_at ts1 with
          | Some (op, ts2) =>
              '(r, ts3) ← parse_expr fuel' LAtom ts2;
              match comparison_at ts3 with
              | Some _ => None
              | None => Some (ECmp op l r, ts3)
              end
          | None => Some (l, ts1)
          end
      | LAtom =>
          match ts with
          | TName x :: r => Some (EName x, r)
          | TNumber z :: r => Some (EConst (VInt z), r)
          | TString s :: r => Some (EConst (VStr s), r)
          | TConst v :: r => Some (EConst v, r)
          | TLParen :: r =>
              '(e, r1) ← parse_expr fuel' LOr r;
              match r1 with
              | TRParen :: r2 => Some (e, r2)
              | _ => None
              end
          | _ => None
          end
      end
  end.

Definition parse (source : string) : option expr :=
  ts ← tokenize (S (String.length source)) source;
  match parse_expr (5 * S (length ts)) LOr ts with
  | Some (e, []) => Some e
  | _ => None
  end.

(** Comparison of the scalars; the comparison methods of the other classes
    are not described. *)
Inductive scalar := SNone | SNum (z : Z) | SText (s : string).

Definition scalar_of (v : value) : option scalar :=
  match v with
  | VNone => Some SNone
  | VBool b => Some (SNum (Z.b2z b))
  | VInt z => Some (SNum z)
  | VStr s => Some (SText s)
  | _ => None
  end.

Definition scalar_eqb (a b : scalar) : bool :=
  match a, b with
  | SNone, SNone => true
  | SNum x, SNum y => (x =? y)%Z
  | SText x, SText y => String.eqb x y
  | _, _ => false
  end.

Definition scalar_compare (a b : scalar) : outcome comparison :=
  match a, b with
  | SNum x, SNum y => Ok (x ?= y)%Z
  | SText x, SText y => Ok (String.compare x y)
  | _, _ => Raise PyTypeError
  end.

Fixpoint scalars_of (l : list value) : option (list scalar) :=
  match l with
  | [] => Some []
  | v :: r => a ← scalar_of v; b ← scalars_of r; Some (a :: b)
  end.

Fixpoint is_substring (x s : string) : bool :=
  String.prefix x s
  || match s with
     | String _ r => is_substring x r
     | EmptyString => false
     end.

(** [a in container] *)
Definition py_contains (container a : value) : outcome bool :=
  match container with
  | VList l | VTuple l =>
      match scalar_of a, scalars_of l with
      | Some x, Some xs => Ok (existsb (scalar_eqb x) xs)
      | _, _ => Beyond
      end
  | VStr s =>
      match a with
      | VStr x => Ok (is_substring x s)
      | VSafe _ _ => Beyond
      | _ => Raise PyTypeError
      end
  | VDict d =>
      match scalar_of a with
      | Some SNone => Ok false
      | Some (SNum z) => Ok (match dict_get d (KInt z) with Some _ => true | None => false end)
      | Some (SText s) => Ok (match dict_get d (KStr s) with Some _ => true | None => false end)
      | None => Beyond
      end
  | VNone | VBool _ | VInt _ => Raise PyTypeError
  | VSafe _ _ | VObj _ _ => Beyond
  end.

Definition py_compare (op : cmp_op) (a b : value) : outcome value :=
  match op with
  | OpIn => r <- py_contains b a ;; Ok (VBool r)
  | OpNotIn => r <- py_contains b a ;; Ok (VBool (negb r))
  | _ =>
      match scalar_of a, scalar_of b with
      | Some x, Some y =>
          match op with
          | OpEq => Ok (VBool (scalar_eqb x y))
          | OpNe => Ok (VBool (negb (scalar_eqb x y)))
          | _ =>
              c <- scalar_compare x y ;;
              Ok (VBool match op, c with
                        | OpLt, Lt => true
                        | OpLe, (Lt | Eq) => true
                        | OpGt, Gt => true
                        | OpGe, (Gt | Eq) => true
                        | _, _ => false
                        end)
          end
      | _, _ => Beyond
      end
  end.

(** Evaluation looks a name up when it reaches it, and not before: the
    right operand of [and] and [or] is evaluated only when the left one has
    not decided the result. *)
Fixpoint eval_expr (lookup : string -> outcome value) (e : expr) : outcome value :=
  match e with
  | EName x => lookup x
  | EConst v => Ok v
  | ENot a => v <- eval_expr lookup a ;; Ok (VBool (negb (py_bool v)))
  | EAnd l r => v <- eval_expr lookup l ;; if py_bool v then eval_expr lookup r else Ok v
  | EOr l r => v <- eval_expr lookup l ;; if py_bool v then Ok v else eval_expr lookup r
  | ECmp op l r =>
      a <- eval_expr lookup l ;; b <- eval_expr lookup r ;; py_compare op a b
  end.

(** ** [class LazyTagValueRetrieval] *)

Module LazyTagValueRetrieval.

Record t := New { _values : kwds; _tags : gmap string TemplateTag.t }.

Definition __init__ (values : kwds) : t := New values ∅.

Definition __getitem__ (self : t) (key : string) : outcome value :=
  match _tags self !! key with
  | Some tag => TemplateTag.GetValue tag (_values self)
  | None => Raise PyKeyError
  end.

Definition __setitem__ (self : t) (key : string) (tag : TemplateTag.t) : t :=
  New (_values self) (<[key := tag]> (_tags self)).

End LazyTagValueRetrieval.

(** The lookup of a name by [eval(source, None, local_vars)]: in
    [local_vars] first; a [KeyError] there sends the lookup on to the
    globals of the module and to the builtins, which are not described. *)
Definition eval_lookup (local_vars : LazyTagValueRetrieval.t) (x : string) : outcome value :=
  match LazyTagValueRetrieval.__getitem__ local_vars x with
  | Raise e => if is_KeyError e then Beyond else Raise e
  | r => r
  end.

Definition py_eval (source : string) (local_vars : LazyTagValueRetrieval.t)
  : outcome value :=
  match parse source with
  | Some e => eval_expr (eval_lookup local_vars) e
  | None => Beyond
  end.

(** ** The node tree *)

(** What [Template.TagSplit] yields: [TemplateText] and [TemplateTag]. *)
Inductive part :=
| PartText (s : string)
| PartTag (t : TemplateTag.t).

(** The first component of a branch: the tuple of parts that
    [TemplateConditional.NewBranch] builds, or the [map] object that
    [TemplateConditionalPresence.NewBranch] builds.  A [map] object is an
    iterator; it is named by its address in the store below. *)
Inductive expression :=
| Tuple (parts : list part)
| MapObject (address : nat).

(** [Conditional presence ...]: [presence] tells an instance of
    [TemplateConditionalPresence] from one of [TemplateConditional]. *)
Inductive node :=
| Text (s : string)
| Tag (t : TemplateTag.t)
| Loop (tag : TemplateTag.t) (aliases : list string) (body : list node)
| Conditional (presence : bool) (checking_presence : bool)
    (branches : list (expression * list node)) (default : option (list node)).

(** The [map] objects: for each, the strings that [TemplateTag.FromString]
    has not been applied to yet. *)
Abbreviation store := (gmap nat (list string)).

(** A computation on a state: its result and the state it leaves, also
    when it raises. *)
Definition St (S A : Type) : Type := S -> outcome A * S.

Definition ret {S A} (a : A) : St S A := fun st => (Ok a, st).
Definition lift {S A} (o : outcome A) : St S A := fun st => (o, st).
Definition bindM {S A B} (m : St S A) (k : A -> St S B) : St S B :=
  fun st =>
    match m st with
    | (Ok a, st') => k a st'
    | (Raise e, st') => (Raise e, st')
    | (Beyond, st') => (Beyond, st')
    end.

Notation "x <~ m ;; k" := (bindM m (fun x => k))
  (at level 100, m at next level, right associativity).

(** Rendering may advance iterators. *)
Abbreviation M := (St store).

Definition call_kwdsM {A} (param : string) (kw : kwds) (body : M A) : M A :=
  if binds kw param then lift (Raise PyTypeError) else body.

(** [''.join(part.Parse( **kwds) for part in parts)], given [Parse]. *)
Definition join_Parse (Parse : node -> kwds -> M string)
  : list node -> kwds -> M string :=
  fix join (parts : list node) (kw : kwds) : M string :=
    match parts with
    | [] => ret EmptyString
    | p :: rest =>
        a <~ Parse p kw ;;
        b <~ join rest kw ;;
        ret (a +:+ b)
    end.

(** ** [class TemplateText] *)

Module TemplateText.

Definition Parse (self : string) (kw : kwds) : outcome string :=
  call_kwds "self" kw (Ok self).

End TemplateText.

(** ** [class TemplateConditional] and [class TemplateConditionalPresence] *)

Module TemplateConditionalPresence.

(** [kwds.get('checking_presence')] as a condition. *)
Definition checking (kw : kwds) : bool :=
  match kw !! "checking_presence" with
  | Some v => py_bool v
  | None => false
  end.

(** The loop over the [map] object [tags]: each step takes the next string
    from it and applies [TemplateTag.FromString]. *)
Fixpoint presence (tags : list string) (kw : kwds) : outcome bool * list string :=
  match tags with
  | [] => (Ok (if checking kw then true else false), [])
  | raw :: rest =>
      match TemplateTag.FromString raw with
      | Ok tag =>
          match TemplateTag.GetValue tag kw with
          | Ok _ => presence rest kw
          | Raise e =>
              if is_TemplateKeyError e || is_TemplateNameError e
              then (Ok (if checking kw then false else true), rest)
              else (Raise e, rest)
          | Beyond => (Beyond, rest)
          end
      | Raise e => (Raise e, rest)
      | Beyond => (Beyond, rest)
      end
  end.

Definition Expression (tags : nat) (kw : kwds) : M bool :=
  call_kwdsM "tags" kw
    (fun st =>
       match st !! tags with
       | Some pending =>
           let '(r, pending') := presence pending kw in
           (r, <[tags := pending']> st)
       | None => (Beyond, st)
       end).

End TemplateConditionalPresence.

Module TemplateConditional.

(** The loop of [Expression]: a tag at position [num] is stored in
    [local_vars] under a name made from [num], and that name stands for it
    in the text. *)
Fixpoint name_tags (num : nat) (expr : list part) (local_vars : LazyTagValueRetrieval.t)
  : list string * LazyTagValueRetrieval.t :=
  match expr with
  | [] => ([], local_vars)
  | PartTag tag :: rest =>
      let node_name := "__tmpl_var_" +:+ str_of_nat num in
      let '(nodes, lv) :=
        name_tags (S num) rest (LazyTagValueRetrieval.__setitem__ local_vars node_name tag) in
      (node_name :: nodes, lv)
  | PartText s :: rest =>
      let '(nodes, lv) := name_tags (S num) rest local_vars in
      (s :: nodes, lv)
  end.

Definition Expression (expr : list part) (kw : kwds) : outcome value :=
  call_kwds "expr" kw
    (let '(nodes, local_vars) := name_tags 0 expr (LazyTagValueRetrieval.__init__ kw) in
     catch (py_eval (concat_str nodes) local_vars)
           is_NameError
           (fun _ => Raise (TemplateNameError TryAsTagname))).

(** [self.Expression(expr, **kwds)] as a condition, by the class of [self]. *)
Definition condition (presence : bool) (expr : expression) (kw : kwds) : M bool :=
  match presence, expr with
  | false, Tuple parts => lift (v <- Expression parts kw ;; Ok (py_bool v))
  | true, MapObject tags => TemplateConditionalPresence.Expression tags kw
  | _, _ => lift Beyond
  end.

Section Parse.
Variable Parse_node : node -> kwds -> M string.

Definition Parse_branches (presence : bool) (default : option (list node))
  : list (expression * list node) -> kwds -> M string :=
  fix branches_loop (branches : list (expression * list node)) (kw : kwds) : M string :=
    match branches with
    | (expr, branch) :: rest =>
        let kw := if presence then <["checking_presence" := VBool true]> kw else kw in
        taken <~ condition presence expr kw ;;
        if taken then join_Parse Parse_node branch kw
        else branches_loop rest kw
    | [] =>
        match default with
        | Some (p :: d) => join_Parse Parse_node (p :: d) kw
        | _ => ret EmptyString
        end
    end.

Definition Parse (presence : bool) (branches : list (expression * list node))
  (default : option (list node)) (kw : kwds) : M string :=
  call_kwdsM "self" kw (Parse_branches presence default branches kw).

End Parse.
End TemplateConditional.

(** ** [class TemplateLoop] *)

Module TemplateLoop.

(** [replacements.update(zip(aliases, items))] *)
Fixpoint update_zip (replacements : kwds) (aliases : list string) (items : list value)
  : kwds :=
  match aliases, items with
  | a :: aliases', i :: items' => update_zip (<[a := i]> replacements) aliases' items'
  | _, _ => replacements
  end.

(** The body of the [for] statement up to the rendering of the parts: the
    replacements with the item bound to the aliases. *)
Definition bind_item (aliases : list string) (replacements : kwds) (item : value)
  : outcome kwds :=
  let aliascount := length aliases in
  if (aliascount =? 1)%nat
  then Ok (<[nth 0 aliases EmptyString := item]> replacements)
  else
    _ <- catch (n <- py_len item ;;
                if negb (aliascount =? n)%nat
                then Raise (TemplateValueError (CannotUnpackCount n aliascount))
                else Ok tt)
               is_TypeError
               (fun _ => Raise (TemplateValueError (CannotUnpackType aliascount))) ;;
    items <- py_iter item ;;
    Ok (update_zip replacements aliases items).

Section Parse.
Variable registered : registry.
Variable Parse_node : node -> kwds -> M string.

Definition iterate (aliases : list string) (body : list node)
  : kwds -> list value -> M string :=
  fix items_loop (replacements : kwds) (items : list value) : M string :=
    match items with
    | [] => ret EmptyString
    | item :: rest =>
        replacements' <~ lift (bind_item aliases replacements item) ;;
        out <~ join_Parse Parse_node body replacements' ;;
        more <~ items_loop replacements' rest ;;
        ret (out +:+ more)
    end.

Definition Parse (tag : TemplateTag.t) (aliases : list string) (body : list node)
  (kw : kwds) : M string :=
  call_kwdsM "self" kw
    (items <~ lift (TemplateTag.Iterator registered tag kw) ;;
     iterate aliases body kw items).

End Parse.
End TemplateLoop.

(** ** [Parse] of a node, by its class *)

Section Nodes.
Variable registered : registry.
Variable eval_arguments : string -> outcome (list value).

Fixpoint Parse_node (n : node) (kw : kwds) {struct n} : M string :=
  match n with
  | Text s => lift (TemplateText.Parse s kw)
  | Tag t => lift (TemplateTag.Parse registered eval_arguments t kw)
  | Loop tag aliases body =>
      TemplateLoop.Parse registered Parse_node tag aliases body kw
  | Conditional presence _ branches default =>
      TemplateConditional.Parse Parse_node presence branches default kw
  end.

End Nodes.

Definition catchM {S A} (m : St S A) (caught : exn -> bool) (h : exn -> St S A)
  : St S A :=
  fun st =>
    match m st with
    | (Raise e, st') => if caught e then h e st' else (Raise e, st')
    | r => r
    end.

(** ** [class Parser], as far as a template looks at it

    [self.parser and self.parser.noparse] reads the flag and, a [Parser]
    being a dict, whether it holds a template. *)
Record Parser := { noparse : bool; holds_templates : bool }.

(** ** [class Template] *)

Module Template.

(** A template is a list of nodes with a stack of open scopes.  [nodes]
    are the nodes at the top level without the scope that is open there, if
    any; [scopes] are the open scopes above the template itself, innermost
    first, each without the open scope inside it.  An open scope is the
    last part of the scope below it: [contents] is the list that the
    template is.  [maps] holds the [map] objects of its presence branches. *)
Record t := New {
  class_name : string;
  parser : option Parser;
  nodes : list node;
  scopes : list node;
  maps : store;
  next_map : nat }.

Definition with_nodes (self : t) (l : list node) : t :=
  New (class_name self) (parser self) l (scopes self) (maps self) (next_map self).
Definition with_scopes (self : t) (l : list node) : t :=
  New (class_name self) (parser self) (nodes self) l (maps self) (next_map self).
Definition with_maps (self : t) (m : store) (next : nat) : t :=
  New (class_name self) (parser self) (nodes self) (scopes self) m next.

Inductive scope_cls := TemplateLoop | TemplateConditional.

Definition cls_name (c : scope_cls) : string :=
  match c with
  | TemplateLoop => "TemplateLoop"
  | TemplateConditional => "TemplateConditional"
  end.

(** [type(n).__name__] *)
Definition type_name (n : node) : string :=
  match n with
  | Text _ => "TemplateText"
  | Tag _ => "TemplateTag"
  | Loop _ _ _ => "TemplateLoop"
  | Conditional false _ _ _ => "TemplateConditional"
  | Conditional true _ _ _ => "TemplateConditionalPresence"
  end.

Definition isinstance (n : node) (c : scope_cls) : bool :=
  match n, c with
  | Loop _ _ _, TemplateLoop => true
  | Conditional _ _ _ _, TemplateConditional => true
  | _, _ => false
  end.

Fixpoint append_last (branches : list (expression * list node)) (item : node)
  : option (list (expression * list node)) :=
  match branches with
  | [] => None
  | [(expr, branch)] => Some [(expr, branch ++ [item])]
  | b :: rest => r ← append_last rest item; Some (b :: r)
  end.

(** [scope.append(item)] *)
Definition append (scope : node) (item : node) : outcome node :=
  match scope with
  | Loop tag aliases body => Ok (Loop tag aliases (body ++ [item]))
  | Conditional p c branches (Some d) => Ok (Conditional p c branches (Some (d ++ [item])))
  | Conditional p c branches None =>
      match append_last branches item with
      | Some branches' => Ok (Conditional p c branches' None)
      | None => Raise PyIndexError
      end
  | Text _ | Tag _ => Raise PyAttributeError
  end.

(** The scope [inner] as a part of the scopes below it: the outermost of
    them, complete. *)
Fixpoint plug (inner : node) (below : list node) : node :=
  match below with
  | [] => inner
  | outer :: rest =>
      match append outer inner with
      | Ok outer' => plug outer' rest
      | _ => plug outer rest
      end
  end.

(** The list that the template is, open scopes included. *)
Definition contents (self : t) : list node :=
  match scopes self with
  | [] => nodes self
  | inner :: below => nodes self ++ [plug inner below]
  end.

Definition _AddToOpenScope (item : node) : St t unit :=
  fun self =>
    match scopes self with
    | [] => (Ok tt, with_nodes self (nodes self ++ [item]))
    | top :: below =>
        match append top item with
        | Ok top' => (Ok tt, with_scopes self (top' :: below))
        | Raise e => (Raise e, self)
        | Beyond => (Beyond, self)
        end
    end.

Definition _StartScope (scope : node) : St t unit :=
  fun self => (Ok tt, with_scopes self (scope :: scopes self)).

Definition _CloseScope (c : scope_cls) : St t unit :=
  fun self =>
    match scopes self with
    | [] => (Raise (TemplateSyntaxError (TriedToClose (cls_name c) (class_name self))), self)
    | top :: below =>
        if isinstance top c
        then _AddToOpenScope top (with_scopes self below)
        else (Raise (TemplateSyntaxError (TriedToClose (cls_name c) (type_name top))), self)
    end.

Definition _VerifyOpenScope (c : scope_cls) : St t unit :=
  fun self =>
    match scopes self with
    | [] => (Raise (TemplateSyntaxError (ExpectedOpenScope (cls_name c) (class_name self))), self)
    | top :: _ =>
        if isinstance top c then (Ok tt, self)
        else (Raise (TemplateSyntaxError (ExpectedOpenScope (cls_name c) (type_name top))), self)
    end.

(** [TagSplit]: the pieces at odd positions are tags, the others text. *)
Fixpoint TagSplit_pieces (odd : bool) (pieces : list string) : outcome (list part) :=
  match pieces with
  | [] => Ok []
  | piece :: rest =>
      if odd
      then tag <- TemplateTag.FromString piece ;;
           more <- TagSplit_pieces false rest ;;
           Ok (PartTag tag :: more)
      else more <- TagSplit_pieces true rest ;;
           Ok (match piece with
               | EmptyString => more
               | _ => PartText piece :: more
               end)
  end.

Definition TagSplit (template : string) : outcome (list part) :=
  TagSplit_pieces false (TAG_split template).

Definition node_of_part (p : part) : node :=
  match p with PartText s => Text s | PartTag tag => Tag tag end.

Fixpoint add_all (items : list node) : St t unit :=
  match items with
  | [] => ret tt
  | item :: rest => _ <~ _AddToOpenScope item ;; add_all rest
  end.

Definition _ExtendText (text : string) : St t unit :=
  parts <~ lift (TagSplit text) ;;
  add_all (map node_of_part parts).

(** [NewBranch], by the class of the conditional: the new first component. *)
Definition NewBranch (presence : bool) (expr : string) : St t expression :=
  if presence
  then fun self =>
         let address := next_map self in
         (Ok (MapObject address),
          with_maps self (<[address := str_split expr]> (maps self)) (S address))
  else parts <~ lift (TagSplit expr) ;; ret (Tuple parts).

(** [TemplateConditional(expr, checking_presence)] and the same of the
    subclass. *)
Definition new_conditional (presence : bool) (expr : string) (checking_presence : bool)
  : St t node :=
  e <~ NewBranch presence expr ;;
  ret (Conditional presence checking_presence [(e, [])] None).

(** [TemplateLoop(tag, aliases)] *)
Definition new_loop (tag : string) (aliases : list string) : outcome node :=
  tag' <- catch (TemplateTag.FromString tag)
                (fun e => match e with TemplateSyntaxError _ => true | _ => false end)
                (fun _ => Raise (TemplateSyntaxError (InvalidLoopTag tag))) ;;
  Ok (Loop tag' (split_on "," (concat_str aliases)) []).

(** [self.scopes[-1].Elif(expr)] and [self.scopes[-1].Else()] *)
Definition Elif (expr : string) : St t unit :=
  fun self =>
    match scopes self with
    | Conditional p c branches default :: below =>
        match default with
        | Some _ => (Raise (TemplateSyntaxError ElifAfterElse), self)
        | None =>
            match NewBranch p expr self with
            | (Ok e, self') =>
                (Ok tt, with_scopes self' (Conditional p c (branches ++ [(e, [])]) None :: below))
            | (Raise e, self') => (Raise e, self')
            | (Beyond, self') => (Beyond, self')
            end
        end
    | _ => (Raise PyAttributeError, self)
    end.

Definition Else : St t unit :=
  fun self =>
    match scopes self with
    | Conditional p c branches default :: below =>
        match default with
        | Some _ => (Raise (TemplateSyntaxError OnlyOneElse), self)
        | None => (Ok tt, with_scopes self (Conditional p c branches (Some []) :: below))
        end
    | _ => (Raise PyAttributeError, self)
    end.

Definition quote : string := String "034" EmptyString.

(** The text of [_TemplateConstructXsrf] with [value] in place. *)
Definition xsrf_input (value : string) : string :=
  "<input type=" +:+ quote +:+ "hidden" +:+ quote +:+ " value=" +:+ quote +:+ value
  +:+ quote +:+ " name=" +:+ quote +:+ "xsrf" +:+ quote +:+ " />".

(** [AddFile]: without a parser, [TypeError]; with one, the template comes
    from the cache of the parser and the files behind it. *)
Definition AddFile (name : string) : St t unit :=
  fun self =>
    match parser self with
    | None => (Raise PyTypeError, self)
    | Some _ => (Beyond, self)
    end.

(** [nodes[-1]] and [nodes[:-2]] *)
Definition last_node (nodes : list string) : outcome string :=
  match last nodes with Some n => Ok n | None => Raise PyIndexError end.
Definition but_last_two (nodes : list string) : list string :=
  take (length nodes - 2) nodes.

(** [getattr(self, '_TemplateConstruct%s' % function.title())( *nodes)].
    The text of an [xsrf] function is added by [AddString]; its value is a
    word of a function of the template and so holds no closing braces:
    that text is one piece of text, without functions of its own. *)
Definition construct (function : string) (nodes : list string) : St t unit :=
  let method := title function in
  let no_arguments (body : St t unit) : St t unit :=
    match nodes with [] => body | _ => lift (Raise PyTypeError) end in
  if String.eqb method "Xsrf" then
    match nodes with
    | [value] =>
        match FUNCTION_split (xsrf_input value) with
        | [text] => _ExtendText text
        | _ => lift Beyond
        end
    | _ => lift (Raise PyTypeError)
    end
  else if String.eqb method "Inline" then
    match nodes with
    | [name] => AddFile name
    | _ => lift (Raise PyTypeError)
    end
  else if String.eqb method "For" then
    tag <~ lift (last_node nodes) ;;
    scope <~ lift (new_loop tag (but_last_two nodes)) ;;
    _StartScope scope
  else if String.eqb method "Endfor" then no_arguments (_CloseScope TemplateLoop)
  else if String.eqb method "If" then
    scope <~ new_conditional false (join " " nodes) true ;; _StartScope scope
  else if String.eqb method "Ifpresent" then
    scope <~ new_conditional true (join " " nodes) true ;; _StartScope scope
  else if String.eqb method "Ifnotpresent" then
    scope <~ new_conditional true (join " " nodes) true ;; _StartScope scope
  else if String.eqb method "Elif" then
    _ <~ _VerifyOpenScope TemplateConditional ;; Elif (join " " nodes)
  else if String.eqb method "Else" then
    no_arguments (_ <~ _VerifyOpenScope TemplateConditional ;; Else)
  else if String.eqb method "Endif" then no_arguments (_CloseScope TemplateConditional)
  else lift (Raise PyAttributeError).

Definition _ExtendFunction (nodes : string) : St t unit :=
  match str_split nodes with
  | [] => lift (Raise PyIndexError)
  | function :: nodes' =>
      catchM (construct function nodes')
             is_AttributeError
             (fun _ => lift (Raise (TemplateSyntaxError (UnknownFunction function))))
  end.

(** The [for] loop of [AddString] over the pieces of the template. *)
Fixpoint extend (odd : bool) (nodes : list string) : St t unit :=
  match nodes with
  | [] => ret tt
  | node :: rest =>
      _ <~ (if odd then _ExtendFunction node else _ExtendText node) ;;
      extend (negb odd) rest
  end.

(** [len(self.scopes)] *)
Definition depth (self : t) : Z := Z.of_nat (S (length (scopes self))).

Definition AddString (raw_template : string) : St t unit :=
  fun self =>
    let scope_depth := depth self in
    match extend false (FUNCTION_split raw_template) self with
    | (Ok tt, self') =>
        if negb (depth self' =? scope_depth)%Z
        then
          let scope_diff := depth self' - scope_depth in
          if (scope_diff <? 0)%Z
          then (Raise (TemplateSyntaxError (ClosedTooMany (Z.abs scope_diff))), self')
          else (Raise (TemplateSyntaxError (LeftOpen scope_diff)), self')
        else (Ok tt, self')
    | r => r
    end.

(** [Template(raw_template, parser)]: also the object as the constructor
    leaves it when it raises. *)
Definition __init__ (raw_template : string) (parser : option Parser) : outcome unit * t :=
  AddString raw_template (New "Template" parser [] [] ∅ 0).

End Template.

(** ** Rendering a template *)

(** [hashlib.md5(data.encode()).hexdigest()], kept symbolic: no property of
    the digest function is used. *)
Inductive digest := MD5 (data : string).

(** Modelled from the spec: [HTMLsafestring], the class of the missing
    module [safestring]; a string value carrying a safety class, here with
    the attributes that [Template.Parse] sets on it.  [HTMLsafestring(x)]
    has the text [str(x)]. *)
Record HTMLsafestring := {
  text : string;
  content_hash : digest;
  page_hash : option digest;
  tags : option (gmap string string) }.

Definition newline : string := String "010" EmptyString.

(** A loop over a [map] object whose step may raise: the result and what
    the object has yet to yield. *)
Fixpoint map_loop {A} (step : TemplateTag.t -> A -> outcome A) (pending : list string)
  (acc : A) : outcome A * list string :=
  match pending with
  | [] => (Ok acc, [])
  | raw :: rest =>
      match (tag <- TemplateTag.FromString raw ;; step tag acc) with
      | Ok acc' => map_loop step rest acc'
      | Raise e => (Raise e, rest)
      | Beyond => (Beyond, rest)
      end
  end.

Definition for_map {A} (address : nat) (step : TemplateTag.t -> A -> outcome A) (acc : A)
  : M A :=
  fun st =>
    match st !! address with
    | Some pending =>
        let '(r, pending') := map_loop step pending acc in
        (r, <[address := pending']> st)
    | None => (Beyond, st)
    end.

Definition str_part (p : part) : string :=
  match p with PartText s => s | PartTag tag => TemplateTag.str tag end.

(** [''.join(map(str, expr))] *)
Definition str_expression (expr : expression) : M string :=
  match expr with
  | Tuple parts => ret (concat_str (map str_part parts))
  | MapObject address =>
      for_map address (fun tag acc => Ok (acc +:+ TemplateTag.str tag)) EmptyString
  end.

(** [__str__] of a node, by its class. *)
Fixpoint str_node (n : node) : M string :=
  let str_all :=
    fix str_all (l : list node) : M string :=
      match l with
      | [] => ret EmptyString
      | x :: r => a <~ str_node x ;; b <~ str_all r ;; ret (a +:+ b)
      end in
  match n with
  | Text s => ret s
  | Tag tag => ret (TemplateTag.str tag)
  | Loop tag aliases body =>
      b <~ str_all body ;;
      ret (newline +:+ "{{ for " +:+ join ", " aliases +:+ " in " +:+ TemplateTag.str tag
           +:+ " }}" +:+ b +:+ newline +:+ "{{ endfor }}")
  | Conditional _ _ branches default =>
      repr_branches <~
        (fix clauses (first : bool) (bs : list (expression * list node)) : M (list string) :=
           match bs with
           | [] => ret []
           | (expr, branch) :: rest =>
               e <~ str_expression expr ;;
               b <~ str_all branch ;;
               more <~ clauses false rest ;;
               ret (("{{ " +:+ (if first then "if" else "elif") +:+ " " +:+ e +:+ " }}" +:+ b)
                    :: more)
           end) true branches ;;
      else_clause <~
        match default with
        | Some (p :: d) => b <~ str_all (p :: d) ;; ret ["{{ else }}" +:+ b]
        | _ => ret []
        end ;;
      ret (newline +:+ join newline (repr_branches ++ else_clause ++ ["{{ endif }}"]))
  end.

(** [Template.__str__] on the list that the template is. *)
Fixpoint str_nodes (l : list node) : M string :=
  match l with
  | [] => ret EmptyString
  | x :: r => a <~ str_node x ;; b <~ str_nodes r ;; ret (a +:+ b)
  end.

Module TemplateParse.
Section Parse.
Variable registered : registry.
Variable eval_arguments : string -> outcome (list value).

(** [htmlsafe.tags[str(tag)] = tag.Parse( **kwds)] *)
Definition record (kw : kwds) (tag : TemplateTag.t) (tags : gmap string string)
  : outcome (gmap string string) :=
  r <- TemplateTag.Parse registered eval_arguments tag kw ;;
  Ok (<[TemplateTag.str tag := r]> tags).

Fixpoint record_parts (kw : kwds) (parts : list part) (tags : gmap string string)
  : outcome (gmap string string) :=
  match parts with
  | [] => Ok tags
  | PartTag tag :: rest => tags' <- record kw tag tags ;; record_parts kw rest tags'
  | PartText _ :: rest => record_parts kw rest tags
  end.

Fixpoint record_nodes (kw : kwds) (l : list node) (tags : gmap string string)
  : outcome (gmap string string) :=
  match l with
  | [] => Ok tags
  | Tag tag :: rest => tags' <- record kw tag tags ;; record_nodes kw rest tags'
  | _ :: rest => record_nodes kw rest tags
  end.

(** The loop over [itertools.chain( *tag.branches)]: of each branch its
    first component, then its body. *)
Fixpoint record_branches (kw : kwds) (branches : list (expression * list node))
  (tags : gmap string string) : M (gmap string string) :=
  match branches with
  | [] => ret tags
  | (expr, branch) :: rest =>
      tags1 <~ match expr with
               | Tuple parts => lift (record_parts kw parts tags)
               | MapObject address => for_map address (record kw) tags
               end ;;
      tags2 <~ lift (record_nodes kw branch tags1) ;;
      record_branches kw rest tags2
  end.

(** The loop [for tag in self] of the no-parse mode. *)
Fixpoint record_all (kw : kwds) (l : list node) (tags : gmap string string)
  : M (gmap string string) :=
  match l with
  | [] => ret tags
  | n :: rest =>
      tags1 <~ match n with
               | Conditional _ _ branches _ => record_branches kw branches tags
               | _ => ret tags
               end ;;
      tags2 <~ match n with
               | Tag tag => lift (record kw tag tags1)
               | _ => ret tags1
               end ;;
      record_all kw rest tags2
  end.

(** [self.parser and self.parser.noparse] *)
Definition noparse_mode (self : Template.t) : bool :=
  match Template.parser self with
  | Some p => holds_templates p && noparse p
  | None => false
  end.

(** The body of [Template.Parse] on the store of the template. *)
Definition Parse_body (self : Template.t) (returnRawTemplate : bool) (kw : kwds)
  : M HTMLsafestring :=
  rendered <~ join_Parse (Parse_node registered eval_arguments) (Template.contents self) kw ;;
  let hash := MD5 rendered in
  if returnRawTemplate
  then raw <~ str_nodes (Template.contents self) ;;
       ret {| text := raw; content_hash := hash; page_hash := None; tags := None |}
  else if noparse_mode self
  then page <~ str_nodes (Template.contents self) ;;
       found <~ record_all kw (Template.contents self) ∅ ;;
       ret {| text := rendered; content_hash := hash;
              page_hash := Some (MD5 page); tags := Some found |}
  else ret {| text := rendered; content_hash := hash; page_hash := None; tags := None |}.

Definition on_maps {A} (m : M A) : St Template.t A :=
  fun self =>
    let '(r, maps') := m (Template.maps self) in
    (r, Template.with_maps self maps' (Template.next_map self)).

(** [Template.Parse(self, returnRawTemplate=False, **kwds)] *)
Definition Parse (returnRawTemplate : bool) (kw : kwds) : St Template.t HTMLsafestring :=
  fun self =>
    if binds kw "self" then (Raise PyTypeError, self)
    else on_maps (Parse_body self returnRawTemplate kw) self.

(** The same, called with a mapping only: a key [returnRawTemplate] of the
    mapping is the parameter of that name. *)
Definition Parse_kwds (kw : kwds) : St Template.t HTMLsafestring :=
  Parse (match kw !! "returnRawTemplate" with Some v => py_bool v | None => false end)
        (delete "returnRawTemplate" kw).

End Parse.
End TemplateParse.

(** ** [class FileTemplate] *)

Module FileTemplate.

Record t := New {
  template : Template.t;
  _template_path : string;
  _file_name : string;
  _file_mtime : Z }.

(** The file [_file_name] at the time of a call: what [os.path.getmtime]
    and [open(...).read()] do on it.  Modification times are compared only;
    they are integers here. *)
Record file := { getmtime : outcome Z; read : outcome string }.

Definition with_template (self : t) (tmpl : Template.t) : t :=
  New tmpl (_template_path self) (_file_name self) (_file_mtime self).

(** [del self[:]] and [self.scopes = [self]]: the [map] objects of the
    dropped nodes go with them. *)
Definition cleared (tmpl : Template.t) : Template.t :=
  Template.New (Template.class_name tmpl) (Template.parser tmpl) [] [] ∅ 0.

Definition ReloadIfModified (f : file) : St t unit :=
  catchM
    (fun self =>
       match getmtime f with
       | Ok mtime =>
           if (mtime >? _file_mtime self)%Z
           then
             match read f with
             | Ok source =>
                 match Template.AddString source (cleared (template self)) with
                 | (Ok tt, tmpl) =>
                     (Ok tt, New tmpl (_template_path self) (_file_name self) mtime)
                 | (Raise e, tmpl) => (Raise e, with_template self tmpl)
                 | (Beyond, tmpl) => (Beyond, with_template self tmpl)
                 end
             | Raise e => (Raise e, self)
             | Beyond => (Beyond, self)
             end
           else (Ok tt, self)
       | Raise e => (Raise e, self)
       | Beyond => (Beyond, self)
       end)
    is_OSError
    (fun _ => ret tt).

(** [FileTemplate(template_path, parser)], with [os.path.abspath] of the
    path given. *)
Definition __init__ (template_path file_name : string) (f : file) (parser : option Parser)
  : outcome t :=
  catch
    (mtime <- getmtime f ;;
     raw_template <- read f ;;
     match Template.AddString raw_template (Template.New "FileTemplate" parser [] [] ∅ 0) with
     | (Ok tt, tmpl) => Ok (New tmpl template_path file_name mtime)
     | (Raise e, _) => Raise e
     | (Beyond, _) => Beyond
     end)
    is_OSError
    (fun _ => Raise (TemplateReadError template_path)).

(** What [Parse] returns: the string, or the dict of the no-parse mode. *)
Inductive parsed :=
| Rendered (result : HTMLsafestring)
| Report (template : string) (replacements : gmap string string)
    (content_hash page_hash : digest).

(** [self._file_name.rsplit('/')[-1]] *)
Definition file_part (file_name : string) : string :=
  List.last (split_on "/" file_name) EmptyString.

Section Parse.
Variable registered : registry.
Variable eval_arguments : string -> outcome (list value).

Definition Parse (f : file) (kw : kwds) : St t parsed :=
  fun self =>
    if binds kw "self" then (Raise PyTypeError, self)
    else
      match ReloadIfModified f self with
      | (Ok tt, self1) =>
          match TemplateParse.Parse_kwds registered eval_arguments kw (template self1) with
          | (Ok result, tmpl) =>
              let self2 := with_template self1 tmpl in
              if TemplateParse.noparse_mode tmpl
              then match tags result, page_hash result with
                   | Some found, Some page =>
                       (Ok (Report (file_part (_file_name self2)) found
                                   (content_hash result) page), self2)
                   | _, _ => (Raise PyAttributeError, self2)
                   end
              else (Ok (Rendered result), self2)
          | (Raise e, tmpl) => (Raise e, with_template self1 tmpl)
          | (Beyond, tmpl) => (Beyond, with_template self1 tmpl)
          end
      | (Raise e, self1) => (Raise e, self1)
      | (Beyond, self1) => (Beyond, self1)
      end.

End Parse.
End FileTemplate.

(** ** The functions of the missing module, for the initial table

    Modelled from the spec: the module [safestring] is not part of the
    sources.  The spec has [default] HTML-escape a value that is not safe and
    mark it HTML-safe ([<b>] becomes [&lt;b&gt;]), and be the identity on a
    value that is HTML-safe already.  It does not say how quotes are
    escaped, what becomes of a URL-safe value, or how [url] escapes. *)

Fixpoint HtmlEscape (s : string) : outcome string :=
  match s with
  | EmptyString => Ok EmptyString
  | String c r =>
      rest <- HtmlEscape r ;;
      if (code c =? 38)%nat then Ok ("&amp;" +:+ rest)
      else if (code c =? 60)%nat then Ok ("&lt;" +:+ rest)
      else if (code c =? 62)%nat then Ok ("&gt;" +:+ rest)
      else if (code c =? 34)%nat || (code c =? 39)%nat then Beyond
      else Ok (String c rest)
  end.

Definition HTMLsafestring_add (d : value) : outcome value :=
  match d with
  | VSafe Html s => Ok (VSafe Html s)
  | VSafe Url _ => Beyond
  | _ => s <- py_str d ;; e <- HtmlEscape s ;; Ok (VSafe Html e)
  end.

Definition URLqueryargumentsafestring (d : value) : outcome value := Beyond.

(** [sorted] on a list of numbers or of strings, by insertion. *)
Fixpoint insert_sorted (x : scalar) (l : list scalar) : outcome (list scalar) :=
  match l with
  | [] => Ok [x]
  | y :: r =>
      c <- scalar_compare x y ;;
      match c with
      | Lt => Ok (x :: y :: r)
      | _ => r' <- insert_sorted x r ;; Ok (y :: r')
      end
  end.

Definition value_of_scalar (s : scalar) : value :=
  match s with SNone => VNone | SNum z => VInt z | SText t => VStr t end.

Definition sorted (v : value) : outcome value :=
  match v with
  | VList l | VTuple l =>
      if forallb (fun x => match x with VInt _ | VStr _ => true | _ => false end) l
      then match scalars_of l with
           | Some xs =>
               r <- fold_right (fun x acc => a <- acc ;; insert_sorted x a) (Ok []) xs ;;
               Ok (VList (map value_of_scalar r))
           | None => Beyond
           end
      else Beyond
  | VNone | VBool _ | VInt _ => Raise PyTypeError
  | _ => Beyond
  end.

(** [TAG_FUNCTIONS] as the module defines it. *)
Definition initial_functions : registry :=
  TAG_FUNCTIONS HTMLsafestring_add URLqueryargumentsafestring sorted.

(** A host whose [eval] is not asked for the arguments of a closure. *)
Definition no_closures : string -> outcome (list value) := fun _ => Beyond.

(** [Template(source, parser).Parse( **kw)]: the text of the result. *)
Definition render (registered : registry) (source : string) (kw : kwds) : outcome string :=
  match Template.__init__ source None with
  | (Ok tt, tmpl) =>
      r <- fst (TemplateParse.Parse_kwds registered no_closures kw tmpl) ;; Ok (text r)
  | (Raise e, _) => Raise e
  | (Beyond, _) => Beyond
  end.

(** ** Vocabulary of the properties *)

(** An exception that [TemplateTag.Parse] recovers from. *)
Definition recovered (e : exn) : Prop :=
  (exists m, e = TemplateNameError m) \/ (exists needle, e = TemplateKeyError needle).

(** Texts of indices and of functions as [__str__] joins them. *)
Definition indices_text (indices : list string) : string :=
  concat_str (map (fun index => ":" +:+ index) indices).
Definition functions_text (functions : list string) : string :=
  concat_str (map (fun func => "|" +:+ func) functions).

Definition words (s : string) : Prop :=
  s <> EmptyString /\ all_chars is_word s = true.
Definition word_dashes (s : string) : Prop :=
  s <> EmptyString /\ all_chars is_word_dash s = true.

(** A text after which the name of an index, or a function without
    arguments, ends. *)
Definition index_stops (s : string) : Prop :=
  match s with
  | String c _ => is_word_dash c = false /\ Ascii.eqb c ":" = false
  | EmptyString => True
  end.
Definition function_stops (s : string) : Prop :=
  match s with
  | String c _ => is_word_dash c = false /\ Ascii.eqb c "(" = false
  | EmptyString => True
  end.

(** No tag among [parts] has its name in the replacements. *)
Definition unresolved (kw : kwds) (parts : list part) : Prop :=
  Forall (fun p => match p with
                   | PartTag tag => kw !! TemplateTag.name tag = None
                   | PartText _ => True
                   end) parts.

(** Pieces as [Template.TAG.split] gives them: a piece at an odd position
    is the text of a tag, as [FromString] reads it and [__str__] prints it. *)
Fixpoint tag_pieces (odd : bool) (pieces : list string) : Prop :=
  match pieces with
  | [] => True
  | piece :: rest =>
      (if odd
       then exists tag, TemplateTag.FromString piece = Ok tag /\ TemplateTag.str tag = piece
       else True)
      /\ tag_pieces (negb odd) rest
  end.

(** A function of a tag as the pattern reads it: a name, and arguments in
    parentheses or nothing. *)
Definition function_text (f : string) : Prop :=
  exists name arguments,
    word_dashes name
    /\ f = name +:+ arguments
    /\ (arguments = EmptyString
        \/ exists a, arguments = "(" +:+ a +:+ ")" /\ all_chars is_no_paren a = true).

(** A raw tag of a presence branch whose value is found in [kw], and one
    whose lookup fails with the errors that [Expression] catches. *)
Definition resolves (kw : kwds) (raw : string) : Prop :=
  exists tag v, TemplateTag.FromString raw = Ok tag /\ TemplateTag.GetValue tag kw = Ok v.

Definition unresolvable (kw : kwds) (raw : string) : Prop :=
  exists tag e, TemplateTag.FromString raw = Ok tag
    /\ TemplateTag.GetValue tag kw = Raise e
    /\ is_TemplateKeyError e || is_TemplateNameError e = true.

(** The names that an expression mentions. *)
Fixpoint names (e : expr) : list string :=
  match e with
  | EName x => [x]
  | EConst _ => []
  | ENot a => names a
  | EAnd l r | EOr l r | ECmp _ l r => names l ++ names r
  end.

(** The template of scenario 4 of the spec, and what it compiles to. *)
Definition short_circuit_source : string :=
  "{{ if [a] and [b:0] }}yes{{ else }}no{{ endif }}".
Definition short_circuit_condition : list part :=
  [PartTag (TemplateTag.New "a" [] []); PartText " and ";
   PartTag (TemplateTag.New "b" ["0"] [])].
Definition short_circuit_node : node :=
  Conditional false true [(Tuple short_circuit_condition, [Text "yes"])] (Some [Text "no"]).

(** The errors of the final check of [AddString]. *)
Definition depth_report (e : exn) : bool :=
  match e with
  | TemplateSyntaxError (ClosedTooMany _) | TemplateSyntaxError (LeftOpen _) => true
  | _ => false
  end.

(** A computation that raises no error of that check. *)
Definition quiet {A} (m : St Template.t A) : Prop :=
  forall self e self', m self = (Raise e, self') -> depth_report e = false.

Definition quiet_outcome {A} (o : outcome A) : Prop :=
  forall e, o = Raise e -> depth_report e = false.

(** A template compiled from [source] and parsed twice: both results. *)
Definition render_twice (registered : registry) (source : string) (kw1 kw2 : kwds)
  : outcome string * outcome string :=
  match Template.__init__ source None with
  | (Ok tt, tmpl) =>
      let '(r1, tmpl1) := TemplateParse.Parse_kwds registered no_closures kw1 tmpl in
      let '(r2, _) := TemplateParse.Parse_kwds registered no_closures kw2 tmpl1 in
      (r <- r1 ;; Ok (text r), r <- r2 ;; Ok (text r))
  | (Raise e, _) => (Raise e, Raise e)
  | (Beyond, _) => (Beyond, Beyond)
  end.

(** Examples for [FileTemplate]: a template compiled from [old] at time 1,
    its file changed at time 2 to a text that leaves a scope open, and the
    file gone. *)
Definition old_template : FileTemplate.t :=
  FileTemplate.New (Template.New "FileTemplate" None [Text "old"] [] ∅ 0)
    "page.html" "/srv/page.html" 1.
Definition broken_file : FileTemplate.file :=
  {| FileTemplate.getmtime := Ok 2; FileTemplate.read := Ok "{{ if [a] }}new" |}.
Definition missing_file : FileTemplate.file :=
  {| FileTemplate.getmtime := Raise PyOSError; FileTemplate.read := Raise PyOSError |}.

(** The file changed at time 2 to a text that compiles. *)
Definition changed_file : FileTemplate.file :=
  {| FileTemplate.getmtime := Ok 2; FileTemplate.read := Ok "new [a]" |}.



(** Every entry of the mapping is the text of a tag with what the tag
    parses to. *)
Definition entries_parsed (registered : registry)
  (eval_arguments : string -> outcome (list value)) (kw : kwds)
  (found : gmap string string) : Prop :=
  forall k s, found !! k = Some s ->
    exists tag, TemplateTag.str tag = k
                /\ TemplateTag.Parse registered eval_arguments tag kw = Ok s.

(** [found'] keeps the keys of [found], and its entries are parsed tags if
    those of [found] are. *)
Definition grows (registered : registry)
  (eval_arguments : string -> outcome (list value)) (kw : kwds)
  (found found' : gmap string string) : Prop :=
  (entries_parsed registered eval_arguments kw found ->
   entries_parsed registered eval_arguments kw found')
  /\ (forall k, is_Some (found !! k) -> is_Some (found' !! k)).

(** Induction on a node with the nodes of its bodies. *)
Section node_induction.
Variable P : node -> Prop.
Hypothesis HText : forall s, P (Text s).
Hypothesis HTag : forall tag, P (Tag tag).
Hypothesis HLoop : forall tag aliases body, Forall P body -> P (Loop tag aliases body).
Hypothesis HConditional : forall p c branches default,
  Forall (fun b => Forall P (snd b)) branches ->
  Forall P (match default with Some d => d | None => [] end) ->
  P (Conditional p c branches default).

End node_induction.


(** A computation after which a [map] object that had nothing left to
    yield still has nothing left. *)
Definition settles {A} (m : M A) : Prop :=
  forall st r st', m st = (r, st') ->
    forall address, st !! address = Some [] -> st' !! address = Some [].







(** ** [class Parser]

    A [Parser] is a dict: the templates it has loaded, by name, with the
    directory it loads them from and the no-parse flag.  A template holds a
    reference to its parser; what it reads through that reference
    ([self.parser and self.parser.noparse]: whether the dict holds a
    template, and the flag) is the parser as it is when the template is
    parsed. *)

(** [s.endswith(c)] for one character. *)
Fixpoint ends_with (c : ascii) (s : string) : bool :=
  match s with
  | EmptyString => false
  | String d EmptyString => Ascii.eqb d c
  | String _ r => ends_with c r
  end.

(** [os.path.join(a, b)] of [posixpath]. *)
Definition path_join (a b : string) : string :=
  if starts_with "/" b then b
  else if String.eqb a "" || ends_with "/" a then a +:+ b
  else a +:+ "/" +:+ b.

(** [TAG_FUNCTIONS[name] = function], the body of the static method
    [Parser.RegisterFunction]. *)
Definition RegisterFunction (name : string) (function : tagfunc) (registered : registry)
  : registry :=
  <[name := function]> registered.

Module Parser.

Record t := New {
  template_dir : string;
  noparse : bool;
  templates : gmap string FileTemplate.t }.

Definition with_templates (self : t) (m : gmap string FileTemplate.t) : t :=
  New (template_dir self) (noparse self) m.

(** What a template reads of the parser. *)
Definition view (self : t) : Parser :=
  Build_Parser (noparse self) (negb (size (templates self) =? 0)%nat).

(** A template whose [parser] attribute is [self], as [self] is now. *)
Definition bound (self : t) (tmpl : FileTemplate.t) : FileTemplate.t :=
  let inner := FileTemplate.template tmpl in
  FileTemplate.with_template tmpl
    (Template.New (Template.class_name inner) (Some (view self)) (Template.nodes inner)
       (Template.scopes inner) (Template.maps inner) (Template.next_map inner)).

Section Host.
(** The host: [os.path.abspath], the files by their absolute names as they
    are during the call, the content of [TAG_FUNCTIONS] and [eval] on the
    arguments of closures. *)
Variable abspath : string -> string.
Variable disk : string -> FileTemplate.file.
Variable registered : registry.
Variable eval_arguments : string -> outcome (list value).

(** [name or location] *)
Definition name_or (name : option string) (location : string) : string :=
  match name with
  | Some (String c r) => String c r
  | _ => location
  end.

(** [AddTemplate(location, name=None)].  The two messages of
    [TemplateReadError], of [FileTemplate] and of this method, name the same
    path. *)
Definition AddTemplate (location : string) (name : option string) : St t unit :=
  fun self =>
    let template_path := path_join (template_dir self) location in
    let file_name := abspath template_path in
    match catch (FileTemplate.__init__ template_path file_name (disk file_name)
                   (Some (view self)))
                is_OSError
                (fun _ => Raise (TemplateReadError template_path)) with
    | Ok tmpl => (Ok tt, with_templates self (<[name_or name location := tmpl]> (templates self)))
    | Raise e => (Raise e, self)
    | Beyond => (Beyond, self)
    end.

(** The loop of [__init__] over the names to preload. *)
Fixpoint add_templates (names : list string) : St t unit :=
  match names with
  | [] => ret tt
  | template :: rest => _ <~ AddTemplate template None ;; add_templates rest
  end.

(** [Parser(path, templates, noparse)]: also the object as the constructor
    leaves it when it raises. *)
Definition __init__ (path : string) (names : list string) (noparse : bool)
  : outcome unit * t :=
  add_templates names (New path noparse ∅).

Definition __getitem__ (template : string) : St t FileTemplate.t :=
  fun self =>
    match templates self !! template with
    | Some tmpl => (Ok tmpl, self)
    | None =>
        match AddTemplate template None self with
        | (Ok tt, self') =>
            match templates self' !! template with
            | Some tmpl => (Ok tmpl, self')
            | None => (Raise PyKeyError, self')
            end
        | (Raise e, self') => (Raise e, self')
        | (Beyond, self') => (Beyond, self')
        end
    end.

(** [Parse(template, **replacements)]: the template is parsed where it is,
    in the dict. *)
Definition Parse (template : string) (replacements : kwds) : St t FileTemplate.parsed :=
  fun self =>
    if binds replacements "self" || binds replacements "template"
    then (Raise PyTypeError, self)
    else
      match __getitem__ template self with
      | (Ok tmpl, self1) =>
          let '(r, tmpl') :=
            FileTemplate.Parse registered eval_arguments
              (disk (FileTemplate._file_name tmpl)) replacements (bound self1 tmpl) in
          (r, with_templates self1 (<[template := tmpl']> (templates self1)))
      | (Raise e, self1) => (Raise e, self1)
      | (Beyond, self1) => (Beyond, self1)
      end.

(** [ParseString(template, **replacements)] *)
Definition ParseString (template : string) (replacements : kwds) : St t HTMLsafestring :=
  fun self =>
    if binds replacements "self" || binds replacements "template"
    then (Raise PyTypeError, self)
    else
      match Template.__init__ template (Some (view self)) with
      | (Ok tt, tmpl) =>
          (fst (TemplateParse.Parse_kwds registered eval_arguments replacements tmpl), self)
      | (Raise e, _) => (Raise e, self)
      | (Beyond, _) => (Beyond, self)
      end.

End Host.
End Parser.

(** ** More vocabulary *)

(** [s.lower()] *)
Fixpoint lower (s : string) : string :=
  match s with
  | String c r => String (to_lower c) (lower r)
  | EmptyString => EmptyString
  end.

(** The template functions: the names after [_TemplateConstruct] of the
    methods of [Template]. *)
Definition constructs : list string :=
  ["Xsrf"; "Inline"; "For"; "Endfor"; "If"; "Ifpresent"; "Ifnotpresent"; "Elif";
   "Else"; "Endif"].

(** The error of [haystack[int(needle)]] on a value without items: that of
    [int] if it has one, and [TypeError] of the subscription otherwise. *)
Definition subscript_error (needle : string) : exn :=
  match py_int needle with
  | Raise e => e
  | _ => PyTypeError
  end.

(** [e] is the [ValueError] of [int] on the index [needle]: digits, more of
    them than [int] converts. *)
Definition too_many_digits (needle : string) (e : exn) : Prop :=
  e = PyOther "ValueError"
  /\ isdigit needle = true
  /\ (int_max_str_digits < String.length needle)%nat.

(** Values without items: subscription raises [TypeError]. *)
Definition no_items (v : value) : bool :=
  match v with
  | VNone | VBool _ | VInt _ | VObj _ _ => true
  | _ => false
  end.

(** The passes of a loop, each on the replacements of the caller with the
    alias bound to the item of the pass. *)
Definition passes (Parse_node : node -> kwds -> M string) (alias : string)
  (body : list node) (kw : kwds) : list value -> M string :=
  fix each (items : list value) : M string :=
    match items with
    | [] => ret EmptyString
    | item :: rest =>
        out <~ join_Parse Parse_node body (<[alias := item]> kw) ;;
        more <~ each rest ;;
        ret (out +:+ more)
    end.

(** What [TemplateConditional.Parse] does once no branch is taken. *)
Definition otherwise (Parse_node : node -> kwds -> M string) (default : option (list node))
  (kw : kwds) : M string :=
  match default with
  | Some (p :: d) => join_Parse Parse_node (p :: d) kw
  | _ => ret EmptyString
  end.

(** [type(self.scopes[-1]).__name__] *)
Definition open_scope_name (self : Template.t) : string :=
  match Template.scopes self with
  | [] => Template.class_name self
  | top :: _ => Template.type_name top
  end.

(** [isinstance(self.scopes[-1], TemplateConditional)] *)
Definition open_conditional (self : Template.t) : bool :=
  match Template.scopes self with
  | [] => false
  | top :: _ => Template.isinstance top Template.TemplateConditional
  end.

(** A computation on a template that keeps its class, its parser and the
    nodes it has at the top level, and may add nodes after them. *)
Definition appends {A} (m : St Template.t A) : Prop :=
  forall self r self', m self = (r, self') ->
    Template.class_name self' = Template.class_name self
    /\ Template.parser self' = Template.parser self
    /\ exists added, Template.nodes self' = Template.nodes self ++ added.

(** What a scope of [self.scopes] is, above the template itself: a loop, or
    a conditional, which has a branch from its construction on. *)
Definition is_scope (n : node) : Prop :=
  match n with
  | Loop _ _ _ => True
  | Conditional _ _ (_ :: _) _ => True
  | _ => False
  end.

Definition well_scoped (self : Template.t) : Prop :=
  Forall is_scope (Template.scopes self).

(** The classes of the errors of compiling. *)
Definition compile_error (e : exn) : bool :=
  match e with
  | TemplateSyntaxError _ | PyTypeError | PyIndexError => true
  | _ => false
  end.

(** A computation on a template that keeps its open scopes scopes, and
    raises errors of those classes only. *)
Definition compiling {A} (m : St Template.t A) : Prop :=
  forall self r self', well_scoped self -> m self = (r, self') ->
    well_scoped self' /\ forall e, r = Raise e -> compile_error e = true.

(** * Properties *)

Lemma call_kwds_free {A} (param : string) (kw : kwds) (body : outcome A) :
  kw !! param = None -> call_kwds param kw body = body.
Proof. intros H. unfold call_kwds, binds. now rewrite H. Qed.

Lemma call_kwdsM_free {A} (param : string) (kw : kwds) (body : M A) :
  kw !! param = None -> call_kwdsM param kw body = body.
Proof. intros H. unfold call_kwdsM, binds. now rewrite H. Qed.

Lemma recovered_iff (e : exn) :
  recovered e <-> is_TemplateKeyError e || is_TemplateNameError e = true.
Proof.
  unfold recovered. split.
  - intros [[m ->] | [n ->]]; reflexivity.
  - destruct e; simpl; try discriminate; eauto.
Qed.

Lemma GetValue_absent (tag : TemplateTag.t) (kw : kwds) :
  kw !! TemplateTag.name tag = None ->
  TemplateTag.GetValue tag kw
  = Raise (TemplateNameError (NoReplacement (TemplateTag.name tag))).
Proof. intros H. unfold TemplateTag.GetValue. now rewrite H. Qed.

Lemma _GetIndex_raises (haystack : value) (needle : string) (e : exn) :
  TemplateTag._GetIndex haystack needle = Raise e -> is_KeyError e = false.
Proof.
  unfold TemplateTag._GetIndex, catch.
  destruct (isdigit needle).
  - destruct (bind (py_int needle) _) as [v|e1|]; try discriminate.
    + destruct (is_KeyError e1) eqn:K1.
      * destruct (py_getitem haystack (KStr needle)) as [v|e2|]; try discriminate.
        destruct (is_AttributeError e2 || is_LookupError e2) eqn:C2;
          intros [= <-]; [reflexivity|].
        destruct e2; simpl in *; congruence.
      * destruct (is_AttributeError e1 || is_LookupError e1) eqn:C1;
          intros [= <-]; [reflexivity|]. exact K1.
  - destruct (py_getitem haystack (KStr needle)) as [v|e1|]; try discriminate.
    destruct (is_KeyError e1 || is_TypeError e1) eqn:K1.
    + destruct (py_getattr haystack needle) as [v|e2|]; try discriminate.
      destruct (is_AttributeError e2 || is_LookupError e2) eqn:C2;
        intros [= <-]; [reflexivity|].
      destruct e2; simpl in *; congruence.
    + destruct (is_AttributeError e1 || is_LookupError e1) eqn:C1;
        intros [= <-]; [reflexivity|].
      destruct e1; simpl in *; congruence.
Qed.

Lemma reduce_indices_raises (indices : list string) (v : value) (e : exn) :
  TemplateTag.reduce_indices v indices = Raise e -> is_KeyError e = false.
Proof.
  revert v. induction indices as [|i rest IH]; intros v; simpl; [discriminate|].
  destruct (TemplateTag._GetIndex v i) as [w|e1|] eqn:G; simpl; try discriminate.
  - apply IH.
  - intros [= <-]. eapply _GetIndex_raises; eauto.
Qed.

Lemma GetValue_present (tag : TemplateTag.t) (kw : kwds) (v : value) :
  kw !! TemplateTag.name tag = Some v ->
  TemplateTag.GetValue tag kw = TemplateTag.reduce_indices v (TemplateTag.indices tag).
Proof.
  intros H. unfold TemplateTag.GetValue. rewrite H. simpl.
  destruct (TemplateTag.reduce_indices v (TemplateTag.indices tag)) as [w|e|] eqn:R;
    simpl; try reflexivity.
  now rewrite (reduce_indices_raises _ _ _ R).
Qed.

(** *** The scenarios of the spec *)

Example scenario_simple_interpolation :
  render initial_functions "Hello [name]!" {[ "name" := VStr "world" ]} = Ok "Hello world!".
Proof. vm_compute. reflexivity. Qed.

Example scenario_index_chain :
  render initial_functions "[user:0:name]"
    {[ "user" := VList [VDict [(KStr "name", VStr "Ada")]] ]}
  = Ok "Ada".
Proof. vm_compute. reflexivity. Qed.

Example scenario_function_pipeline :
  render initial_functions "[xs|sorted|len]" {[ "xs" := VList [VInt 3; VInt 1; VInt 2] ]}
  = Ok "3".
Proof. vm_compute. reflexivity. Qed.

Example scenario_loop_with_unpack :
  render initial_functions "{{ for k, v in [m|items] }}[k]=[v];{{ endfor }}"
    {[ "m" := VDict [(KStr "a", VInt 1); (KStr "b", VInt 2)] ]}
  = Ok "a=1;b=2;".
Proof. vm_compute. reflexivity. Qed.

Example scenario_html_escaping :
  render initial_functions "[s]" {[ "s" := VStr "<b>" ]} = Ok "&lt;b&gt;"
  /\ render initial_functions "[s|raw]" {[ "s" := VStr "<b>" ]} = Ok "<b>".
Proof. split; vm_compute; reflexivity. Qed.

Example scenario_presence :
  render initial_functions "{{ ifpresent [x] }}have{{ else }}none{{ endif }}"
    {[ "x" := VInt 0 ]} = Ok "have"
  /\ render initial_functions "{{ ifpresent [x] }}have{{ else }}none{{ endif }}" ∅
     = Ok "none".
Proof. split; vm_compute; reflexivity. Qed.

(** *** The text of a tag is what [FromString] read *)

Lemma app_cons (c : ascii) (a b : string) : String c a +:+ b = String c (a +:+ b).
Proof. reflexivity. Qed.

Lemma app_nil_l (b : string) : EmptyString +:+ b = b.
Proof. reflexivity. Qed.

Lemma app_nil_r (a : string) : a +:+ EmptyString = a.
Proof. induction a as [|c a IH]; [reflexivity|]. now rewrite app_cons, IH. Qed.

Lemma app_assoc' (a b c : string) : (a +:+ b) +:+ c = a +:+ (b +:+ c).
Proof. induction a as [|x a IH]; [reflexivity|]. now rewrite !app_cons, IH. Qed.

Ltac norm_app := repeat (rewrite app_assoc' || rewrite app_cons || rewrite app_nil_l).

Lemma length_app (a b : string) :
  String.length (a +:+ b) = (String.length a + String.length b)%nat.
Proof. induction a as [|x a IH]; [reflexivity|]. rewrite app_cons. simpl. now rewrite IH. Qed.

Lemma substring_prefix (a b : string) :
  String.substring 0 (String.length a) (a +:+ b) = a.
Proof.
  induction a as [|x a IH].
  - destruct b; reflexivity.
  - rewrite app_cons. simpl. now rewrite IH.
Qed.

Lemma matched_app (a b : string) : matched (a +:+ b) b = a.
Proof.
  unfold matched. rewrite length_app.
  replace (String.length a + String.length b - String.length b)%nat
    with (String.length a) by lia.
  apply substring_prefix.
Qed.

Lemma span_app (p : ascii -> bool) (s a b : string) :
  span p s = (a, b) -> s = a +:+ b /\ all_chars p a = true.
Proof.
  revert a b. induction s as [|c s IH]; intros a b; simpl.
  - intros [= <- <-]. split; reflexivity.
  - destruct (p c) eqn:P.
    + destruct (span p s) as [a' b'] eqn:S. intros [= <- <-].
      destruct (IH _ _ eq_refl) as [-> H]. split; [reflexivity|].
      simpl. now rewrite P.
    + intros [= <- <-]. split; reflexivity.
Qed.

Lemma span_stops (p : ascii -> bool) (a b : string) :
  all_chars p a = true ->
  match b with String c _ => p c = false | EmptyString => True end ->
  span p (a +:+ b) = (a, b).
Proof.
  intros Ha Hb. induction a as [|c a IH].
  - rewrite app_nil_l. destruct b as [|c b]; [reflexivity|]. simpl. now rewrite Hb.
  - simpl in Ha. apply andb_true_iff in Ha as [Hc Ha].
    rewrite app_cons. simpl. rewrite Hc, (IH Ha). reflexivity.
Qed.

Lemma word_dash_no_colon (c : ascii) : is_word_dash c = true -> Ascii.eqb c ":" = false.
Proof.
  destruct c as [[] [] [] [] [] [] [] []]; intros H; try reflexivity; discriminate H.
Qed.

Lemma scan_indices_step (fuel : nat) (c : ascii) (r : string) :
  scan_indices (S fuel) (String c r)
  = if Ascii.eqb c ":"
    then match span is_word_dash r with
         | (String _ _, rest) => scan_indices fuel rest
         | _ => String c r
         end
    else String c r.
Proof. destruct c as [[] [] [] [] [] [] [] []]; reflexivity. Qed.

Lemma eqb_colon (c : ascii) : Ascii.eqb c ":" = true -> c = ":"%char.
Proof. apply Ascii.eqb_eq. Qed.

Lemma scan_indices_spec (fuel : nat) (s : string) :
  exists indices,
    s = indices_text indices +:+ scan_indices fuel s
    /\ Forall word_dashes indices.
Proof.
  revert s. induction fuel as [|fuel IH]; intros s.
  - exists []. split; [reflexivity|constructor].
  - destruct s as [|c r].
    + exists []. split; [reflexivity|constructor].
    + rewrite scan_indices_step.
      destruct (Ascii.eqb c ":") eqn:E; [|exists []; split; [reflexivity|constructor]].
      apply eqb_colon in E. subst c.
      destruct (span is_word_dash r) as [[|d w] rest] eqn:S;
        [exists []; split; [reflexivity|constructor]|].
      destruct (span_app _ _ _ _ S) as [-> Hw].
      destruct (IH rest) as (indices & Hrest & Hall).
      exists (String d w :: indices). split.
      * unfold indices_text. simpl. fold (indices_text indices).
        norm_app. rewrite <- Hrest. reflexivity.
      * constructor; [split; [discriminate|exact Hw]|exact Hall].
Qed.

Lemma all_chars_no_colon (s : string) :
  all_chars is_word_dash s = true -> all_chars (fun c => negb (Ascii.eqb c ":")) s = true.
Proof.
  induction s as [|c s IH]; simpl; [reflexivity|].
  intros H. apply andb_true_iff in H as [Hc Hs].
  now rewrite (word_dash_no_colon _ Hc), (IH Hs).
Qed.

Lemma split_on_step (c : ascii) (s : string) :
  Ascii.eqb c ":" = false ->
  split_on ":" (String c s)
  = match split_on ":" s with
    | h :: t => String c h :: t
    | [] => [String c EmptyString]
    end.
Proof. intros H. simpl. now rewrite H. Qed.

Lemma split_on_indices (index : string) (indices : list string) :
  all_chars is_word_dash index = true ->
  Forall word_dashes indices ->
  split_on ":" (index +:+ indices_text indices) = index :: indices.
Proof.
  intros Hi Hall. revert index Hi.
  induction Hall as [|i rest [_ Hw] Hrest IH]; intros index Hi.
  - unfold indices_text. simpl. rewrite app_nil_r.
    induction index as [|c s IHs]; [reflexivity|].
    simpl in Hi. apply andb_true_iff in Hi as [Hc Hs].
    rewrite (split_on_step _ _ (word_dash_no_colon _ Hc)), (IHs Hs). reflexivity.
  - induction index as [|c s IHs].
    + rewrite app_nil_l. unfold indices_text. simpl. fold (indices_text rest).
      rewrite app_nil_l, (IH i Hw). reflexivity.
    + simpl in Hi. apply andb_true_iff in Hi as [Hc Hs].
      rewrite app_cons, (split_on_step _ _ (word_dash_no_colon _ Hc)), (IHs Hs).
      reflexivity.
Qed.

Lemma GetIndices_of_text (indices : list string) (rest : string) :
  Forall word_dashes indices ->
  TemplateTag._GetIndices (group (indices_text indices +:+ rest) rest) = indices.
Proof.
  intros Hall. unfold group. rewrite matched_app.
  destruct Hall as [|i more [Hne Hw] Hmore]; [reflexivity|].
  unfold indices_text. simpl. fold (indices_text more).
  rewrite app_nil_l.
  destruct i as [|c w]; [contradiction|].
  pose proof Hw as Hw'. simpl in Hw'. apply andb_true_iff in Hw' as [Hc _].
  rewrite app_cons. simpl lstrip. rewrite (word_dash_no_colon _ Hc).
  rewrite <- app_cons. apply split_on_indices; assumption.
Qed.

Lemma scan_parens_step (c : ascii) (r : string) :
  scan_parens (String c r)
  = if Ascii.eqb c "("
    then match span is_no_paren r with
         | (_, String d rest) => if Ascii.eqb d ")" then Some rest else None
         | _ => None
         end
    else None.
Proof.
  destruct c as [[] [] [] [] [] [] [] []]; try reflexivity.
  simpl. destruct (span is_no_paren r) as [a [|d rest]]; [reflexivity|].
  destruct d as [[] [] [] [] [] [] [] []]; reflexivity.
Qed.

Lemma scan_function_step (c : ascii) (r : string) :
  scan_function (String c r)
  = if Ascii.eqb c "|"
    then match span is_word_dash r with
         | (String _ _, rest) =>
             Some (match scan_parens rest with Some rest' => rest' | None => rest end)
         | _ => None
         end
    else None.
Proof. destruct c as [[] [] [] [] [] [] [] []]; reflexivity. Qed.

Lemma scan_function_empty : scan_function EmptyString = None.
Proof. reflexivity. Qed.

Lemma scan_parens_spec (s rest : string) :
  scan_parens s = Some rest ->
  exists a, s = "(" +:+ a +:+ ")" +:+ rest /\ all_chars is_no_paren a = true.
Proof.
  destruct s as [|c r]; [discriminate|]. rewrite scan_parens_step.
  destruct (Ascii.eqb c "(") eqn:E; [|discriminate].
  apply Ascii.eqb_eq in E. subst c.
  destruct (span is_no_paren r) as [a [|d rest']] eqn:S; [discriminate|].
  destruct (Ascii.eqb d ")") eqn:D; [|discriminate].
  apply Ascii.eqb_eq in D. subst d. intros [= <-].
  destruct (span_app _ _ _ _ S) as [-> Ha]. exists a. split; [reflexivity|exact Ha].
Qed.

Lemma scan_function_spec (s rest : string) :
  scan_function s = Some rest ->
  exists f, s = "|" +:+ f +:+ rest /\ function_text f.
Proof.
  destruct s as [|c r]; [discriminate|]. rewrite scan_function_step.
  destruct (Ascii.eqb c "|") eqn:E; [|discriminate].
  apply Ascii.eqb_eq in E. subst c.
  destruct (span is_word_dash r) as [[|d w] after] eqn:S; [discriminate|].
  destruct (span_app _ _ _ _ S) as [-> Hw].
  destruct (scan_parens after) as [rest'|] eqn:P; intros [= <-].
  - destruct (scan_parens_spec _ _ P) as (a & -> & Ha).
    exists (String d w +:+ "(" +:+ a +:+ ")"). split.
    + norm_app. reflexivity.
    + exists (String d w), ("(" +:+ a +:+ ")").
      split; [split; [discriminate|exact Hw]|]. split; [reflexivity|].
      right. exists a. split; [reflexivity|exact Ha].
  - exists (String d w). split; [reflexivity|].
    exists (String d w), EmptyString.
    split; [split; [discriminate|exact Hw]|]. split; [now rewrite app_nil_r|now left].
Qed.

Lemma scan_functions_spec (fuel : nat) (s : string) :
  exists functions,
    s = functions_text functions +:+ scan_functions fuel s
    /\ Forall function_text functions.
Proof.
  revert s. induction fuel as [|fuel IH]; intros s; simpl.
  - exists []. split; [reflexivity|constructor].
  - destruct (scan_function s) as [rest|] eqn:F;
      [|exists []; split; [reflexivity|constructor]].
    destruct (scan_function_spec _ _ F) as (f & -> & Hf).
    destruct (IH rest) as (functions & Hrest & Hall).
    exists (f :: functions). split; [|constructor; assumption].
    unfold functions_text. simpl. fold (functions_text functions).
    norm_app. rewrite <- Hrest. reflexivity.
Qed.

Lemma paren_is_paren : is_no_paren ")" = false.
Proof. reflexivity. Qed.

Lemma scan_function_of_text (f tail : string) :
  function_text f ->
  function_stops tail ->
  scan_function ("|" +:+ f +:+ tail) = Some tail.
Proof.
  intros (name & arguments & [Hne Hw] & -> & Hargs) Htail.
  replace ("|" +:+ (name +:+ arguments) +:+ tail)
    with (String "|" (name +:+ (arguments +:+ tail))) by (norm_app; reflexivity).
  rewrite scan_function_step. rewrite Ascii.eqb_refl.
  assert (Hstop : match arguments +:+ tail with
                  | String c _ => is_word_dash c = false
                  | EmptyString => True
                  end).
  { destruct Hargs as [->|(a & -> & _)].
    - rewrite app_nil_l. destruct tail as [|c t]; [exact I|apply Htail].
    - norm_app. reflexivity. }
  rewrite (span_stops is_word_dash name (arguments +:+ tail) Hw Hstop).
  destruct name as [|d w]; [contradiction|].
  destruct Hargs as [->|(a & -> & Ha)].
  - rewrite app_nil_l. destruct tail as [|c t]; [reflexivity|].
    destruct Htail as [_ Hp]. rewrite scan_parens_step, Hp. reflexivity.
  - replace (("(" +:+ a +:+ ")") +:+ tail) with (String "(" (a +:+ String ")" tail))
      by (norm_app; reflexivity).
    rewrite scan_parens_step, Ascii.eqb_refl.
    rewrite (span_stops is_no_paren a (String ")" tail) Ha) by reflexivity.
    rewrite Ascii.eqb_refl. reflexivity.
Qed.

Lemma findall_skip (a b : string) :
  FUNC_FINDER_findall (String.length a) (a +:+ b) = FUNC_FINDER_findall 0 b.
Proof.
  induction a as [|c a IH]; [reflexivity|].
  rewrite app_cons. simpl. exact IH.
Qed.

Lemma functions_text_head (fs : list string) :
  functions_text fs = EmptyString \/ exists t, functions_text fs = String "|" t.
Proof.
  destruct fs as [|f fs]; [now left|right].
  unfold functions_text. simpl. norm_app. eauto.
Qed.

Lemma functions_text_stops (fs : list string) : function_stops (functions_text fs).
Proof.
  destruct (functions_text_head fs) as [->|[t ->]]; [exact I|split; reflexivity].
Qed.

Lemma findall_of_text (fs : list string) :
  Forall function_text fs -> FUNC_FINDER_findall 0 (functions_text fs) = fs.
Proof.
  induction 1 as [|f fs Hf Hfs IH]; [reflexivity|].
  unfold functions_text. simpl concat_str. fold (functions_text fs).
  pose proof (scan_function_of_text f (functions_text fs) Hf (functions_text_stops fs)) as Hs.
  revert Hs. norm_app. intros Hs.
  change (FUNC_FINDER_findall 0 (String "|" (f +:+ functions_text fs)))
    with (match scan_function (String "|" (f +:+ functions_text fs)) with
          | Some rest =>
              matched (f +:+ functions_text fs) rest
              :: FUNC_FINDER_findall
                   (String.length (String "|" (f +:+ functions_text fs))
                    - String.length rest - 1) (f +:+ functions_text fs)
          | None => FUNC_FINDER_findall 0 (f +:+ functions_text fs)
          end).
  rewrite Hs, matched_app. f_equal.
  simpl String.length. rewrite length_app.
  replace (S (String.length f + String.length (functions_text fs))
           - String.length (functions_text fs) - 1)%nat
    with (String.length f) by lia.
  rewrite findall_skip. exact IH.
Qed.

Lemma GetFunctions_of_text (fs : list string) (rest : string) :
  Forall function_text fs ->
  TemplateTag._GetFunctions (group (functions_text fs +:+ rest) rest) = fs.
Proof.
  intros Hall. unfold group. rewrite matched_app.
  destruct (functions_text_head fs) as [E|[t E]].
  - rewrite E. destruct Hall as [|f more]; [reflexivity|].
    unfold functions_text in E. simpl in E. revert E. norm_app. discriminate.
  - pose proof (findall_of_text fs Hall) as H. rewrite E in *.
    unfold TemplateTag._GetFunctions. exact H.
Qed.

Lemma TAG_match_text (s name rest : string) (gi gf : option string) :
  TAG_match s = Some (name, gi, gf, rest) ->
  exists indices functions,
    s = "[" +:+ name +:+ indices_text indices +:+ functions_text functions +:+ "]" +:+ rest
    /\ TemplateTag._GetIndices gi = indices
    /\ TemplateTag._GetFunctions gf = functions
    /\ words name /\ Forall word_dashes indices /\ Forall function_text functions.
Proof.
  unfold TAG_match. destruct s as [|c s1]; [discriminate|].
  destruct (Ascii.eqb c "[") eqn:E.
  2:{ destruct c as [[] [] [] [] [] [] [] []]; try discriminate E; discriminate. }
  apply Ascii.eqb_eq in E. subst c.
  destruct (span is_word s1) as [[|d n] s2] eqn:S; [discriminate|].
  destruct (span_app _ _ _ _ S) as [-> Hn].
  destruct (scan_indices_spec (String.length s2) s2) as (indices & Hi & Hia).
  destruct (scan_functions_spec (String.length (scan_indices (String.length s2) s2))
              (scan_indices (String.length s2) s2)) as (functions & Hf & Hfa).
  set (s3 := scan_indices (String.length s2) s2) in *.
  set (s4 := scan_functions (String.length s3) s3) in *.
  destruct s4 as [|b rest'] eqn:E4; [discriminate|].
  destruct (Ascii.eqb b "]") eqn:B.
  2:{ destruct b as [[] [] [] [] [] [] [] []]; try discriminate B; discriminate. }
  apply Ascii.eqb_eq in B. subst b.
  intros [= <- <- <- <-].
  exists indices, functions. split; [|split; [|split; [|split; [|split]]]].
  - norm_app. do 2 f_equal. rewrite Hi at 1. f_equal. rewrite Hf at 1. reflexivity.
  - rewrite Hi at 1. now apply GetIndices_of_text.
  - rewrite Hf at 1. now apply GetFunctions_of_text.
  - split; [discriminate|exact Hn].
  - exact Hia.
  - exact Hfa.
Qed.

Lemma FromString_str (s : string) (tag : TemplateTag.t) :
  TemplateTag.FromString s = Ok tag ->
  exists rest, s = TemplateTag.str tag +:+ rest.
Proof.
  unfold TemplateTag.FromString.
  destruct (TAG_match s) as [[[[name gi] gf] rest]|] eqn:M; [|discriminate].
  intros [= <-].
  destruct (TAG_match_text _ _ _ _ _ M) as (indices & functions & Hs & Hi & Hf & _).
  exists rest. unfold TemplateTag.str. simpl. rewrite Hi, Hf.
  fold (indices_text indices). fold (functions_text functions).
  rewrite Hs. norm_app. reflexivity.
Qed.

Lemma indices_text_cons (i : string) (indices : list string) :
  indices_text (i :: indices) = String ":" (i +:+ indices_text indices).
Proof. unfold indices_text. simpl. norm_app. reflexivity. Qed.

Lemma functions_text_cons (f : string) (functions : list string) :
  functions_text (f :: functions) = String "|" (f +:+ functions_text functions).
Proof. unfold functions_text. simpl. norm_app. reflexivity. Qed.

Lemma word_dash_stop_app (a b : string) :
  a <> EmptyString \/ match b with String c _ => is_word_dash c = false | EmptyString => True end ->
  (forall c r, a = String c r -> is_word_dash c = false) ->
  match a +:+ b with String c _ => is_word_dash c = false | EmptyString => True end.
Proof.
  intros H Ha. destruct a as [|c r].
  - rewrite app_nil_l. destruct H as [H|H]; [contradiction|exact H].
  - rewrite app_cons. now apply (Ha c r).
Qed.

Lemma scan_indices_of_text (indices : list string) (tail : string) (fuel : nat) :
  Forall word_dashes indices ->
  index_stops tail ->
  (length indices <= fuel)%nat ->
  scan_indices fuel (indices_text indices +:+ tail) = tail.
Proof.
  intros Hall Htail. revert fuel.
  induction Hall as [|i more [Hne Hw] Hmore IH]; intros fuel Hfuel.
  - rewrite app_nil_l. destruct fuel as [|fuel]; [destruct tail; reflexivity|].
    destruct tail as [|c t]; [reflexivity|].
    rewrite scan_indices_step. destruct Htail as [_ ->]. reflexivity.
  - destruct fuel as [|fuel]; [simpl in Hfuel; lia|].
    rewrite indices_text_cons, app_cons, scan_indices_step, Ascii.eqb_refl.
    rewrite app_assoc'.
    rewrite (span_stops is_word_dash i (indices_text more +:+ tail) Hw).
    + destruct i as [|c w]; [contradiction|]. apply IH. simpl in Hfuel. lia.
    + destruct more as [|j more'].
      * rewrite app_nil_l. destruct tail as [|c t]; [exact I|apply Htail].
      * rewrite indices_text_cons, app_cons. reflexivity.
Qed.

Lemma scan_functions_step (fuel : nat) (s : string) :
  scan_functions (S fuel) s
  = match scan_function s with
    | Some rest => scan_functions fuel rest
    | None => s
    end.
Proof. reflexivity. Qed.

Lemma scan_functions_of_text (functions : list string) (tail : string) (fuel : nat) :
  Forall function_text functions ->
  function_stops tail ->
  scan_function tail = None ->
  (length functions <= fuel)%nat ->
  scan_functions fuel (functions_text functions +:+ tail) = tail.
Proof.
  intros Hall Htail Hnone. revert fuel.
  induction Hall as [|f more Hf Hmore IH]; intros fuel Hfuel.
  - rewrite app_nil_l. destruct fuel as [|fuel]; [reflexivity|].
    rewrite scan_functions_step. now rewrite Hnone.
  - destruct fuel as [|fuel]; [simpl in Hfuel; lia|].
    rewrite functions_text_cons, app_cons, app_assoc', scan_functions_step.
    pose proof (scan_function_of_text f (functions_text more +:+ tail) Hf) as Hs.
    replace ("|" +:+ f +:+ functions_text more +:+ tail)
      with (String "|" (f +:+ functions_text more +:+ tail)) in Hs by reflexivity.
    rewrite Hs.
    + apply IH. simpl in Hfuel. lia.
    + destruct more as [|g more'].
      * rewrite app_nil_l. exact Htail.
      * rewrite functions_text_cons, app_cons. split; reflexivity.
Qed.

Lemma length_indices_text (indices : list string) (tail : string) :
  (length indices <= String.length (indices_text indices +:+ tail))%nat.
Proof.
  induction indices as [|i more IH]; [simpl; lia|].
  rewrite indices_text_cons, app_cons, app_assoc'. simpl. rewrite length_app. lia.
Qed.

Lemma length_functions_text (functions : list string) (tail : string) :
  (length functions <= String.length (functions_text functions +:+ tail))%nat.
Proof.
  induction functions as [|f more IH]; [simpl; lia|].
  rewrite functions_text_cons, app_cons, app_assoc'. simpl. rewrite length_app. lia.
Qed.

Lemma word_is_word_dash (s : string) :
  all_chars is_word s = true -> all_chars is_word_dash s = true.
Proof.
  induction s as [|c s IH]; simpl; [reflexivity|].
  intros H. apply andb_true_iff in H as [Hc Hs]. rewrite (IH Hs).
  unfold is_word_dash. now rewrite Hc.
Qed.

(** The pattern of a tag reads the text of a tag back, whatever follows
    the closing bracket. *)
Lemma TAG_match_of_text (name : string) (indices functions : list string) (rest : string) :
  words name -> Forall word_dashes indices -> Forall function_text functions ->
  exists gi gf,
    TAG_match ("[" +:+ name +:+ indices_text indices +:+ functions_text functions
               +:+ "]" +:+ rest)
    = Some (name, gi, gf, rest)
    /\ TemplateTag._GetIndices gi = indices
    /\ TemplateTag._GetFunctions gf = functions.
Proof.
  intros [Hne Hn] Hi Hf.
  set (s4 := String "]" rest).
  set (s3 := functions_text functions +:+ s4).
  set (s2 := indices_text indices +:+ s3).
  replace ("[" +:+ name +:+ indices_text indices +:+ functions_text functions
           +:+ "]" +:+ rest)
    with (String "[" (name +:+ s2)) by (unfold s2, s3, s4; norm_app; reflexivity).
  assert (H3 : index_stops s3).
  { unfold s3. destruct functions as [|f fs].
    - rewrite app_nil_l. split; reflexivity.
    - rewrite functions_text_cons, app_cons. split; reflexivity. }
  assert (H2 : match s2 with String c _ => is_word c = false | EmptyString => True end).
  { unfold s2. destruct indices as [|i more].
    - rewrite app_nil_l. unfold s3. destruct functions as [|f fs].
      + rewrite app_nil_l. reflexivity.
      + rewrite functions_text_cons, app_cons. reflexivity.
    - rewrite indices_text_cons, app_cons. reflexivity. }
  unfold TAG_match. rewrite (span_stops is_word name s2 Hn H2).
  destruct name as [|c n]; [contradiction|].
  assert (E3 : scan_indices (String.length s2) s2 = s3)
    by (apply scan_indices_of_text; [exact Hi|exact H3|apply length_indices_text]).
  rewrite E3.
  assert (E4 : scan_functions (String.length s3) s3 = s4).
  { apply scan_functions_of_text; [exact Hf|split; reflexivity|reflexivity|
                                    apply length_functions_text]. }
  rewrite E4. unfold s4 at 1.
  exists (group s2 s3), (group s3 s4). split; [reflexivity|]. split.
  - unfold s2. now apply GetIndices_of_text.
  - unfold s3. now apply GetFunctions_of_text.
Qed.

(** The text that the pattern matched, read alone, is the same tag, and
    the tag prints as that text. *)
Lemma FromString_matched (s name rest : string) (gi gf : option string) :
  TAG_match s = Some (name, gi, gf, rest) ->
  exists tag,
    TemplateTag.FromString (matched s rest) = Ok tag
    /\ TemplateTag.str tag = matched s rest
    /\ s = matched s rest +:+ rest.
Proof.
  intros M.
  destruct (TAG_match_text _ _ _ _ _ M) as (indices & functions & Hs & _ & _ & Hn & Hi & Hf).
  destruct (TAG_match_of_text name indices functions EmptyString Hn Hi Hf)
    as (gi' & gf' & M' & Hgi & Hgf).
  assert (T : matched s rest
              = "[" +:+ name +:+ indices_text indices +:+ functions_text functions +:+ "]").
  { rewrite Hs at 1.
    replace ("[" +:+ name +:+ indices_text indices +:+ functions_text functions
             +:+ "]" +:+ rest)
      with (("[" +:+ name +:+ indices_text indices +:+ functions_text functions +:+ "]")
            +:+ rest) by (norm_app; reflexivity).
    apply matched_app. }
  exists (TemplateTag.New name indices functions). split; [|split].
  - rewrite T. unfold TemplateTag.FromString.
    replace ("[" +:+ name +:+ indices_text indices +:+ functions_text functions +:+ "]")
      with ("[" +:+ name +:+ indices_text indices +:+ functions_text functions
            +:+ "]" +:+ EmptyString) by (now rewrite !app_nil_r).
    rewrite M', Hgi, Hgf. reflexivity.
  - rewrite T. reflexivity.
  - rewrite T, Hs at 1. norm_app. reflexivity.
Qed.

Lemma rev_app_app (a b r : string) :
  String.rev_app a b +:+ r = String.rev_app a (b +:+ r).
Proof.
  revert b. induction a as [|c a IH]; intros b; simpl; [reflexivity|].
  rewrite IH. reflexivity.
Qed.

Lemma rev_cons (c : ascii) (t r : string) :
  String.rev (String c t) +:+ r = String.rev t +:+ String c r.
Proof.
  unfold String.rev. simpl. rewrite !rev_app_app. reflexivity.
Qed.

Lemma drop_chars_app (a b : string) : drop_chars (String.length a) (a +:+ b) = b.
Proof.
  induction a as [|c a IH]; [destruct b; reflexivity|].
  rewrite app_cons. simpl. exact IH.
Qed.

Lemma drop_chars_0 (s : string) : drop_chars 0 s = s.
Proof. destruct s; reflexivity. Qed.

Lemma drop_chars_empty (n : nat) : drop_chars n EmptyString = EmptyString.
Proof. destruct n; reflexivity. Qed.

Lemma concat_str_cons (p : string) (rest : list string) :
  concat_str (p :: rest) = p +:+ concat_str rest.
Proof. reflexivity. Qed.

Lemma TagSplit_pieces_text (pieces : list string) (odd : bool) :
  tag_pieces odd pieces ->
  exists parts,
    Template.TagSplit_pieces odd pieces = Ok parts
    /\ concat_str (map str_part parts) = concat_str pieces.
Proof.
  revert odd. induction pieces as [|p rest IH]; intros odd H.
  - exists []. split; reflexivity.
  - destruct H as [Hp Hrest]. destruct (IH _ Hrest) as (more & Hmore & Hconcat).
    destruct odd; simpl in Hmore |- *.
    + destruct Hp as (tag & Htag & Hstr). rewrite Htag. simpl. rewrite Hmore. simpl.
      exists (PartTag tag :: more). split; [reflexivity|].
      simpl map. rewrite !concat_str_cons, Hconcat. simpl str_part. now rewrite Hstr.
    + rewrite Hmore. simpl. destruct p as [|c p].
      * exists more. split; [reflexivity|]. now rewrite app_nil_l.
      * exists (PartText (String c p) :: more). split; [reflexivity|].
        simpl map. rewrite concat_str_cons, Hconcat. reflexivity.
Qed.

Lemma TAG_split_aux_step (c : ascii) (r text : string) :
  TAG_split_aux 0 text (String c r)
  = match TAG_match (String c r) with
    | Some (_, rest) =>
        String.rev text :: matched (String c r) rest
        :: TAG_split_aux (String.length (String c r) - String.length rest - 1) EmptyString r
    | None => TAG_split_aux 0 (String c text) r
    end.
Proof. reflexivity. Qed.

Lemma TAG_split_aux_spec (s : string) :
  forall (skip : nat) (text : string),
    tag_pieces false (TAG_split_aux skip text s)
    /\ concat_str (TAG_split_aux skip text s) = String.rev text +:+ drop_chars skip s.
Proof.
  induction s as [|c r IH]; intros skip text.
  - simpl. rewrite drop_chars_empty. split; [split; exact I|reflexivity].
  - destruct skip as [|k]; [|apply IH].
    rewrite TAG_split_aux_step, drop_chars_0.
    destruct (TAG_match (String c r)) as [[[[name gi] gf] rest]|] eqn:M.
    + destruct (FromString_matched _ _ _ _ _ M) as (tag & Htag & Hstr & Hs).
      set (T := matched (String c r) rest) in *.
      destruct T as [|c' T'] eqn:ET; [discriminate Hstr|].
      rewrite app_cons in Hs. injection Hs as <- Hr.
      assert (Hk : (String.length (String c r) - String.length rest - 1)%nat
                   = String.length T').
      { simpl. rewrite Hr, length_app. lia. }
      rewrite Hk.
      destruct (IH (String.length T') EmptyString) as [Hp Hc].
      split.
      * split; [exact I|]. split; [exists tag; split; assumption|exact Hp].
      * rewrite !concat_str_cons, Hc.
        replace (drop_chars (String.length T') r) with rest
          by (rewrite Hr; symmetry; apply drop_chars_app).
        rewrite Hr. norm_app. reflexivity.
    + destruct (IH 0%nat (String c text)) as [Hp Hc]. split; [exact Hp|].
      now rewrite Hc, drop_chars_0, rev_cons.
Qed.

(** [TagSplit] loses nothing: it always yields parts, and the texts and the
    tags it yields, printed one after the other, are the text it split. *)
Lemma TagSplit_text (text : string) :
  exists parts,
    Template.TagSplit text = Ok parts
    /\ concat_str (map str_part parts) = text.
Proof.
  destruct (TAG_split_aux_spec text 0 EmptyString) as [Hp Hc].
  destruct (TagSplit_pieces_text _ _ Hp) as (parts & Hparts & Hconcat).
  exists parts. split; [exact Hparts|].
  rewrite Hconcat. unfold TAG_split in *. rewrite Hc, drop_chars_0. reflexivity.
Qed.

Lemma Parse_of_GetValue_error (registered : registry)
  (eval_arguments : string -> outcome (list value)) (tag : TemplateTag.t) (kw : kwds)
  (e : exn) :
  kw !! "self" = None ->
  TemplateTag.GetValue tag kw = Raise e ->
  TemplateTag.Parse registered eval_arguments tag kw
  = if is_TemplateKeyError e || is_TemplateNameError e
    then Ok (TemplateTag.str tag) else Raise e.
Proof.
  intros Hself Hget. unfold TemplateTag.Parse.
  rewrite call_kwds_free by exact Hself. now rewrite Hget.
Qed.


Lemma add_all_top (items : list node) (self : Template.t) :
  Template.scopes self = [] ->
  Template.add_all items self
  = (Ok tt, Template.with_nodes self (Template.nodes self ++ items)).
Proof.
  revert self. induction items as [|item rest IH]; intros self Hs.
  - simpl. unfold ret, Template.with_nodes. rewrite List.app_nil_r. now destruct self.
  - simpl. unfold bindM, Template._AddToOpenScope. rewrite Hs.
    rewrite IH by exact Hs. unfold Template.with_nodes. simpl.
    now rewrite <- List.app_assoc.
Qed.

Lemma join_Parse_unresolved (registered : registry)
  (eval_arguments : string -> outcome (list value)) (kw : kwds) (parts : list part)
  (st : store) :
  kw !! "self" = None ->
  unresolved kw parts ->
  join_Parse (Parse_node registered eval_arguments) (map Template.node_of_part parts) kw st
  = (Ok (concat_str (map str_part parts)), st).
Proof.
  intros Hself. induction 1 as [|p rest Hp Hrest IH]; [reflexivity|].
  simpl map. simpl join_Parse. unfold bindM at 1.
  assert (P : Parse_node registered eval_arguments (Template.node_of_part p) kw st
              = (Ok (str_part p), st)).
  { destruct p as [s|tag]; simpl.
    - unfold lift, TemplateText.Parse. now rewrite call_kwds_free.
    - unfold lift.
      rewrite (Parse_of_GetValue_error _ _ _ _ _ Hself (GetValue_absent _ _ Hp)).
      reflexivity. }
  rewrite P. unfold bindM at 1. fold (join_Parse (Parse_node registered eval_arguments)).
  rewrite IH. reflexivity.
Qed.

(** A source without functions, parsed with replacements that hold none of
    the names of its tags, parses to itself. *)
Lemma render_unresolved_source (registered : registry) (source : string) (kw : kwds) :
  FUNCTION_split source = [source] ->
  kw !! "self" = None -> kw !! "returnRawTemplate" = None ->
  (forall parts, Template.TagSplit source = Ok parts -> unresolved kw parts) ->
  render registered source kw = Ok source.
Proof.
  intros Hsplit Hself Hraw Hun.
  destruct (TagSplit_text source) as (parts & Hparts & Htext).
  specialize (Hun parts Hparts).
  assert (C : Template.__init__ source None
              = (Ok tt, Template.New "Template" None (map Template.node_of_part parts)
                          [] ∅ 0)).
  { unfold Template.__init__, Template.AddString. rewrite Hsplit.
    simpl Template.extend. unfold bindM at 1. unfold Template._ExtendText.
    unfold bindM at 1. unfold lift at 1. rewrite Hparts.
    rewrite add_all_top by reflexivity. reflexivity. }
  unfold render. rewrite C.
  unfold TemplateParse.Parse_kwds. rewrite Hraw, (delete_id kw _ Hraw).
  unfold TemplateParse.Parse, binds. rewrite Hself.
  unfold TemplateParse.on_maps, TemplateParse.Parse_body.
  simpl Template.contents. simpl Template.maps.
  unfold bindM at 1.
  rewrite (join_Parse_unresolved _ _ _ _ _ Hself Hun). simpl. now rewrite Htext.
Qed.

(** C2.  A tag whose resolution raises [TemplateNameError] (the name is not
    in the replacements) or [TemplateKeyError] (an index finds nothing)
    parses to its own text, [str(self)], and raises nothing; any other
    exception of the resolution, and any exception of the functions of the
    tag or of the default function, leaves [Parse] as it was raised.  The
    text [str(self)] of a tag that [FromString] has read is the text it was
    read from, up to the closing bracket, and the parts that [TagSplit]
    makes of a text print back to that text: a source without functions
    whose tags are all missing from the replacements parses to itself, as
    [X=[missing]] does in the scenario of the spec. *)
Theorem TemplateTag_Parse_recovers_unresolved
  (registered : registry) (eval_arguments : string -> outcome (list value))
  (tag : TemplateTag.t) (kw : kwds) :
  kw !! "self" = None ->
  (kw !! TemplateTag.name tag = None ->
   TemplateTag.Parse registered eval_arguments tag kw = Ok (TemplateTag.str tag))
  /\ (forall v needle,
        kw !! TemplateTag.name tag = Some v ->
        TemplateTag.reduce_indices v (TemplateTag.indices tag)
        = Raise (TemplateKeyError needle) ->
        TemplateTag.Parse registered eval_arguments tag kw = Ok (TemplateTag.str tag))
  /\ (forall e,
        TemplateTag.GetValue tag kw = Raise e -> recovered e ->
        TemplateTag.Parse registered eval_arguments tag kw = Ok (TemplateTag.str tag))
  /\ (forall e,
        TemplateTag.GetValue tag kw = Raise e -> ~ recovered e ->
        TemplateTag.Parse registered eval_arguments tag kw = Raise e)
  /\ (forall v e,
        TemplateTag.GetValue tag kw = Ok v ->
        TemplateTag.functions tag <> [] ->
        TemplateTag.apply_functions registered eval_arguments (TemplateTag.functions tag) v
        = Raise e ->
        TemplateTag.Parse registered eval_arguments tag kw = Raise e)
  /\ (forall v e,
        TemplateTag.GetValue tag kw = Ok v ->
        TemplateTag.functions tag = [] ->
        is_safestring v = false ->
        (f <- TemplateTag.lookup_function registered "default" ;; call f v) = Raise e ->
        TemplateTag.Parse registered eval_arguments tag kw = Raise e)
  /\ (forall s tag', TemplateTag.FromString s = Ok tag' ->
      exists rest, s = TemplateTag.str tag' +:+ rest)
  /\ (forall text, exists parts,
        Template.TagSplit text = Ok parts /\ concat_str (map str_part parts) = text)
  /\ (forall source kw',
        FUNCTION_split source = [source] ->
        kw' !! "self" = None -> kw' !! "returnRawTemplate" = None ->
        (forall parts, Template.TagSplit source = Ok parts -> unresolved kw' parts) ->
        render registered source kw' = Ok source)
  /\ render initial_functions "X=[missing]" ∅ = Ok "X=[missing]".
Proof.
  intros Hself.
  split; [|split; [|split; [|split; [|split; [|split; [|split; [|split; [|split]]]]]]]].
  - intros Habs.
    rewrite (Parse_of_GetValue_error _ _ _ _ _ Hself (GetValue_absent _ _ Habs)).
    reflexivity.
  - intros v needle Hv Hred.
    assert (G : TemplateTag.GetValue tag kw = Raise (TemplateKeyError needle))
      by (rewrite (GetValue_present _ _ _ Hv); exact Hred).
    rewrite (Parse_of_GetValue_error _ _ _ _ _ Hself G). reflexivity.
  - intros e G R. rewrite (Parse_of_GetValue_error _ _ _ _ _ Hself G).
    apply recovered_iff in R. now rewrite R.
  - intros e G R. rewrite (Parse_of_GetValue_error _ _ _ _ _ Hself G).
    destruct (is_TemplateKeyError e || is_TemplateNameError e) eqn:C; [|reflexivity].
    exfalso. apply R, recovered_iff, C.
  - intros v e G Hne Hap. unfold TemplateTag.Parse.
    rewrite call_kwds_free by exact Hself. rewrite G.
    destruct (TemplateTag.functions tag) as [|f fs]; [congruence|].
    now rewrite Hap.
  - intros v e G Hnil Hsafe Hdef. unfold TemplateTag.Parse.
    rewrite call_kwds_free by exact Hself. rewrite G, Hnil, Hsafe. simpl negb. cbv iota.
    now rewrite Hdef.
  - intros s tag' H. eapply FromString_str; eauto.
  - apply TagSplit_text.
  - intros source kw'. apply render_unresolved_source.
  - vm_compute. reflexivity.
Qed.

Lemma TemplateTag_Parse_recovers_unresolved_witness :
  (∅ : kwds) !! "self" = None
  /\ TemplateTag.Parse initial_functions no_closures (TemplateTag.New "x" [] []) ∅
     = Ok "[x]".
Proof.
  assert (Hself : (∅ : kwds) !! "self" = None) by reflexivity.
  split; [exact Hself|].
  apply (proj1 (TemplateTag_Parse_recovers_unresolved initial_functions no_closures
                  (TemplateTag.New "x" [] []) ∅ Hself)).
  reflexivity.
Defined.

(** C3.  A tag without functions whose value is not a safe string gets the
    function registered as [default] applied to the value, which in the
    table of the module is [HTMLsafestring('') + d]; a value that is a safe
    string already is turned into text as it is, whatever the table holds. *)
Theorem TemplateTag_Parse_default_function
  (registered : registry) (eval_arguments : string -> outcome (list value))
  (tag : TemplateTag.t) (kw : kwds) (v : value) :
  kw !! "self" = None ->
  TemplateTag.functions tag = [] ->
  TemplateTag.GetValue tag kw = Ok v ->
  (is_safestring v = false ->
   TemplateTag.Parse registered eval_arguments tag kw
   = (f <- TemplateTag.lookup_function registered "default" ;;
      r <- call f v ;; py_str r))
  /\ (is_safestring v = false ->
      forall add url srt,
        TemplateTag.Parse (TAG_FUNCTIONS add url srt) eval_arguments tag kw
        = (r <- add v ;; py_str r))
  /\ (forall c s, v = VSafe c s ->
      TemplateTag.Parse registered eval_arguments tag kw = Ok s).
Proof.
  intros Hself Hnil G. repeat split.
  - intros Hsafe. unfold TemplateTag.Parse.
    rewrite call_kwds_free by exact Hself. rewrite G, Hnil, Hsafe. simpl negb. cbv iota.
    destruct (TemplateTag.lookup_function registered "default") as [f|e|]; reflexivity.
  - intros Hsafe add url srt. unfold TemplateTag.Parse.
    rewrite call_kwds_free by exact Hself. rewrite G, Hnil, Hsafe. simpl negb. cbv iota.
    reflexivity.
  - intros c s ->. unfold TemplateTag.Parse.
    rewrite call_kwds_free by exact Hself. rewrite G, Hnil. reflexivity.
Qed.

Lemma TemplateTag_Parse_default_function_witness :
  TemplateTag.Parse initial_functions no_closures (TemplateTag.New "s" [] [])
    {[ "s" := VStr "<b>" ]}
  = Ok "&lt;b&gt;"
  /\ TemplateTag.Parse initial_functions no_closures (TemplateTag.New "s" [] [])
       {[ "s" := VSafe Html "<b>" ]}
     = Ok "<b>".
Proof.
  split.
  - assert (Hself : ({[ "s" := VStr "<b>" ]} : kwds) !! "self" = None) by reflexivity.
    assert (Hget : TemplateTag.GetValue (TemplateTag.New "s" [] []) {[ "s" := VStr "<b>" ]}
                   = Ok (VStr "<b>")) by reflexivity.
    rewrite (proj1 (TemplateTag_Parse_default_function initial_functions no_closures
                      (TemplateTag.New "s" [] []) {[ "s" := VStr "<b>" ]} (VStr "<b>")
                      Hself eq_refl Hget) eq_refl).
    reflexivity.
  - assert (Hself : ({[ "s" := VSafe Html "<b>" ]} : kwds) !! "self" = None) by reflexivity.
    assert (Hget : TemplateTag.GetValue (TemplateTag.New "s" [] [])
                     {[ "s" := VSafe Html "<b>" ]}
                   = Ok (VSafe Html "<b>")) by reflexivity.
    apply (proj2 (proj2 (TemplateTag_Parse_default_function initial_functions no_closures
                           (TemplateTag.New "s" [] []) {[ "s" := VSafe Html "<b>" ]}
                           (VSafe Html "<b>") Hself eq_refl Hget)) Html "<b>" eq_refl).
Defined.

Lemma bindM_ok {S A B} (m : St S A) (k : A -> St S B) (st st' : S) (b : B) :
  bindM m k st = (Ok b, st') ->
  exists a st1, m st = (Ok a, st1) /\ k a st1 = (Ok b, st').
Proof.
  unfold bindM. destruct (m st) as [[a|e|] st1]; try discriminate. eauto.
Qed.

Lemma bind_item_one (alias : string) (replacements : kwds) (item : value) :
  TemplateLoop.bind_item [alias] replacements item = Ok (<[alias := item]> replacements).
Proof. reflexivity. Qed.

Lemma bind_item_many (aliases : list string) (replacements : kwds) (item : value) :
  length aliases <> 1%nat ->
  TemplateLoop.bind_item aliases replacements item
  = (_ <- catch (n <- py_len item ;;
                 if negb (length aliases =? n)%nat
                 then Raise (TemplateValueError (CannotUnpackCount n (length aliases)))
                 else Ok tt)
                is_TypeError
                (fun _ => Raise (TemplateValueError (CannotUnpackType (length aliases)))) ;;
     items <- py_iter item ;;
     Ok (TemplateLoop.update_zip replacements aliases items)).
Proof.
  intros H. unfold TemplateLoop.bind_item.
  destruct (length aliases =? 1)%nat eqn:E; [|reflexivity].
  apply Nat.eqb_eq in E. contradiction.
Qed.

Lemma bind_item_ok_len (aliases : list string) (replacements r : kwds) (item : value) :
  length aliases <> 1%nat ->
  TemplateLoop.bind_item aliases replacements item = Ok r ->
  py_len item = Ok (length aliases).
Proof.
  intros H. rewrite (bind_item_many _ _ _ H).
  destruct (py_len item) as [n|e|]; simpl; try discriminate.
  - destruct (length aliases =? n)%nat eqn:E; simpl; [|discriminate].
    apply Nat.eqb_eq in E. now subst.
  - destruct (is_TypeError e); discriminate.
Qed.

Lemma iterate_ok_lengths (registered : registry)
  (eval_arguments : string -> outcome (list value))
  (aliases : list string) (body : list node) (items : list value) :
  length aliases <> 1%nat ->
  forall (replacements : kwds) (st st' : store) (out : string),
    TemplateLoop.iterate (Parse_node registered eval_arguments) aliases body
      replacements items st = (Ok out, st') ->
    Forall (fun item => py_len item = Ok (length aliases)) items.
Proof.
  intros H. induction items as [|item rest IH]; intros replacements st st' out Hrun.
  - constructor.
  - simpl in Hrun.
    apply bindM_ok in Hrun as (r & st1 & Hbind & Hrun).
    apply bindM_ok in Hrun as (o & st2 & _ & Hrun).
    apply bindM_ok in Hrun as (more & st3 & Hrest & _).
    unfold lift in Hbind. injection Hbind as Hbind _.
    constructor.
    + eapply bind_item_ok_len; eauto.
    + eapply IH; eauto.
Qed.

Lemma update_zip_other (aliases : list string) :
  forall (replacements : kwds) (elements : list value) (k : string),
    ~ In k aliases ->
    TemplateLoop.update_zip replacements aliases elements !! k = replacements !! k.
Proof.
  induction aliases as [|a aliases IH]; intros replacements elements k Hk.
  - reflexivity.
  - destruct elements as [|v elements]; [reflexivity|]. simpl.
    rewrite IH by (intros H; apply Hk; now right).
    apply lookup_insert_ne. intros ->. apply Hk. now left.
Qed.

Lemma update_zip_at (aliases : list string) :
  forall (replacements : kwds) (elements : list value) (i : nat) (a : string) (v : value),
    aliases !! i = Some a -> elements !! i = Some v ->
    (forall j, (i < j)%nat -> aliases !! j <> Some a) ->
    TemplateLoop.update_zip replacements aliases elements !! a = Some v.
Proof.
  induction aliases as [|a0 aliases IH]; intros replacements elements i a v Ha Hv Hlast.
  - discriminate.
  - destruct elements as [|v0 elements]; [discriminate|].
    destruct i as [|i]; simpl in Ha, Hv |- *.
    + injection Ha as ->. injection Hv as ->.
      rewrite update_zip_other; [apply lookup_insert_eq|].
      intros Hin. apply list_elem_of_In, list_elem_of_lookup in Hin as [j Hj].
      apply (Hlast (S j)); [lia|exact Hj].
    + apply (IH _ _ i); [exact Ha|exact Hv|].
      intros j Hij. apply (Hlast (S j)). lia.
Qed.

(** C7.  With one alias the item itself is bound to it.  With another
    number of aliases the item is unpacked: an item without a length raises
    [TemplateValueError], so does an item whose length is not the number of
    aliases, and an item of that length gives its elements to the aliases in
    order: each alias is bound to the element at its position, the last
    position winning for an alias written twice, and every other name keeps
    what it had.  A loop that parses to a string has unpacked each of its
    items; an item that cannot be unpacked ends the loop with the error.
    The example: a loop with two aliases over a list of pairs. *)
Theorem TemplateLoop_Parse_unpacks_items
  (registered : registry) (eval_arguments : string -> outcome (list value))
  (tag : TemplateTag.t) (aliases : list string) (body : list node)
  (replacements : kwds) (item : value) :
  (forall alias, aliases = [alias] ->
     TemplateLoop.bind_item aliases replacements item
     = Ok (<[alias := item]> replacements))
  /\ (length aliases <> 1%nat ->
      (forall e, py_len item = Raise e -> is_TypeError e = true ->
         TemplateLoop.bind_item aliases replacements item
         = Raise (TemplateValueError (CannotUnpackType (length aliases))))
      /\ (forall n, py_len item = Ok n -> n <> length aliases ->
            TemplateLoop.bind_item aliases replacements item
            = Raise (TemplateValueError (CannotUnpackCount n (length aliases))))
      /\ (forall elements,
            py_len item = Ok (length aliases) -> py_iter item = Ok elements ->
            TemplateLoop.bind_item aliases replacements item
            = Ok (TemplateLoop.update_zip replacements aliases elements))
      /\ (forall elements,
            py_len item = Ok (length aliases) -> py_iter item = Ok elements ->
            exists bound,
              TemplateLoop.bind_item aliases replacements item = Ok bound
              /\ (forall i alias element,
                    aliases !! i = Some alias -> elements !! i = Some element ->
                    (forall j, (i < j)%nat -> aliases !! j <> Some alias) ->
                    bound !! alias = Some element)
              /\ (forall name, ~ In name aliases ->
                    bound !! name = replacements !! name))
      /\ (forall items st st' out,
            TemplateTag.Iterator registered tag replacements = Ok items ->
            Parse_node registered eval_arguments (Loop tag aliases body) replacements st
            = (Ok out, st') ->
            Forall (fun item => py_len item = Ok (length aliases)) items)
      /\ (forall rest st e,
            replacements !! "self" = None ->
            TemplateTag.Iterator registered tag replacements = Ok (item :: rest) ->
            TemplateLoop.bind_item aliases replacements item = Raise e ->
            Parse_node registered eval_arguments (Loop tag aliases body) replacements st
            = (Raise e, st)))
  /\ TemplateLoop.bind_item ["k"; "v"] {[ "k" := VInt 0; "z" := VInt 9 ]}
       (VList [VStr "a"; VInt 1])
     = Ok {[ "k" := VStr "a"; "v" := VInt 1; "z" := VInt 9 ]}
  /\ fst (render_twice initial_functions "{{ for k, v in [m] }}[k]=[v];{{ endfor }}"
            {[ "m" := VList [VList [VStr "a"; VInt 1]; VTuple [VStr "b"; VInt 2]] ]} ∅)
     = Ok "a=1;b=2;".
Proof.
  split; [|split; [|split]].
  - intros alias ->. apply bind_item_one.
  - intros Hmany.
    assert (Hzip : forall elements,
              py_len item = Ok (length aliases) -> py_iter item = Ok elements ->
              TemplateLoop.bind_item aliases replacements item
              = Ok (TemplateLoop.update_zip replacements aliases elements)).
    { intros elements Hlen Hiter. rewrite (bind_item_many _ _ _ Hmany), Hlen. simpl.
      rewrite Nat.eqb_refl. simpl. now rewrite Hiter. }
    split; [|split; [|split; [|split; [|split]]]].
    + intros e Hlen Hty. rewrite (bind_item_many _ _ _ Hmany), Hlen. simpl.
      now rewrite Hty.
    + intros n Hlen Hne. rewrite (bind_item_many _ _ _ Hmany), Hlen. simpl.
      destruct (length aliases =? n)%nat eqn:E; [|reflexivity].
      apply Nat.eqb_eq in E. congruence.
    + exact Hzip.
    + intros elements Hlen Hiter.
      exists (TemplateLoop.update_zip replacements aliases elements).
      split; [now apply Hzip|]. split.
      * intros i alias element Ha He Hlast. now apply (update_zip_at aliases _ _ i).
      * intros name Hname. now apply update_zip_other.
    + intros items st st' out Hit Hrun. simpl in Hrun.
      unfold TemplateLoop.Parse, call_kwdsM in Hrun.
      destruct (binds replacements "self"); [discriminate|].
      apply bindM_ok in Hrun as (items' & st1 & Hlift & Hrun).
      unfold lift in Hlift. rewrite Hit in Hlift. injection Hlift as <- <-.
      eapply iterate_ok_lengths; eauto.
    + intros rest st e Hself Hit Hbind. simpl.
      unfold TemplateLoop.Parse. rewrite call_kwdsM_free by exact Hself.
      unfold bindM at 1. unfold lift at 1. rewrite Hit. simpl.
      unfold bindM at 1. unfold lift at 1. now rewrite Hbind.
  - apply (f_equal Ok). apply map_eq. intros name.
    change (TemplateLoop.update_zip {[ "k" := VInt 0; "z" := VInt 9 ]} ["k"; "v"]
              [VStr "a"; VInt 1] !! name
            = ({[ "k" := VStr "a"; "v" := VInt 1; "z" := VInt 9 ]} : kwds) !! name).
    simpl.
    destruct (decide (name = "v")) as [->|Hv]; [reflexivity|].
    rewrite lookup_insert_ne by congruence.
    destruct (decide (name = "k")) as [->|Hk]; [reflexivity|].
    rewrite !lookup_insert_ne by congruence.
    reflexivity.
  - vm_compute. reflexivity.
Qed.

Lemma TemplateLoop_Parse_unpacks_items_witness :
  TemplateLoop.bind_item ["k"; "v"] ∅ (VInt 7)
  = Raise (TemplateValueError (CannotUnpackType 2))
  /\ TemplateLoop.bind_item ["k"; "v"] ∅ (VList [VInt 7])
     = Raise (TemplateValueError (CannotUnpackCount 1 2))
  /\ TemplateLoop.bind_item ["x"] ∅ (VList [VInt 7]) = Ok {[ "x" := VList [VInt 7] ]}
  /\ (exists bound,
        TemplateLoop.bind_item ["k"; "v"] ∅ (VList [VStr "a"; VInt 1]) = Ok bound
        /\ bound !! "k" = Some (VStr "a") /\ bound !! "v" = Some (VInt 1)
        /\ bound !! "z" = None).
Proof.
  assert (Hmany : length ["k"; "v"] <> 1%nat) by (simpl; lia).
  pose proof (TemplateLoop_Parse_unpacks_items initial_functions no_closures
                (TemplateTag.New "m" [] []) ["k"; "v"] [] ∅ (VInt 7)) as [_ [H7 _]].
  pose proof (TemplateLoop_Parse_unpacks_items initial_functions no_closures
                (TemplateTag.New "m" [] []) ["k"; "v"] [] ∅ (VList [VInt 7])) as [_ [HL _]].
  pose proof (TemplateLoop_Parse_unpacks_items initial_functions no_closures
                (TemplateTag.New "m" [] []) ["x"] [] ∅ (VList [VInt 7])) as [H1 _].
  pose proof (TemplateLoop_Parse_unpacks_items initial_functions no_closures
                (TemplateTag.New "m" [] []) ["k"; "v"] [] ∅ (VList [VStr "a"; VInt 1]))
    as [_ [HP _]].
  split; [|split; [|split]].
  - apply (proj1 (H7 Hmany) PyTypeError); reflexivity.
  - apply (proj1 (proj2 (HL Hmany)) 1%nat); [reflexivity | simpl; lia].
  - apply (H1 "x"). reflexivity.
  - destruct (proj1 (proj2 (proj2 (proj2 (HP Hmany)))) [VStr "a"; VInt 1] eq_refl eq_refl)
      as (bound & Hb & Hat & Hother).
    exists bound. split; [exact Hb|]. split; [|split].
    + apply (Hat 0%nat); [reflexivity|reflexivity|].
      intros [|[|j]] Hj; [lia|discriminate|discriminate].
    + apply (Hat 1%nat); [reflexivity|reflexivity|].
      intros [|[|j]] Hj; [lia|lia|discriminate].
    + rewrite Hother; [reflexivity|].
      intros [H|[H|[]]]; discriminate.
Defined.

Lemma Iterator_of_GetValue_error (registered : registry) (tag : TemplateTag.t) (kw : kwds)
  (e : exn) :
  kw !! "self" = None ->
  TemplateTag.GetValue tag kw = Raise e ->
  TemplateTag.Iterator registered tag kw
  = if is_TemplateKeyError e then Ok [] else Raise e.
Proof.
  intros Hself Hget. unfold TemplateTag.Iterator.
  rewrite call_kwds_free by exact Hself. now rewrite Hget.
Qed.

Lemma join_Parse_raises (Parse : node -> kwds -> M string) (n : node) (rest : list node)
  (kw : kwds) (st st' : store) (e : exn) :
  Parse n kw st = (Raise e, st') ->
  join_Parse Parse (n :: rest) kw st = (Raise e, st').
Proof. intros H. simpl. unfold bindM at 1. now rewrite H. Qed.

(** C9.  When the name of the tag of a loop is in the replacements and an
    index of the tag finds nothing, the loop has no items and parses to the
    empty string.  When the name is not in the replacements, the loop
    raises [TemplateNameError]; the parts around it hand the error on, up
    to the caller of the template. *)
Theorem TemplateLoop_Parse_unresolved_source
  (registered : registry) (eval_arguments : string -> outcome (list value))
  (tag : TemplateTag.t) (aliases : list string) (body : list node)
  (kw : kwds) (st : store) :
  kw !! "self" = None ->
  (forall v needle,
     kw !! TemplateTag.name tag = Some v ->
     TemplateTag.reduce_indices v (TemplateTag.indices tag) = Raise (TemplateKeyError needle) ->
     Parse_node registered eval_arguments (Loop tag aliases body) kw st = (Ok EmptyString, st))
  /\ (kw !! TemplateTag.name tag = None ->
      Parse_node registered eval_arguments (Loop tag aliases body) kw st
      = (Raise (TemplateNameError (NoReplacement (TemplateTag.name tag))), st)
      /\ forall rest,
           join_Parse (Parse_node registered eval_arguments) (Loop tag aliases body :: rest) kw st
           = (Raise (TemplateNameError (NoReplacement (TemplateTag.name tag))), st))
  /\ render initial_functions "a{{ for x in [xs:3] }}[x]{{ endfor }}b" {[ "xs" := VList [] ]}
     = Ok "ab"
  /\ render initial_functions "a{{ for x in [xs:3] }}[x]{{ endfor }}b" ∅
     = Raise (TemplateNameError (NoReplacement "xs")).
Proof.
  intros Hself. split; [|split; [|split]].
  - intros v needle Hv Hred. simpl. unfold TemplateLoop.Parse.
    rewrite call_kwdsM_free by exact Hself.
    assert (G : TemplateTag.GetValue tag kw = Raise (TemplateKeyError needle))
      by (rewrite (GetValue_present _ _ _ Hv); exact Hred).
    rewrite (Iterator_of_GetValue_error _ _ _ _ Hself G). reflexivity.
  - intros Habs.
    assert (L : Parse_node registered eval_arguments (Loop tag aliases body) kw st
                = (Raise (TemplateNameError (NoReplacement (TemplateTag.name tag))), st)).
    { simpl. unfold TemplateLoop.Parse. rewrite call_kwdsM_free by exact Hself.
      rewrite (Iterator_of_GetValue_error _ _ _ _ Hself (GetValue_absent _ _ Habs)).
      reflexivity. }
    split; [exact L|]. intros rest. now apply join_Parse_raises.
  - vm_compute. reflexivity.
  - vm_compute. reflexivity.
Qed.

Lemma TemplateLoop_Parse_unresolved_source_witness :
  Parse_node initial_functions no_closures
    (Loop (TemplateTag.New "xs" ["3"] []) ["x"] [Tag (TemplateTag.New "x" [] [])])
    {[ "xs" := VList [] ]} ∅
  = (Ok EmptyString, ∅)
  /\ Parse_node initial_functions no_closures
       (Loop (TemplateTag.New "xs" ["3"] []) ["x"] [Tag (TemplateTag.New "x" [] [])])
       ∅ ∅
     = (Raise (TemplateNameError (NoReplacement "xs")), ∅).
Proof.
  split.
  - assert (Hself : ({[ "xs" := VList [] ]} : kwds) !! "self" = None) by reflexivity.
    apply (proj1 (TemplateLoop_Parse_unresolved_source initial_functions no_closures
                    (TemplateTag.New "xs" ["3"] []) ["x"] [Tag (TemplateTag.New "x" [] [])]
                    {[ "xs" := VList [] ]} ∅ Hself) (VList []) "3"); reflexivity.
  - assert (Hself : (∅ : kwds) !! "self" = None) by reflexivity.
    apply (proj1 (proj2 (TemplateLoop_Parse_unresolved_source initial_functions no_closures
                    (TemplateTag.New "xs" ["3"] []) ["x"] [Tag (TemplateTag.New "x" [] [])]
                    ∅ ∅ Hself))). reflexivity.
Defined.

Lemma Reload_recompiles (f : FileTemplate.file) (self : FileTemplate.t) (m : Z)
  (source : string) :
  FileTemplate.getmtime f = Ok m ->
  (m > FileTemplate._file_mtime self)%Z ->
  FileTemplate.read f = Ok source ->
  FileTemplate.ReloadIfModified f self
  = match Template.AddString source (FileTemplate.cleared (FileTemplate.template self)) with
    | (Ok tt, tmpl) =>
        (Ok tt, FileTemplate.New tmpl (FileTemplate._template_path self)
                  (FileTemplate._file_name self) m)
    | (Raise e, tmpl) =>
        if is_OSError e then (Ok tt, FileTemplate.with_template self tmpl)
        else (Raise e, FileTemplate.with_template self tmpl)
    | (Beyond, tmpl) => (Beyond, FileTemplate.with_template self tmpl)
    end.
Proof.
  intros Hm Hgt Hr. unfold FileTemplate.ReloadIfModified, catchM.
  rewrite Hm, Hr. apply Z.gtb_gt in Hgt. rewrite Hgt.
  destruct (Template.AddString source _) as [[[]|e|] tmpl]; reflexivity.
Qed.

(** C4.  [ReloadIfModified] asks for the modification time of the file
    first.  When that fails with an [OSError], or the time is not greater
    than the one kept, or the file cannot be read, the template stays as it
    is and nothing is raised.  When the time is greater and the file is
    read, the template is compiled anew from what was read: what it holds
    then is what the compilation of that text builds on a template without
    nodes, whatever it held before, and the new time is kept if the
    compilation succeeds; a [TemplateSyntaxError] of the compilation is
    raised to the caller of [ReloadIfModified] and of [Parse].  [Parse]
    renders the template that the reload leaves.  The example: the template
    compiled from [old], its file changed to [new [a]]. *)
Theorem FileTemplate_reload_on_newer_mtime
  (registered : registry) (eval_arguments : string -> outcome (list value))
  (f : FileTemplate.file) (self : FileTemplate.t) :
  let fresh :=
    Template.New (Template.class_name (FileTemplate.template self))
      (Template.parser (FileTemplate.template self)) [] [] ∅ 0 in
  (forall e, FileTemplate.getmtime f = Raise e -> is_OSError e = true ->
     FileTemplate.ReloadIfModified f self = (Ok tt, self))
  /\ (forall m, FileTemplate.getmtime f = Ok m -> (m <= FileTemplate._file_mtime self)%Z ->
        FileTemplate.ReloadIfModified f self = (Ok tt, self))
  /\ (forall m e,
        FileTemplate.getmtime f = Ok m -> (m > FileTemplate._file_mtime self)%Z ->
        FileTemplate.read f = Raise e -> is_OSError e = true ->
        FileTemplate.ReloadIfModified f self = (Ok tt, self))
  /\ (forall m source tmpl,
        FileTemplate.getmtime f = Ok m -> (m > FileTemplate._file_mtime self)%Z ->
        FileTemplate.read f = Ok source ->
        Template.AddString source fresh = (Ok tt, tmpl) ->
        FileTemplate.ReloadIfModified f self
        = (Ok tt, FileTemplate.New tmpl (FileTemplate._template_path self)
                    (FileTemplate._file_name self) m)
        /\ forall other : FileTemplate.t,
             Template.class_name (FileTemplate.template other)
             = Template.class_name (FileTemplate.template self) ->
             Template.parser (FileTemplate.template other)
             = Template.parser (FileTemplate.template self) ->
             (m > FileTemplate._file_mtime other)%Z ->
             FileTemplate.template (snd (FileTemplate.ReloadIfModified f other)) = tmpl)
  /\ (forall m source msg tmpl,
        FileTemplate.getmtime f = Ok m -> (m > FileTemplate._file_mtime self)%Z ->
        FileTemplate.read f = Ok source ->
        Template.AddString source fresh = (Raise (TemplateSyntaxError msg), tmpl) ->
        FileTemplate.ReloadIfModified f self
        = (Raise (TemplateSyntaxError msg), FileTemplate.with_template self tmpl)
        /\ forall kw, kw !! "self" = None ->
             FileTemplate.Parse registered eval_arguments f kw self
             = (Raise (TemplateSyntaxError msg), FileTemplate.with_template self tmpl))
  /\ (forall kw self1 result tmpl,
        kw !! "self" = None ->
        FileTemplate.ReloadIfModified f self = (Ok tt, self1) ->
        TemplateParse.Parse_kwds registered eval_arguments kw (FileTemplate.template self1)
        = (Ok result, tmpl) ->
        TemplateParse.noparse_mode tmpl = false ->
        FileTemplate.Parse registered eval_arguments f kw self
        = (Ok (FileTemplate.Rendered result), FileTemplate.with_template self1 tmpl))
  /\ FileTemplate.ReloadIfModified changed_file old_template
     = (Ok tt,
        FileTemplate.New
          (Template.New "FileTemplate" None
             [Text "new "; Tag (TemplateTag.New "a" [] [])] [] ∅ 0)
          "page.html" "/srv/page.html" 2)
  /\ fst (FileTemplate.Parse initial_functions no_closures changed_file {[ "a" := VInt 1 ]}
            old_template)
     = Ok (FileTemplate.Rendered
             {| text := "new 1"; content_hash := MD5 "new 1"; page_hash := None;
                tags := None |}).
Proof.
  intros fresh.
  split; [|split; [|split; [|split; [|split; [|split; [|split]]]]]].
  - intros e Hm Hos. unfold FileTemplate.ReloadIfModified, catchM. rewrite Hm, Hos.
    reflexivity.
  - intros m Hm Hle. unfold FileTemplate.ReloadIfModified, catchM. rewrite Hm.
    destruct (m >? FileTemplate._file_mtime self)%Z eqn:E; [|reflexivity].
    apply Z.gtb_gt in E. lia.
  - intros m e Hm Hgt Hr Hos. unfold FileTemplate.ReloadIfModified, catchM.
    rewrite Hm, Hr. apply Z.gtb_gt in Hgt. rewrite Hgt, Hos. reflexivity.
  - intros m source tmpl Hm Hgt Hr Hc. split.
    + rewrite (Reload_recompiles _ _ _ _ Hm Hgt Hr). unfold FileTemplate.cleared.
      fold fresh. rewrite Hc. reflexivity.
    + intros other Hcls Hpar Hgt'.
      rewrite (Reload_recompiles _ _ _ _ Hm Hgt' Hr). unfold FileTemplate.cleared.
      rewrite Hcls, Hpar. fold fresh. rewrite Hc. reflexivity.
  - intros m source msg tmpl Hm Hgt Hr Hc.
    assert (R : FileTemplate.ReloadIfModified f self
                = (Raise (TemplateSyntaxError msg), FileTemplate.with_template self tmpl)).
    { rewrite (Reload_recompiles _ _ _ _ Hm Hgt Hr). unfold FileTemplate.cleared.
      fold fresh. rewrite Hc. reflexivity. }
    split; [exact R|].
    intros kw Hself. unfold FileTemplate.Parse, binds. rewrite Hself, R. reflexivity.
  - intros kw self1 result tmpl Hself Hre Hp Hno.
    unfold FileTemplate.Parse, binds. rewrite Hself, Hre, Hp, Hno. reflexivity.
  - vm_compute. reflexivity.
  - vm_compute. reflexivity.
Qed.

Lemma FileTemplate_reload_on_newer_mtime_witness :
  FileTemplate.ReloadIfModified missing_file old_template = (Ok tt, old_template)
  /\ fst (FileTemplate.ReloadIfModified broken_file old_template)
     = Raise (TemplateSyntaxError (LeftOpen 1))
  /\ FileTemplate.ReloadIfModified changed_file old_template
     = (Ok tt,
        FileTemplate.New
          (Template.New "FileTemplate" None
             [Text "new "; Tag (TemplateTag.New "a" [] [])] [] ∅ 0)
          "page.html" "/srv/page.html" 2).
Proof.
  assert (Hgt : (2 > FileTemplate._file_mtime old_template)%Z) by reflexivity.
  split; [|split].
  - apply (proj1 (FileTemplate_reload_on_newer_mtime initial_functions no_closures
                    missing_file old_template) PyOSError); reflexivity.
  - assert (Hc : Template.AddString "{{ if [a] }}new"
                   (Template.New (Template.class_name (FileTemplate.template old_template))
                      (Template.parser (FileTemplate.template old_template)) [] [] ∅ 0)
                 = (Raise (TemplateSyntaxError (LeftOpen 1)),
                    snd (Template.AddString "{{ if [a] }}new"
                           (Template.New "FileTemplate" None [] [] ∅ 0))))
      by (vm_compute; reflexivity).
    rewrite (proj1 (proj1 (proj2 (proj2 (proj2 (proj2
               (FileTemplate_reload_on_newer_mtime initial_functions no_closures
                  broken_file old_template)))))
               2%Z "{{ if [a] }}new" (LeftOpen 1) _ eq_refl Hgt eq_refl Hc)).
    reflexivity.
  - assert (Hc : Template.AddString "new [a]"
                   (Template.New (Template.class_name (FileTemplate.template old_template))
                      (Template.parser (FileTemplate.template old_template)) [] [] ∅ 0)
                 = (Ok tt,
                    Template.New "FileTemplate" None
                      [Text "new "; Tag (TemplateTag.New "a" [] [])] [] ∅ 0))
      by (vm_compute; reflexivity).
    apply (proj1 (proj1 (proj2 (proj2 (proj2
              (FileTemplate_reload_on_newer_mtime initial_functions no_closures
                 changed_file old_template))))
              2%Z "new [a]" _ eq_refl Hgt eq_refl Hc)).
Defined.

(** C10.  When the file is newer and the text read from it does not
    compile, the list of nodes has been emptied before the compilation
    began: what the template holds when the [TemplateSyntaxError] leaves
    [ReloadIfModified] is what the compilation built from the new text
    until it stopped, whatever the template held before, and the
    modification time kept is still the old one.  The example: the
    template compiled from [old] holds an open conditional of the new text,
    and renders that once the file is gone. *)
Theorem FileTemplate_reload_loses_old_nodes
  (f : FileTemplate.file) (self : FileTemplate.t) (m : Z) (source : string)
  (msg : syntax_error) (tmpl : Template.t) :
  FileTemplate.getmtime f = Ok m ->
  (m > FileTemplate._file_mtime self)%Z ->
  FileTemplate.read f = Ok source ->
  Template.AddString source
    (Template.New (Template.class_name (FileTemplate.template self))
       (Template.parser (FileTemplate.template self)) [] [] ∅ 0)
  = (Raise (TemplateSyntaxError msg), tmpl) ->
  fst (FileTemplate.ReloadIfModified f self) = Raise (TemplateSyntaxError msg)
  /\ FileTemplate.template (snd (FileTemplate.ReloadIfModified f self)) = tmpl
  /\ FileTemplate._file_mtime (snd (FileTemplate.ReloadIfModified f self))
     = FileTemplate._file_mtime self
  /\ (forall other : FileTemplate.t,
        Template.class_name (FileTemplate.template other)
        = Template.class_name (FileTemplate.template self) ->
        Template.parser (FileTemplate.template other)
        = Template.parser (FileTemplate.template self) ->
        (m > FileTemplate._file_mtime other)%Z ->
        FileTemplate.template (snd (FileTemplate.ReloadIfModified f other)) = tmpl)
  /\ Template.contents
       (FileTemplate.template (snd (FileTemplate.ReloadIfModified broken_file old_template)))
     = [Conditional false true
          [(Tuple [PartTag (TemplateTag.New "a" [] [])], [Text "new"])] None]
  /\ fst (FileTemplate.Parse initial_functions no_closures missing_file {[ "a" := VInt 1 ]}
            (snd (FileTemplate.ReloadIfModified broken_file old_template)))
     = Ok (FileTemplate.Rendered
             {| text := "new"; content_hash := MD5 "new"; page_hash := None; tags := None |}).
Proof.
  intros Hm Hgt Hr Hc.
  assert (R : forall other : FileTemplate.t,
             Template.class_name (FileTemplate.template other)
             = Template.class_name (FileTemplate.template self) ->
             Template.parser (FileTemplate.template other)
             = Template.parser (FileTemplate.template self) ->
             (m > FileTemplate._file_mtime other)%Z ->
             FileTemplate.ReloadIfModified f other
             = (Raise (TemplateSyntaxError msg), FileTemplate.with_template other tmpl)).
  { intros other Hcls Hpar Hgt'.
    rewrite (Reload_recompiles _ _ _ _ Hm Hgt' Hr).
    unfold FileTemplate.cleared. rewrite Hcls, Hpar, Hc. reflexivity. }
  rewrite (R self eq_refl eq_refl Hgt).
  split; [reflexivity|]. split; [reflexivity|]. split; [reflexivity|].
  split; [|split].
  - intros other Hcls Hpar Hgt'. now rewrite (R other Hcls Hpar Hgt').
  - vm_compute. reflexivity.
  - vm_compute. reflexivity.
Qed.

Lemma FileTemplate_reload_loses_old_nodes_witness :
  fst (FileTemplate.ReloadIfModified broken_file old_template)
  = Raise (TemplateSyntaxError (LeftOpen 1))
  /\ FileTemplate._file_mtime (snd (FileTemplate.ReloadIfModified broken_file old_template))
     = 1%Z.
Proof.
  assert (Hgt : (2 > FileTemplate._file_mtime old_template)%Z) by reflexivity.
  assert (Hc : Template.AddString "{{ if [a] }}new"
                 (Template.New (Template.class_name (FileTemplate.template old_template))
                    (Template.parser (FileTemplate.template old_template)) [] [] ∅ 0)
               = (Raise (TemplateSyntaxError (LeftOpen 1)),
                  snd (Template.AddString "{{ if [a] }}new"
                         (Template.New "FileTemplate" None [] [] ∅ 0))))
    by (vm_compute; reflexivity).
  pose proof (FileTemplate_reload_loses_old_nodes broken_file old_template 2
                "{{ if [a] }}new" (LeftOpen 1) _ eq_refl Hgt eq_refl Hc) as (H1 & _ & H3 & _).
  split; [exact H1 | exact H3].
Defined.

Lemma py_eval_parsed (source : string) (local_vars : LazyTagValueRetrieval.t) (e : expr) :
  parse source = Some e ->
  py_eval source local_vars = eval_expr (eval_lookup local_vars) e.
Proof. intros H. unfold py_eval. now rewrite H. Qed.

Lemma eval_and_false (lookup : string -> outcome value) (l r : expr) (v : value) :
  eval_expr lookup l = Ok v -> py_bool v = false ->
  eval_expr lookup (EAnd l r) = Ok v.
Proof. intros Hl Hb. simpl. rewrite Hl. simpl. now rewrite Hb. Qed.

Lemma eval_or_true (lookup : string -> outcome value) (l r : expr) (v : value) :
  eval_expr lookup l = Ok v -> py_bool v = true ->
  eval_expr lookup (EOr l r) = Ok v.
Proof. intros Hl Hb. simpl. rewrite Hl. simpl. now rewrite Hb. Qed.

(** The value of an expression depends on the lookup of the names it
    mentions only. *)
Lemma eval_expr_names (lookup lookup' : string -> outcome value) (e : expr) :
  (forall x, In x (names e) -> lookup x = lookup' x) ->
  eval_expr lookup e = eval_expr lookup' e.
Proof.
  induction e as [x|v|a IH|l IHl r IHr|l IHl r IHr|op l IHl r IHr]; simpl; intros H.
  - apply H. now left.
  - reflexivity.
  - now rewrite IH.
  - rewrite IHl by (intros x Hx; apply H, in_or_app; now left).
    rewrite IHr by (intros x Hx; apply H, in_or_app; now right). reflexivity.
  - rewrite IHl by (intros x Hx; apply H, in_or_app; now left).
    rewrite IHr by (intros x Hx; apply H, in_or_app; now right). reflexivity.
  - rewrite IHl by (intros x Hx; apply H, in_or_app; now left).
    rewrite IHr by (intros x Hx; apply H, in_or_app; now right). reflexivity.
Qed.

Lemma short_circuit_compiles :
  Template.__init__ short_circuit_source None
  = (Ok tt, Template.New "Template" None [short_circuit_node] [] ∅ 0).
Proof. vm_compute. reflexivity. Qed.

Lemma short_circuit_Expression (kw : kwds) (va : value) :
  kw !! "a" = Some va -> py_bool va = false -> kw !! "expr" = None ->
  TemplateConditional.Expression short_circuit_condition kw = Ok va.
Proof.
  intros Ha Hfalse Hexpr. unfold TemplateConditional.Expression.
  rewrite call_kwds_free by exact Hexpr.
  change (TemplateConditional.name_tags 0 short_circuit_condition
            (LazyTagValueRetrieval.__init__ kw))
    with (["__tmpl_var_0"; " and "; "__tmpl_var_2"],
          LazyTagValueRetrieval.New kw
            (<["__tmpl_var_2" := TemplateTag.New "b" ["0"] []]>
               (<["__tmpl_var_0" := TemplateTag.New "a" [] []]> ∅))).
  cbv beta iota.
  rewrite (py_eval_parsed _ _ (EAnd (EName "__tmpl_var_0") (EName "__tmpl_var_2")))
    by (vm_compute; reflexivity).
  rewrite (eval_and_false _ _ _ va); [reflexivity| |exact Hfalse].
  simpl eval_expr. unfold eval_lookup, LazyTagValueRetrieval.__getitem__.
  simpl LazyTagValueRetrieval._tags. simpl LazyTagValueRetrieval._values.
  replace ((<["__tmpl_var_2" := TemplateTag.New "b" ["0"] []]>
              (<["__tmpl_var_0" := TemplateTag.New "a" [] []]> ∅) : gmap string TemplateTag.t)
           !! "__tmpl_var_0")
    with (Some (TemplateTag.New "a" [] [])) by (vm_compute; reflexivity).
  rewrite (GetValue_present _ _ va) by exact Ha. reflexivity.
Qed.

(** C6.  The right operand of [and] is not evaluated when the left one is
    false: the value of the conjunction is then the value of the left
    operand, whatever the right operand is and whatever the lookup of the
    names outside the left operand would do, for the tree and for any text
    that [eval] reads as a conjunction; likewise for [or] with a true left
    operand.  The condition of scenario 4 has the value of [a] when that
    is false, and the template parses to [no] for every replacements mapping
    with a false [a]: also when [b] is a number, whose item 0 is a
    [TypeError] when looked up. *)
Theorem conditional_and_does_not_resolve_right_operand :
  (forall (lookup : string -> outcome value) (l r : expr) (v : value),
     eval_expr lookup l = Ok v -> py_bool v = false ->
     eval_expr lookup (EAnd l r) = Ok v)
  /\ (forall (lookup lookup' : string -> outcome value) (l r : expr) (v : value),
        (forall x, In x (names l) -> lookup x = lookup' x) ->
        eval_expr lookup l = Ok v -> py_bool v = false ->
        eval_expr lookup' (EAnd l r) = Ok v)
  /\ (forall (lookup : string -> outcome value) (l r : expr) (v : value),
        eval_expr lookup l = Ok v -> py_bool v = true ->
        eval_expr lookup (EOr l r) = Ok v)
  /\ (forall (source : string) (local_vars : LazyTagValueRetrieval.t) (l r : expr) (v : value),
        parse source = Some (EAnd l r) ->
        eval_expr (eval_lookup local_vars) l = Ok v -> py_bool v = false ->
        py_eval source local_vars = Ok v)
  /\ (forall (registered : registry) (kw : kwds) (va : value),
        kw !! "a" = Some va -> py_bool va = false ->
        kw !! "self" = None -> kw !! "expr" = None -> kw !! "returnRawTemplate" = None ->
        TemplateConditional.Expression short_circuit_condition kw = Ok va
        /\ render registered short_circuit_source kw = Ok "no")
  /\ TemplateTag.GetValue (TemplateTag.New "b" ["0"] [])
       (<["a" := VBool false]> {[ "b" := VInt 5 ]})
     = Raise PyTypeError
  /\ render initial_functions short_circuit_source (<["a" := VBool false]> {[ "b" := VInt 5 ]})
     = Ok "no".
Proof.
  split; [exact eval_and_false|]. split; [|split; [exact eval_or_true|]].
  { intros lookup lookup' l r v Hsame Hl Hb. apply eval_and_false; [|exact Hb].
    rewrite <- (eval_expr_names lookup lookup' l Hsame). exact Hl. }
  split; [|split; [|split]].
  - intros source local_vars l r v Hp Hl Hb.
    rewrite (py_eval_parsed _ _ _ Hp). now apply eval_and_false.
  - intros registered kw va Ha Hfalse Hself Hexpr Hraw.
    pose proof (short_circuit_Expression kw va Ha Hfalse Hexpr) as HE.
    split; [exact HE|].
    unfold render. rewrite short_circuit_compiles.
    unfold TemplateParse.Parse_kwds. rewrite Hraw.
    rewrite (delete_id kw "returnRawTemplate" Hraw).
    unfold TemplateParse.Parse, binds. rewrite Hself.
    unfold TemplateParse.on_maps, TemplateParse.Parse_body.
    simpl Template.contents. simpl Template.maps. simpl Template.next_map.
    simpl join_Parse. unfold TemplateConditional.Parse.
    rewrite call_kwdsM_free by exact Hself.
    simpl TemplateConditional.Parse_branches.
    unfold TemplateConditional.condition. rewrite HE.
    unfold bindM, lift, ret. simpl. rewrite Hfalse.
    unfold TemplateText.Parse. rewrite call_kwds_free by exact Hself.
    reflexivity.
  - vm_compute. reflexivity.
  - vm_compute. reflexivity.
Qed.

Lemma conditional_and_does_not_resolve_right_operand_witness :
  eval_expr (fun x => if String.eqb x "a" then Ok (VBool false) else Raise PyTypeError)
    (EAnd (EName "a") (EName "b"))
  = Ok (VBool false).
Proof.
  apply (proj1 conditional_and_does_not_resolve_right_operand); reflexivity.
Defined.

Lemma quiet_ret {A} (a : A) : quiet (ret a).
Proof. intros self e self'. discriminate. Qed.

Lemma quiet_lift {A} (o : outcome A) : quiet_outcome o -> quiet (lift o).
Proof. intros H self e self' [= -> _]. now apply H. Qed.

Lemma quiet_bind {A B} (m : St Template.t A) (k : A -> St Template.t B) :
  quiet m -> (forall a, quiet (k a)) -> quiet (bindM m k).
Proof.
  intros Hm Hk self e self'. unfold bindM.
  destruct (m self) as [[a|e1|] s1] eqn:E.
  - apply Hk.
  - intros [= <- <-]. eapply Hm; eauto.
  - discriminate.
Qed.

Lemma quiet_catch {A} (m : St Template.t A) (caught : exn -> bool)
  (h : exn -> St Template.t A) :
  quiet m -> (forall e, quiet (h e)) -> quiet (catchM m caught h).
Proof.
  intros Hm Hh self e self'. unfold catchM.
  destruct (m self) as [[a|e1|] s1] eqn:E; try discriminate.
  destruct (caught e1).
  - apply Hh.
  - intros [= <- <-]. eapply Hm; eauto.
Qed.

Lemma quiet_raise {A} (e : exn) : depth_report e = false -> quiet (@lift Template.t A (Raise e)).
Proof. intros H. apply quiet_lift. now intros e' [= <-]. Qed.

Lemma quiet_FromString (s : string) : quiet_outcome (TemplateTag.FromString s).
Proof.
  intros e. unfold TemplateTag.FromString.
  destruct (TAG_match s) as [[[[? ?] ?] ?]|]; [discriminate|].
  now intros [= <-].
Qed.

Lemma quiet_TagSplit_pieces (pieces : list string) (odd : bool) :
  quiet_outcome (Template.TagSplit_pieces odd pieces).
Proof.
  revert odd. induction pieces as [|p rest IH]; intros odd e; simpl; [discriminate|].
  destruct odd.
  - destruct (TemplateTag.FromString p) as [tag|e1|] eqn:F; simpl; try discriminate.
    + destruct (Template.TagSplit_pieces false rest) as [more|e2|] eqn:T; simpl;
        try discriminate.
      intros [= <-]. eapply IH; eauto.
    + intros [= <-]. eapply quiet_FromString; eauto.
  - destruct (Template.TagSplit_pieces true rest) as [more|e2|] eqn:T; simpl;
      try discriminate.
    intros [= <-]. eapply IH; eauto.
Qed.

Lemma quiet_append (scope item : node) : quiet_outcome (Template.append scope item).
Proof.
  intros e. destruct scope as [s|t|tag al body|p c br [d|]]; simpl; try discriminate.
  - now intros [= <-].
  - now intros [= <-].
  - destruct (Template.append_last br item); [discriminate|]. now intros [= <-].
Qed.

Lemma quiet_AddToOpenScope (item : node) : quiet (Template._AddToOpenScope item).
Proof.
  intros self e self'. unfold Template._AddToOpenScope.
  destruct (Template.scopes self) as [|top below]; [discriminate|].
  destruct (Template.append top item) as [top'|e1|] eqn:A; try discriminate.
  intros [= <- _]. eapply quiet_append; eauto.
Qed.

Lemma quiet_add_all (items : list node) : quiet (Template.add_all items).
Proof.
  induction items as [|i rest IH]; simpl.
  - apply quiet_ret.
  - apply quiet_bind; [apply quiet_AddToOpenScope | intros _; exact IH].
Qed.

Lemma quiet_ExtendText (text : string) : quiet (Template._ExtendText text).
Proof.
  unfold Template._ExtendText. apply quiet_bind.
  - apply quiet_lift, quiet_TagSplit_pieces.
  - intros parts. apply quiet_add_all.
Qed.

Lemma quiet_StartScope (scope : node) : quiet (Template._StartScope scope).
Proof. intros self e self'. discriminate. Qed.

Lemma quiet_CloseScope (c : Template.scope_cls) : quiet (Template._CloseScope c).
Proof.
  intros self e self'. unfold Template._CloseScope.
  destruct (Template.scopes self) as [|top below]; [now intros [= <- _]|].
  destruct (Template.isinstance top c); [apply quiet_AddToOpenScope|now intros [= <- _]].
Qed.

Lemma quiet_VerifyOpenScope (c : Template.scope_cls) : quiet (Template._VerifyOpenScope c).
Proof.
  intros self e self'. unfold Template._VerifyOpenScope.
  destruct (Template.scopes self) as [|top below]; [now intros [= <- _]|].
  destruct (Template.isinstance top c); [discriminate|now intros [= <- _]].
Qed.

Lemma quiet_NewBranch (presence : bool) (expr : string) :
  quiet (Template.NewBranch presence expr).
Proof.
  unfold Template.NewBranch. destruct presence.
  - intros self e self'. discriminate.
  - apply quiet_bind; [apply quiet_lift, quiet_TagSplit_pieces | intros; apply quiet_ret].
Qed.

Lemma quiet_new_conditional (presence : bool) (expr : string) (c : bool) :
  quiet (Template.new_conditional presence expr c).
Proof.
  unfold Template.new_conditional.
  apply quiet_bind; [apply quiet_NewBranch | intros; apply quiet_ret].
Qed.

Lemma quiet_new_loop (tag : string) (aliases : list string) :
  quiet_outcome (Template.new_loop tag aliases).
Proof.
  intros e. unfold Template.new_loop, catch.
  destruct (TemplateTag.FromString tag) as [t|e1|] eqn:F; simpl; try discriminate.
  destruct e1; simpl; try (intros [= <-]; eapply quiet_FromString; eauto; fail).
  now intros [= <-].
Qed.

Lemma quiet_Elif (expr : string) : quiet (Template.Elif expr).
Proof.
  intros self e self'. unfold Template.Elif.
  destruct (Template.scopes self) as [|[s|t|tag al body|p c br d] below];
    try (now intros [= <- _]).
  destruct d; [now intros [= <- _]|].
  destruct (Template.NewBranch p expr self) as [[x|e1|] s1] eqn:N; try discriminate.
  intros [= <- _]. eapply quiet_NewBranch; eauto.
Qed.

Lemma quiet_Else : quiet Template.Else.
Proof.
  intros self e self'. unfold Template.Else.
  destruct (Template.scopes self) as [|[s|t|tag al body|p c br d] below];
    try (now intros [= <- _]).
  destruct d; [now intros [= <- _]|discriminate].
Qed.

Lemma quiet_construct (function : string) (nodes : list string) :
  quiet (Template.construct function nodes).
Proof.
  unfold Template.construct.
  repeat match goal with
         | |- quiet (if ?b then _ else _) => destruct b
         | |- quiet (match ?l with [] => _ | _ :: _ => _ end) => destruct l
         | |- quiet (match FUNCTION_split ?s with [] => _ | _ :: _ => _ end) =>
             destruct (FUNCTION_split s)
         | |- quiet (bindM _ _) => apply quiet_bind; [|intros ?]
         | |- quiet (lift (Raise _)) => apply quiet_raise; reflexivity
         | |- quiet (lift Beyond) => intros ? ? ?; discriminate
         | |- quiet (lift (Template.last_node _)) =>
             apply quiet_lift; intros ?; unfold Template.last_node;
             destruct (last _); [discriminate|now intros [= <-]]
         | |- quiet (lift (Template.new_loop _ _)) => apply quiet_lift, quiet_new_loop
         | |- quiet (Template._ExtendText _) => apply quiet_ExtendText
         | |- quiet (Template._StartScope _) => apply quiet_StartScope
         | |- quiet (Template._CloseScope _) => apply quiet_CloseScope
         | |- quiet (Template._VerifyOpenScope _) => apply quiet_VerifyOpenScope
         | |- quiet (Template.new_conditional _ _ _) => apply quiet_new_conditional
         | |- quiet (Template.Elif _) => apply quiet_Elif
         | |- quiet Template.Else => apply quiet_Else
         | |- quiet (Template.AddFile _) =>
             intros ? ? ?; unfold Template.AddFile;
             destruct (Template.parser _); [discriminate|now intros [= <- _]]
         end.
Qed.

Lemma quiet_ExtendFunction (nodes : string) : quiet (Template._ExtendFunction nodes).
Proof.
  unfold Template._ExtendFunction.
  destruct (str_split nodes) as [|function nodes'].
  - apply quiet_raise. reflexivity.
  - apply quiet_catch; [apply quiet_construct|].
    intros e. apply quiet_raise. reflexivity.
Qed.

Lemma quiet_extend (nodes : list string) (odd : bool) : quiet (Template.extend odd nodes).
Proof.
  revert odd. induction nodes as [|n rest IH]; intros odd; simpl.
  - apply quiet_ret.
  - apply quiet_bind; [|intros _; apply IH].
    destruct odd; [apply quiet_ExtendFunction | apply quiet_ExtendText].
Qed.

Lemma depth_at_least_1 (self : Template.t) : (1 <= Template.depth self)%Z.
Proof. unfold Template.depth. lia. Qed.

Lemma depth_1_no_scopes (self : Template.t) :
  Template.depth self = 1%Z <-> Template.scopes self = [].
Proof.
  unfold Template.depth. destruct (Template.scopes self); simpl; split; intros H;
    try reflexivity; try discriminate; lia.
Qed.

(** C5, as the specification states it, fails on a closing function without an
    open scope: the source [{{ endfor }}] is not balanced, and its
    compilation raises the [TemplateSyntaxError] of [_CloseScope], which
    names two classes and reports no depth.  A source with as many opening
    as closing functions need not compile either. *)
Lemma compile_endfor_reports_no_depth :
  fst (Template.__init__ "{{ endfor }}" None)
  = Raise (TemplateSyntaxError (TriedToClose "TemplateLoop" "Template"))
  /\ ~ (exists d, fst (Template.__init__ "{{ endfor }}" None)
                = Raise (TemplateSyntaxError (ClosedTooMany d))
                \/ fst (Template.__init__ "{{ endfor }}" None)
                   = Raise (TemplateSyntaxError (LeftOpen d)))
  /\ fst (Template.__init__ "{{ endif }}{{ if [a] }}" None)
     = Raise (TemplateSyntaxError (TriedToClose "TemplateConditional" "Template")).
Proof.
  split; [vm_compute; reflexivity|]. split; [|vm_compute; reflexivity].
  intros [d [H|H]]; vm_compute in H; discriminate.
Qed.

(** C5, amended.  When every piece of the source has been processed
    without an error, the compilation succeeds if the stack of scopes is
    back at depth 1 and otherwise raises [TemplateSyntaxError] with the
    number of scopes left open, which is positive.  An error of a piece is
    the error of the compilation.  A compiled template has no open scope.
    A closing function that does not meet an open scope of its class, the
    template itself or a scope of the other class, raises at once a
    [TemplateSyntaxError] that names its class and that of what is open,
    and leaves the template as it is; one that meets a scope of its class
    closes that scope and adds it to what is open below.  So the depth never
    falls below 1 and the error for scopes closed too many is never
    raised.  The example: [endfor] on an open conditional. *)
Theorem compile_checks_scope_depth (raw_template : string) (parser : option Parser) :
  let init := Template.New "Template" parser [] [] ∅ 0 in
  (forall self,
     Template.extend false (FUNCTION_split raw_template) init = (Ok tt, self) ->
     (Template.depth self = 1%Z ->
      Template.__init__ raw_template parser = (Ok tt, self))
     /\ (Template.depth self <> 1%Z ->
         (0 < Template.depth self - 1)%Z
         /\ Template.__init__ raw_template parser
            = (Raise (TemplateSyntaxError (LeftOpen (Template.depth self - 1))), self)))
  /\ (forall e self,
        Template.extend false (FUNCTION_split raw_template) init = (Raise e, self) ->
        Template.__init__ raw_template parser = (Raise e, self))
  /\ (forall self,
        Template.__init__ raw_template parser = (Ok tt, self) ->
        Template.scopes self = [])
  /\ (forall d,
        fst (Template.__init__ raw_template parser)
        <> Raise (TemplateSyntaxError (ClosedTooMany d)))
  /\ (forall c self,
        Template.scopes self = [] ->
        Template._CloseScope c self
        = (Raise (TemplateSyntaxError (TriedToClose (Template.cls_name c)
                                         (Template.class_name self))), self))
  /\ (forall c self top below,
        Template.scopes self = top :: below ->
        (Template.isinstance top c = false ->
         Template._CloseScope c self
         = (Raise (TemplateSyntaxError (TriedToClose (Template.cls_name c)
                                          (Template.type_name top))), self))
        /\ (Template.isinstance top c = true ->
            Template._CloseScope c self
            = Template._AddToOpenScope top (Template.with_scopes self below)
            /\ (fst (Template._CloseScope c self) = Ok tt ->
                Template.depth (snd (Template._CloseScope c self))
                = (Template.depth self - 1)%Z)))
  /\ fst (Template.__init__ "{{ if [a] }}{{ endfor }}" None)
     = Raise (TemplateSyntaxError (TriedToClose "TemplateLoop" "TemplateConditional"))
  /\ fst (Template.__init__ "{{ for x in [a] }}{{ endif }}" None)
     = Raise (TemplateSyntaxError (TriedToClose "TemplateConditional" "TemplateLoop")).
Proof.
  intros init.
  assert (D0 : Template.depth init = 1%Z) by reflexivity.
  split; [|split; [|split; [|split; [|split; [|split; [|split]]]]]].
  - intros self Hext. unfold Template.__init__, Template.AddString. fold init.
    rewrite Hext, D0. split.
    + intros H1. rewrite H1. reflexivity.
    + intros Hne. pose proof (depth_at_least_1 self) as Hge.
      split; [lia|].
      destruct (Template.depth self =? 1)%Z eqn:E; [apply Z.eqb_eq in E; contradiction|].
      simpl negb. cbv iota.
      destruct (Template.depth self - 1 <? 0)%Z eqn:L; [apply Z.ltb_lt in L; lia|].
      reflexivity.
  - intros e self Hext. unfold Template.__init__, Template.AddString. fold init.
    now rewrite Hext.
  - intros self. unfold Template.__init__, Template.AddString. fold init. rewrite D0.
    destruct (Template.extend false (FUNCTION_split raw_template) init)
      as [[[]|e|] s1] eqn:Hext; try discriminate.
    destruct (Template.depth s1 =? 1)%Z eqn:E; simpl negb; cbv iota.
    + intros [= <-]. apply depth_1_no_scopes. now apply Z.eqb_eq.
    + destruct (Template.depth s1 - 1 <? 0)%Z; discriminate.
  - intros d. unfold Template.__init__, Template.AddString. fold init. rewrite D0.
    destruct (Template.extend false (FUNCTION_split raw_template) init)
      as [[[]|e|] s1] eqn:Hext.
    + pose proof (depth_at_least_1 s1) as Hge.
      destruct (Template.depth s1 =? 1)%Z eqn:E; simpl negb; cbv iota.
      * cbn [fst]. discriminate.
      * destruct (Template.depth s1 - 1 <? 0)%Z eqn:L; [apply Z.ltb_lt in L; lia|].
        cbn [fst]. discriminate.
    + cbn [fst]. intros [= ->].
      pose proof (quiet_extend _ _ _ _ _ Hext) as Q. discriminate.
    + cbn [fst]. discriminate.
  - intros c self Hs. unfold Template._CloseScope. now rewrite Hs.
  - intros c self top below Hs. split.
    + intros Hno. unfold Template._CloseScope. now rewrite Hs, Hno.
    + intros Hyes.
      assert (E : Template._CloseScope c self
                  = Template._AddToOpenScope top (Template.with_scopes self below))
        by (unfold Template._CloseScope; now rewrite Hs, Hyes).
      split; [exact E|]. rewrite E.
      unfold Template._AddToOpenScope, Template.depth. rewrite Hs.
      destruct below as [|under below']; cbn [Template.scopes Template.with_scopes].
      * intros _. simpl. lia.
      * destruct (Template.append under top) as [under'|e|]; cbn [fst]; try discriminate.
        intros _. simpl Template.scopes. simpl length. lia.
  - vm_compute. reflexivity.
  - vm_compute. reflexivity.
Qed.

Lemma compile_checks_scope_depth_witness :
  fst (Template.__init__ "{{ for x in [a] }}{{ if [b] }}" None)
  = Raise (TemplateSyntaxError (LeftOpen 2))
  /\ fst (Template.__init__ "{{ for x in [a] }}[x]{{ endfor }}" None) = Ok tt
  /\ fst (Template._CloseScope Template.TemplateLoop
            (snd (Template.__init__ "{{ if [a] }}" None)))
     = Raise (TemplateSyntaxError (TriedToClose "TemplateLoop" "TemplateConditional")).
Proof.
  split; [|split].
  3: {
    assert (Hs : Template.scopes (snd (Template.__init__ "{{ if [a] }}" None))
                 = [Conditional false true
                      [(Tuple [PartTag (TemplateTag.New "a" [] [])], [])] None])
      by (vm_compute; reflexivity).
    rewrite (proj1 (proj1 (proj2 (proj2 (proj2 (proj2 (proj2
               (compile_checks_scope_depth "{{ if [a] }}" None))))))
               Template.TemplateLoop _ _ _ Hs) eq_refl).
    reflexivity. }
  - assert (H : Template.extend false (FUNCTION_split "{{ for x in [a] }}{{ if [b] }}")
                  (Template.New "Template" None [] [] ∅ 0)
                = (Ok tt, snd (Template.__init__ "{{ for x in [a] }}{{ if [b] }}" None)))
      by (vm_compute; reflexivity).
    assert (Hne : Template.depth (snd (Template.__init__ "{{ for x in [a] }}{{ if [b] }}" None))
                  <> 1%Z) by (vm_compute; discriminate).
    rewrite (proj2 (proj2 (proj1 (compile_checks_scope_depth
                                    "{{ for x in [a] }}{{ if [b] }}" None) _ H) Hne)).
    reflexivity.
  - assert (H : Template.extend false (FUNCTION_split "{{ for x in [a] }}[x]{{ endfor }}")
                  (Template.New "Template" None [] [] ∅ 0)
                = (Ok tt, snd (Template.__init__ "{{ for x in [a] }}[x]{{ endfor }}" None)))
      by (vm_compute; reflexivity).
    assert (H1 : Template.depth
                   (snd (Template.__init__ "{{ for x in [a] }}[x]{{ endfor }}" None))
                 = 1%Z) by (vm_compute; reflexivity).
    rewrite (proj1 (proj1 (compile_checks_scope_depth
                             "{{ for x in [a] }}[x]{{ endfor }}" None) _ H) H1).
    reflexivity.
Defined.
(** The loop of a presence branch on a [map] object that has not been used:
    with [checking_presence] set the result is [True] when every tag
    resolves and [False] at the first that does not, and the tags after
    that one stay in the [map] object. *)
Lemma presence_all_resolve (tags : list string) (kw : kwds) :
  Forall (resolves kw) tags ->
  TemplateConditionalPresence.presence tags kw
  = (Ok (TemplateConditionalPresence.checking kw), []).
Proof.
  induction 1 as [|raw rest (tag & v & Hf & Hg) _ IH]; simpl.
  - now destruct (TemplateConditionalPresence.checking kw).
  - now rewrite Hf, Hg.
Qed.

Lemma presence_first_failure (pre post : list string) (raw : string) (kw : kwds) :
  Forall (resolves kw) pre -> unresolvable kw raw ->
  TemplateConditionalPresence.presence (pre ++ raw :: post) kw
  = (Ok (negb (TemplateConditionalPresence.checking kw)), post).
Proof.
  intros Hpre (tag & e & Hf & Hg & He).
  induction Hpre as [|r rest (t & v & Hf' & Hg') _ IH]; simpl.
  - rewrite Hf, Hg, He. now destruct (TemplateConditionalPresence.checking kw).
  - now rewrite Hf', Hg'.
Qed.


(** C1.  [ifnotpresent] is compiled exactly as [ifpresent] is: both pass
    [checking_presence=True], and [Parse] sets the key of that name to
    [True] for every presence conditional.  The branch of [ifnotpresent] is
    therefore taken when the tag resolves and skipped when it does not,
    against the inverted condition of the specification.  The tags of a branch are
    a [map] object, which the first parse uses up: parsed again, the branch
    of [ifpresent] is taken although its tag does not resolve. *)
Theorem ifnotpresent_is_compiled_as_ifpresent :
  (forall nodes, Template.construct "ifnotpresent" nodes = Template.construct "ifpresent" nodes)
  /\ render initial_functions "{{ ifnotpresent [x] }}absent{{ endif }}" ∅ = Ok EmptyString
  /\ render initial_functions "{{ ifnotpresent [x] }}absent{{ endif }}" {[ "x" := VInt 1 ]}
     = Ok "absent"
  /\ render initial_functions "{{ ifpresent [x] }}have{{ else }}none{{ endif }}" ∅ = Ok "none"
  /\ render_twice initial_functions "{{ ifpresent [x] }}have{{ else }}none{{ endif }}" ∅ ∅
     = (Ok "none", Ok "have").
Proof.
  split; [intros nodes; reflexivity|].
  repeat split; vm_compute; reflexivity.
Qed.

Section NoParse.
Variable registered : registry.
Variable eval_arguments : string -> outcome (list value).
Variable kw : kwds.

Local Abbreviation grows' := (grows registered eval_arguments kw).
Local Abbreviation record' := (TemplateParse.record registered eval_arguments kw).









End NoParse.

(** ** What the no-parse mode finds of the [map] objects *)

Lemma map_loop_ok {A} (step : TemplateTag.t -> A -> outcome A) (pending rest : list string)
  (acc r : A) :
  map_loop step pending acc = (Ok r, rest) -> rest = [].
Proof.
  revert acc. induction pending as [|raw more IH]; intros acc; simpl.
  - now intros [= _ <-].
  - destruct (tag <- TemplateTag.FromString raw ;; step tag acc) as [acc'|e|];
      [apply IH|discriminate|discriminate].
Qed.


Lemma settles_lift {A} (o : outcome A) : settles (lift o : M A).
Proof. intros st r st' [= _ <-] address H. exact H. Qed.


















Section Keys.
Variable registered : registry.
Variable eval_arguments : string -> outcome (list value).
Variable kw : kwds.

Local Abbreviation record'' := (TemplateParse.record registered eval_arguments kw).









End Keys.




(** * Further properties: tags *)

Lemma int_of_digits_nonneg (s : string) (acc : Z) :
  (0 <= acc)%Z -> (0 <= int_of_digits acc s)%Z.
Proof.
  revert acc. induction s as [|c r IH]; intros acc H; simpl; [exact H|].
  apply IH. lia.
Qed.

Lemma seq_index_nonneg {A} (l : list A) (z : Z) :
  (0 <= z)%Z -> seq_index l z = nth_error l (Z.to_nat z).
Proof.
  intros H. unfold seq_index.
  destruct (z <? 0)%Z eqn:E; [apply Z.ltb_lt in E; lia|]. now rewrite E.
Qed.

(** X1.  A tag prints to a text that reads back as the same tag:
    [FromString(str(tag))] is [tag], for a name of word characters, indices
    of word characters and dashes, and functions that are such a name with
    or without arguments in parentheses. *)
Theorem TemplateTag_FromString_of_str (name : string) (indices functions : list string) :
  words name -> Forall word_dashes indices -> Forall function_text functions ->
  TemplateTag.FromString (TemplateTag.str (TemplateTag.New name indices functions))
  = Ok (TemplateTag.New name indices functions).
Proof.
  intros Hn Hi Hf.
  destruct (TAG_match_of_text name indices functions EmptyString Hn Hi Hf)
    as (gi & gf & Hm & Hgi & Hgf).
  change (TemplateTag.str (TemplateTag.New name indices functions))
    with ("[" +:+ name +:+ indices_text indices +:+ functions_text functions +:+ "]").
  replace ("[" +:+ name +:+ indices_text indices +:+ functions_text functions +:+ "]")
    with ("[" +:+ name +:+ indices_text indices +:+ functions_text functions
          +:+ "]" +:+ EmptyString) by (now rewrite !app_nil_r).
  unfold TemplateTag.FromString. rewrite Hm, Hgi, Hgf. reflexivity.
Qed.

Lemma TemplateTag_FromString_of_str_witness :
  TemplateTag.FromString (TemplateTag.str (TemplateTag.New "user" ["name"; "0"] ["raw"]))
  = Ok (TemplateTag.New "user" ["name"; "0"] ["raw"]).
Proof.
  apply (TemplateTag_FromString_of_str "user" ["name"; "0"] ["raw"]).
  - split; [discriminate|reflexivity].
  - constructor; [split; [discriminate|reflexivity]|].
    constructor; [split; [discriminate|reflexivity]|constructor].
  - constructor; [|constructor].
    exists "raw", EmptyString.
    split; [split; [discriminate|reflexivity]|]. split; [reflexivity|now left].
Defined.

Lemma py_int_short (s : string) :
  (String.length s <= int_max_str_digits)%nat -> py_int s = Ok (int_of_digits 0 s).
Proof.
  intros H. unfold py_int.
  destruct (Nat.ltb_spec int_max_str_digits (String.length s)); [lia|reflexivity].
Qed.

Lemma py_int_long (s : string) :
  (int_max_str_digits < String.length s)%nat -> py_int s = Raise (PyOther "ValueError").
Proof.
  intros H. unfold py_int.
  destruct (Nat.ltb_spec int_max_str_digits (String.length s)); [reflexivity|lia].
Qed.

Lemma GetIndex_long (v : value) (needle : string) :
  isdigit needle = true -> (int_max_str_digits < String.length needle)%nat ->
  TemplateTag._GetIndex v needle = Raise (PyOther "ValueError").
Proof.
  intros Hd Hl. unfold TemplateTag._GetIndex. now rewrite Hd, (py_int_long needle Hl).
Qed.

(** X2.  An index of digits on a list or a tuple is a position counted
    from the first item: the item there, or [TemplateKeyError] past the
    end.  That is so for an index that [int] converts; an index of more
    digits than that raises the [ValueError] of [int], which leaves
    [_GetIndex] as it is. *)
Theorem GetIndex_digits_on_sequence (l : list value) (needle : string) :
  isdigit needle = true ->
  ((String.length needle <= int_max_str_digits)%nat ->
   TemplateTag._GetIndex (VList l) needle
   = match nth_error l (Z.to_nat (int_of_digits 0 needle)) with
     | Some v => Ok v
     | None => Raise (TemplateKeyError needle)
     end)
  /\ ((int_max_str_digits < String.length needle)%nat ->
      TemplateTag._GetIndex (VList l) needle = Raise (PyOther "ValueError"))
  /\ TemplateTag._GetIndex (VTuple l) needle = TemplateTag._GetIndex (VList l) needle.
Proof.
  intros Hd. split; [|split].
  - intros Hl. unfold TemplateTag._GetIndex. rewrite Hd, (py_int_short needle Hl).
    simpl. rewrite seq_index_nonneg by (apply int_of_digits_nonneg; lia).
    destruct (nth_error l (Z.to_nat (int_of_digits 0 needle))); reflexivity.
  - now apply GetIndex_long.
  - unfold TemplateTag._GetIndex. rewrite Hd.
    destruct (py_int needle) as [index| |]; reflexivity.
Qed.

Lemma GetIndex_digits_on_sequence_witness :
  TemplateTag._GetIndex (VList [VInt 7; VInt 8]) "1" = Ok (VInt 8)
  /\ TemplateTag._GetIndex (VList [VInt 7; VInt 8]) "2" = Raise (TemplateKeyError "2").
Proof.
  assert (H1 : (String.length "1" <= int_max_str_digits)%nat)
    by (unfold int_max_str_digits; simpl; lia).
  assert (H2 : (String.length "2" <= int_max_str_digits)%nat)
    by (unfold int_max_str_digits; simpl; lia).
  split.
  - rewrite (proj1 (GetIndex_digits_on_sequence [VInt 7; VInt 8] "1" eq_refl) H1).
    reflexivity.
  - rewrite (proj1 (GetIndex_digits_on_sequence [VInt 7; VInt 8] "2" eq_refl) H2).
    reflexivity.
Defined.

(** X3.  An index of digits that [int] converts is tried on a dict as an
    integer key first and as a string key after that; when the dict has
    neither, the index raises [TemplateKeyError].  An index of more digits
    than [int] converts raises the [ValueError] of [int] before any key is
    tried. *)
Theorem GetIndex_digits_on_dict (d : list (key * value)) (needle : string) :
  isdigit needle = true ->
  ((String.length needle <= int_max_str_digits)%nat ->
   TemplateTag._GetIndex (VDict d) needle
   = match dict_get d (KInt (int_of_digits 0 needle)) with
     | Some v => Ok v
     | None =>
         match dict_get d (KStr needle) with
         | Some v => Ok v
         | None => Raise (TemplateKeyError needle)
         end
     end)
  /\ ((int_max_str_digits < String.length needle)%nat ->
      TemplateTag._GetIndex (VDict d) needle = Raise (PyOther "ValueError")).
Proof.
  intros Hd. split.
  - intros Hl. unfold TemplateTag._GetIndex. rewrite Hd, (py_int_short needle Hl).
    simpl. destruct (dict_get d (KInt (int_of_digits 0 needle))); [reflexivity|].
    simpl. destruct (dict_get d (KStr needle)); reflexivity.
  - now apply GetIndex_long.
Qed.

Lemma GetIndex_digits_on_dict_witness :
  TemplateTag._GetIndex (VDict [(KStr "1", VStr "text"); (KInt 1, VStr "number")]) "1"
  = Ok (VStr "number")
  /\ TemplateTag._GetIndex (VDict [(KStr "1", VStr "text")]) "1" = Ok (VStr "text").
Proof.
  assert (H1 : (String.length "1" <= int_max_str_digits)%nat)
    by (unfold int_max_str_digits; simpl; lia).
  split.
  - rewrite (proj1 (GetIndex_digits_on_dict
                      [(KStr "1", VStr "text"); (KInt 1, VStr "number")] "1" eq_refl) H1).
    reflexivity.
  - rewrite (proj1 (GetIndex_digits_on_dict [(KStr "1", VStr "text")] "1" eq_refl) H1).
    reflexivity.
Defined.



Lemma GetIndex_no_items (v : value) (needle : string) :
  no_items v = true -> isdigit needle = true ->
  TemplateTag._GetIndex v needle = Raise (subscript_error needle).
Proof.
  intros Hv Hd. unfold TemplateTag._GetIndex, subscript_error. rewrite Hd.
  destruct (py_int needle) as [index|e|] eqn:P.
  - destruct v; try discriminate; reflexivity.
  - unfold py_int in P. destruct (_ <? _)%nat; [|discriminate].
    injection P as <-. reflexivity.
  - unfold py_int in P. destruct (_ <? _)%nat; discriminate.
Qed.

(** X5.  An index of digits on a value without items (a number, a bool,
    [None], an object) raises an error that nothing catches: [TypeError] of
    the subscription for an index that [int] converts, [ValueError] of
    [int] for one of more digits.  The tag does not parse to its own text,
    and a loop over it is not empty; the error reaches the caller. *)
Theorem TemplateTag_digit_index_without_items
  (registered : registry) (eval_arguments : string -> outcome (list value))
  (name index : string) (rest functions : list string) (kw : kwds) (v : value) :
  kw !! "self" = None ->
  kw !! name = Some v -> no_items v = true -> isdigit index = true ->
  TemplateTag.GetValue (TemplateTag.New name (index :: rest) functions) kw
  = Raise (subscript_error index)
  /\ TemplateTag.Parse registered eval_arguments
       (TemplateTag.New name (index :: rest) functions) kw = Raise (subscript_error index)
  /\ TemplateTag.Iterator registered
       (TemplateTag.New name (index :: rest) functions) kw = Raise (subscript_error index)
  /\ ((String.length index <= int_max_str_digits)%nat ->
      subscript_error index = PyTypeError)
  /\ ((int_max_str_digits < String.length index)%nat ->
      subscript_error index = PyOther "ValueError").
Proof.
  intros Hself Hv Hn Hd.
  assert (G : TemplateTag.GetValue (TemplateTag.New name (index :: rest) functions) kw
              = Raise (subscript_error index)).
  { rewrite (GetValue_present _ _ v) by exact Hv. simpl.
    now rewrite (GetIndex_no_items v index Hn Hd). }
  assert (C : is_TemplateKeyError (subscript_error index) = false
              /\ is_TemplateNameError (subscript_error index) = false).
  { unfold subscript_error, py_int. destruct (_ <? _)%nat; split; reflexivity. }
  destruct C as [C1 C2].
  split; [exact G|]. split; [|split; [|split]].
  - rewrite (Parse_of_GetValue_error _ _ _ _ _ Hself G). now rewrite C1, C2.
  - rewrite (Iterator_of_GetValue_error _ _ _ _ Hself G). now rewrite C1.
  - intros Hl. unfold subscript_error. now rewrite (py_int_short index Hl).
  - intros Hl. unfold subscript_error. now rewrite (py_int_long index Hl).
Qed.

Lemma TemplateTag_digit_index_without_items_witness :
  TemplateTag.Parse initial_functions no_closures (TemplateTag.New "n" ["0"] [])
    {[ "n" := VInt 5 ]}
  = Raise PyTypeError.
Proof.
  assert (Hself : ({[ "n" := VInt 5 ]} : kwds) !! "self" = None) by reflexivity.
  assert (Hn : ({[ "n" := VInt 5 ]} : kwds) !! "n" = Some (VInt 5)) by reflexivity.
  assert (Hl : (String.length "0" <= int_max_str_digits)%nat)
    by (unfold int_max_str_digits; simpl; lia).
  destruct (TemplateTag_digit_index_without_items initial_functions no_closures
              "n" "0" [] [] {[ "n" := VInt 5 ]} (VInt 5) Hself Hn eq_refl eq_refl)
    as (_ & HP & _ & Hshort & _).
  rewrite HP. now rewrite (Hshort Hl).
Defined.

Lemma py_getitem_errors (v : value) (k : key) (e : exn) :
  py_getitem v k = Raise e -> e = PyIndexError \/ e = PyTypeError \/ e = PyKeyError.
Proof.
  destruct v as [| | |s| |l|l|d|]; simpl; try discriminate;
    try (intros [= <-]; tauto).
  - destruct k as [z|]; [|intros [= <-]; tauto].
    destruct (seq_index (chars s) z); [discriminate|intros [= <-]; tauto].
  - destruct k as [z|]; [|intros [= <-]; tauto].
    destruct (seq_index l z); [discriminate|intros [= <-]; tauto].
  - destruct k as [z|]; [|intros [= <-]; tauto].
    destruct (seq_index l z); [discriminate|intros [= <-]; tauto].
  - destruct (dict_get d k); [discriminate|intros [= <-]; tauto].
Qed.

Lemma py_getattr_errors (v : value) (name : string) (e : exn) :
  py_getattr v name = Raise e -> e = PyAttributeError.
Proof.
  destruct v; simpl; try discriminate.
  destruct (assoc attrs name); [discriminate|now intros [= <-]].
Qed.

Lemma GetIndex_errors (v : value) (needle : string) (e : exn) :
  TemplateTag._GetIndex v needle = Raise e ->
  e = TemplateKeyError needle \/ e = PyTypeError \/ too_many_digits needle e.
Proof.
  unfold TemplateTag._GetIndex, catch.
  destruct (isdigit needle) eqn:Hd.
  - unfold py_int.
    destruct (Nat.ltb_spec int_max_str_digits (String.length needle)) as [Hl|Hl]; simpl.
    { intros [= <-]. right. right. repeat split; assumption. }
    destruct (py_getitem v (KInt _)) as [w|e1|] eqn:G1; try discriminate.
    destruct (py_getitem_errors _ _ _ G1) as [E|[E|E]]; subst e1; simpl.
    + intros [= <-]. now left.
    + intros [= <-]. right. now left.
    + destruct (py_getitem v (KStr needle)) as [w|e2|] eqn:G2; try discriminate.
      destruct (py_getitem_errors _ _ _ G2) as [E|[E|E]]; subst e2; simpl;
        intros [= <-]; tauto.
  - destruct (py_getitem v (KStr needle)) as [w|e1|] eqn:G1; try discriminate.
    destruct (py_getitem_errors _ _ _ G1) as [E|[E|E]]; subst e1; simpl.
    + intros [= <-]. now left.
    + destruct (py_getattr v needle) as [w|e2|] eqn:G2; try discriminate.
      rewrite (py_getattr_errors _ _ _ G2). simpl. intros [= <-]. now left.
    + destruct (py_getattr v needle) as [w|e2|] eqn:G2; try discriminate.
      rewrite (py_getattr_errors _ _ _ G2). simpl. intros [= <-]. now left.
Qed.

Lemma reduce_indices_errors (indices : list string) (v : value) (e : exn) :
  TemplateTag.reduce_indices v indices = Raise e ->
  (exists needle, In needle indices /\ e = TemplateKeyError needle)
  \/ e = PyTypeError
  \/ (exists needle, In needle indices /\ too_many_digits needle e).
Proof.
  revert v. induction indices as [|i rest IH]; intros v; simpl; [discriminate|].
  destruct (TemplateTag._GetIndex v i) as [w|e1|] eqn:G; simpl; try discriminate.
  - intros R. destruct (IH _ R) as [(needle & Hin & E)|[E|(needle & Hin & E)]].
    + left. exists needle. split; [now right|exact E].
    + right. now left.
    + right. right. exists needle. split; [now right|exact E].
  - intros [= <-]. destruct (GetIndex_errors _ _ _ G) as [E|[E|E]].
    + left. exists i. split; [now left|exact E].
    + right. now left.
    + right. right. exists i. split; [now left|exact E].
Qed.

Lemma GetValue_errors_of (tag : TemplateTag.t) (kw : kwds) (e : exn) :
  TemplateTag.GetValue tag kw = Raise e ->
  e = TemplateNameError (NoReplacement (TemplateTag.name tag))
  \/ (exists needle, In needle (TemplateTag.indices tag) /\ e = TemplateKeyError needle)
  \/ e = PyTypeError
  \/ (exists needle, In needle (TemplateTag.indices tag) /\ too_many_digits needle e).
Proof.
  destruct (kw !! TemplateTag.name tag) as [v|] eqn:Hv.
  - rewrite (GetValue_present _ _ _ Hv). intros R. right.
    exact (reduce_indices_errors _ _ _ R).
  - rewrite (GetValue_absent _ _ Hv). intros [= <-]. now left.
Qed.

(** X6.  The only errors of [GetValue]: [TemplateNameError] exactly when
    the name of the tag is not in the replacements, [TemplateKeyError] for
    one of the indices of the tag, [TypeError], and the [ValueError] of
    [int] for an index of more digits than it converts.  [KeyError],
    [IndexError] and [AttributeError] of the lookups never leave it. *)
Theorem GetValue_errors (tag : TemplateTag.t) (kw : kwds) (e : exn) :
  TemplateTag.GetValue tag kw = Raise e ->
  (e = TemplateNameError (NoReplacement (TemplateTag.name tag))
   /\ kw !! TemplateTag.name tag = None)
  \/ (is_Some (kw !! TemplateTag.name tag)
      /\ ((exists needle, In needle (TemplateTag.indices tag) /\ e = TemplateKeyError needle)
          \/ e = PyTypeError
          \/ (exists needle,
                In needle (TemplateTag.indices tag) /\ too_many_digits needle e))).
Proof.
  destruct (kw !! TemplateTag.name tag) as [v|] eqn:Hv.
  - rewrite (GetValue_present _ _ _ Hv). intros R. right. split; [eauto|].
    exact (reduce_indices_errors _ _ _ R).
  - rewrite (GetValue_absent _ _ Hv). intros [= <-]. now left.
Qed.

Lemma GetValue_errors_witness :
  (TemplateKeyError "0" = TemplateNameError (NoReplacement "a")
   /\ ({[ "a" := VList [] ]} : kwds) !! "a" = None)
  \/ (is_Some (({[ "a" := VList [] ]} : kwds) !! "a")
      /\ ((exists needle, In needle ["0"] /\ TemplateKeyError "0" = TemplateKeyError needle)
          \/ TemplateKeyError "0" = PyTypeError
          \/ (exists needle, In needle ["0"] /\ too_many_digits needle (TemplateKeyError "0")))).
Proof.
  apply (GetValue_errors (TemplateTag.New "a" ["0"] []) {[ "a" := VList [] ]}
           (TemplateKeyError "0")).
  reflexivity.
Defined.

Lemma closure_free_lookup (registered : registry)
  (eval_arguments : string -> outcome (list value)) (func : string) (v : value) :
  FUNC_CLOSURE_match func = None -> registered !! func = None ->
  TemplateTag.ApplyFunction registered eval_arguments func v
  = Raise (TemplateNameError UnknownTagFunction).
Proof.
  intros Hc Hr. unfold TemplateTag.ApplyFunction, TemplateTag.lookup_function.
  now rewrite Hc, Hr.
Qed.

(** X7.  A tag whose value is found and whose first function is not in
    [TAG_FUNCTIONS] raises [TemplateNameError]: the tag does not parse to
    its own text.  The same name in the tag of a loop raises the [KeyError]
    of the lookup itself, and a function written with arguments is looked
    up there under its whole text. *)
Theorem TemplateTag_unknown_function
  (registered : registry) (eval_arguments : string -> outcome (list value))
  (tag : TemplateTag.t) (kw : kwds) (v : value) (func : string) (more : list string) :
  kw !! "self" = None ->
  TemplateTag.GetValue tag kw = Ok v ->
  TemplateTag.functions tag = func :: more ->
  registered !! func = None ->
  (FUNC_CLOSURE_match func = None ->
   TemplateTag.Parse registered eval_arguments tag kw
   = Raise (TemplateNameError UnknownTagFunction))
  /\ TemplateTag.Iterator registered tag kw = Raise PyKeyError.
Proof.
  intros Hself G Hf Hr. split.
  - intros Hc. unfold TemplateTag.Parse. rewrite call_kwds_free by exact Hself.
    rewrite G, Hf. simpl TemplateTag.apply_functions.
    now rewrite (closure_free_lookup _ _ _ _ Hc Hr).
  - unfold TemplateTag.Iterator. rewrite call_kwds_free by exact Hself.
    rewrite G, Hf. simpl. unfold TemplateTag.lookup_function. now rewrite Hr.
Qed.

Lemma TemplateTag_unknown_function_witness :
  TemplateTag.Parse initial_functions no_closures (TemplateTag.New "a" [] ["upper"])
    {[ "a" := VStr "x" ]}
  = Raise (TemplateNameError UnknownTagFunction)
  /\ TemplateTag.Iterator initial_functions (TemplateTag.New "a" [] ["upper"])
       {[ "a" := VStr "x" ]}
     = Raise PyKeyError.
Proof.
  assert (Hself : ({[ "a" := VStr "x" ]} : kwds) !! "self" = None) by reflexivity.
  assert (G : TemplateTag.GetValue (TemplateTag.New "a" [] ["upper"]) {[ "a" := VStr "x" ]}
              = Ok (VStr "x")) by reflexivity.
  assert (Hr : initial_functions !! "upper" = None) by reflexivity.
  destruct (TemplateTag_unknown_function initial_functions no_closures
              (TemplateTag.New "a" [] ["upper"]) {[ "a" := VStr "x" ]} (VStr "x")
              "upper" [] Hself G eq_refl Hr) as [HP HI].
  split; [apply HP; reflexivity|exact HI].
Defined.

(** X8.  The functions of a tag are applied from left to right, each to
    the result of the one before: a list of functions applies as its first
    part followed by its second part, and an error of a function ends the
    application, with no function after it looked up or called. *)
Theorem apply_functions_app
  (registered : registry) (eval_arguments : string -> outcome (list value))
  (first second : list string) (v : value) :
  TemplateTag.apply_functions registered eval_arguments (first ++ second) v
  = (w <- TemplateTag.apply_functions registered eval_arguments first v ;;
     TemplateTag.apply_functions registered eval_arguments second w).
Proof.
  revert v. induction first as [|f rest IH]; intros v; [reflexivity|].
  simpl. destruct (TemplateTag.ApplyFunction registered eval_arguments f v); simpl;
    [apply IH|reflexivity|reflexivity].
Qed.

(** X9.  Functions are looked up when a tag is parsed: a function that
    [RegisterFunction] has put under a name is the one that a tag naming it
    applies, whatever was under that name before; and it takes the place of
    the default function when it is registered as [default]. *)
Theorem RegisterFunction_is_used
  (registered : registry) (eval_arguments : string -> outcome (list value))
  (func : string) (function : tagfunc) (name : string) (indices : list string)
  (kw : kwds) (v w : value) :
  kw !! "self" = None ->
  TemplateTag.GetValue (TemplateTag.New name indices [func]) kw = Ok v ->
  call function v = Ok w ->
  (FUNC_CLOSURE_match func = None ->
   TemplateTag.Parse (RegisterFunction func function registered) eval_arguments
     (TemplateTag.New name indices [func]) kw = py_str w)
  /\ (is_safestring v = false ->
      TemplateTag.Parse (RegisterFunction "default" function registered) eval_arguments
        (TemplateTag.New name indices []) kw = py_str w).
Proof.
  intros Hself G Hcall.
  assert (G' : TemplateTag.GetValue (TemplateTag.New name indices []) kw = Ok v)
    by exact G.
  split.
  - intros Hc. unfold TemplateTag.Parse. rewrite call_kwds_free by exact Hself.
    rewrite G. simpl TemplateTag.functions. cbv iota.
    simpl TemplateTag.apply_functions.
    unfold TemplateTag.ApplyFunction, TemplateTag.lookup_function, RegisterFunction.
    rewrite Hc, lookup_insert_eq. simpl. rewrite Hcall. reflexivity.
  - intros Hsafe. unfold TemplateTag.Parse. rewrite call_kwds_free by exact Hself.
    rewrite G'. simpl TemplateTag.functions. cbv iota. rewrite Hsafe. simpl negb. cbv iota.
    unfold TemplateTag.lookup_function, RegisterFunction.
    rewrite lookup_insert_eq. simpl. rewrite Hcall. reflexivity.
Qed.

Lemma RegisterFunction_is_used_witness :
  TemplateTag.Parse (RegisterFunction "raw" (function1 (fun _ => Ok (VStr "mine")))
                       initial_functions)
    no_closures (TemplateTag.New "a" [] ["raw"]) {[ "a" := VStr "x" ]}
  = Ok "mine".
Proof.
  assert (Hself : ({[ "a" := VStr "x" ]} : kwds) !! "self" = None) by reflexivity.
  assert (G : TemplateTag.GetValue (TemplateTag.New "a" [] ["raw"]) {[ "a" := VStr "x" ]}
              = Ok (VStr "x")) by reflexivity.
  apply (proj1 (RegisterFunction_is_used initial_functions no_closures "raw"
                  (function1 (fun _ => Ok (VStr "mine"))) "a" [] {[ "a" := VStr "x" ]}
                  (VStr "x") (VStr "mine") Hself G eq_refl)).
  reflexivity.
Defined.

(** X10.  The function [raw] of the initial table is the identity: a tag
    with that function alone parses to [str] of its value, whatever the
    value is, safe string or not, and whatever the functions of the missing
    module do. *)
Theorem TemplateTag_Parse_raw
  (add url srt : value -> outcome value) (eval_arguments : string -> outcome (list value))
  (name : string) (indices : list string) (kw : kwds) (v : value) :
  kw !! "self" = None ->
  TemplateTag.GetValue (TemplateTag.New name indices ["raw"]) kw = Ok v ->
  TemplateTag.Parse (TAG_FUNCTIONS add url srt) eval_arguments
    (TemplateTag.New name indices ["raw"]) kw = py_str v.
Proof.
  intros Hself G. unfold TemplateTag.Parse. rewrite call_kwds_free by exact Hself.
  rewrite G. reflexivity.
Qed.

Lemma TemplateTag_Parse_raw_witness :
  TemplateTag.Parse initial_functions no_closures (TemplateTag.New "a" [] ["raw"])
    {[ "a" := VStr "<b>" ]}
  = Ok "<b>".
Proof.
  assert (Hself : ({[ "a" := VStr "<b>" ]} : kwds) !! "self" = None) by reflexivity.
  assert (G : TemplateTag.GetValue (TemplateTag.New "a" [] ["raw"]) {[ "a" := VStr "<b>" ]}
              = Ok (VStr "<b>")) by reflexivity.
  apply (TemplateTag_Parse_raw HTMLsafestring_add URLqueryargumentsafestring sorted
           no_closures "a" [] {[ "a" := VStr "<b>" ]} (VStr "<b>") Hself G).
Defined.

(** * Further properties: loops and conditionals *)

Lemma iterate_one_alias (Parse_node : node -> kwds -> M string) (alias : string)
  (body : list node) (kw : kwds) (items : list value) :
  forall (replacements : kwds) (st : store),
    (forall item, <[alias := item]> replacements = <[alias := item]> kw) ->
    TemplateLoop.iterate Parse_node [alias] body replacements items st
    = passes Parse_node alias body kw items st.
Proof.
  induction items as [|item rest IH]; intros replacements st H; [reflexivity|].
  change (TemplateLoop.iterate Parse_node [alias] body replacements (item :: rest) st)
    with (bindM (lift (TemplateLoop.bind_item [alias] replacements item))
            (fun replacements' =>
               out <~ join_Parse Parse_node body replacements' ;;
               more <~ TemplateLoop.iterate Parse_node [alias] body replacements' rest ;;
               ret (out +:+ more)) st).
  change (passes Parse_node alias body kw (item :: rest) st)
    with (bindM (join_Parse Parse_node body (<[alias := item]> kw))
            (fun out =>
               more <~ passes Parse_node alias body kw rest ;;
               ret (out +:+ more)) st).
  rewrite bind_item_one. unfold bindM, lift. rewrite H.
  destruct (join_Parse Parse_node body (<[alias := item]> kw) st) as [[out|e|] st1];
    try reflexivity.
  rewrite (IH (<[alias := item]> kw) st1); [reflexivity|].
  intros item'. apply insert_insert_eq.
Qed.

(** X11.  A loop with one alias parses its body once for each item, each
    time on the replacements of the caller with the alias bound to the item
    of that pass, and joins the results: nothing that a pass binds is seen
    by a later pass, and the alias hides a replacement of the same name. *)
Theorem TemplateLoop_Parse_one_alias
  (registered : registry) (eval_arguments : string -> outcome (list value))
  (tag : TemplateTag.t) (alias : string) (body : list node) (kw : kwds)
  (items : list value) (st : store) :
  kw !! "self" = None ->
  TemplateTag.Iterator registered tag kw = Ok items ->
  TemplateLoop.Parse registered (Parse_node registered eval_arguments) tag [alias] body kw st
  = passes (Parse_node registered eval_arguments) alias body kw items st.
Proof.
  intros Hself Hit. unfold TemplateLoop.Parse.
  rewrite call_kwdsM_free by exact Hself.
  unfold bindM at 1. unfold lift at 1. rewrite Hit.
  now apply iterate_one_alias.
Qed.

Lemma TemplateLoop_Parse_one_alias_witness :
  TemplateLoop.Parse initial_functions (Parse_node initial_functions no_closures)
    (TemplateTag.New "xs" [] []) ["x"] [Tag (TemplateTag.New "x" [] []); Text ","]
    {[ "xs" := VList [VInt 1; VInt 2] ]} ∅
  = (Ok "1,2,", ∅).
Proof.
  assert (Hself : ({[ "xs" := VList [VInt 1; VInt 2] ]} : kwds) !! "self" = None)
    by reflexivity.
  assert (Hit : TemplateTag.Iterator initial_functions (TemplateTag.New "xs" [] [])
                  {[ "xs" := VList [VInt 1; VInt 2] ]} = Ok [VInt 1; VInt 2])
    by reflexivity.
  rewrite (TemplateLoop_Parse_one_alias initial_functions no_closures
             (TemplateTag.New "xs" [] []) "x" [Tag (TemplateTag.New "x" [] []); Text ","]
             {[ "xs" := VList [VInt 1; VInt 2] ]} [VInt 1; VInt 2] ∅ Hself Hit).
  vm_compute. reflexivity.
Defined.

(** X12.  The replacements are passed on as keyword arguments, so a
    replacement under the name of a parameter that the call has bound
    already makes the call raise [TypeError]: [self] for a template, [expr]
    for every [if] and [elif] condition, [tags] for every presence
    condition. *)
Theorem parameter_names_are_rejected
  (registered : registry) (eval_arguments : string -> outcome (list value))
  (Parse_node : node -> kwds -> M string) (kw : kwds) :
  (is_Some (kw !! "self") ->
   forall tmpl,
     TemplateParse.Parse_kwds registered eval_arguments kw tmpl = (Raise PyTypeError, tmpl))
  /\ (kw !! "self" = None -> is_Some (kw !! "expr") ->
      forall parts branch rest default st,
        TemplateConditional.Parse Parse_node false ((Tuple parts, branch) :: rest) default kw st
        = (Raise PyTypeError, st))
  /\ (kw !! "self" = None -> is_Some (kw !! "tags") ->
      forall address branch rest default st,
        TemplateConditional.Parse Parse_node true ((MapObject address, branch) :: rest)
          default kw st
        = (Raise PyTypeError, st)).
Proof.
  split; [|split].
  - intros [v Hv] tmpl. unfold TemplateParse.Parse_kwds, TemplateParse.Parse, binds.
    rewrite lookup_delete_ne by discriminate. now rewrite Hv.
  - intros Hself [v Hv] parts branch rest default st.
    unfold TemplateConditional.Parse. rewrite call_kwdsM_free by exact Hself.
    simpl. unfold bindM, lift, TemplateConditional.Expression, call_kwds, binds.
    now rewrite Hv.
  - intros Hself [v Hv] address branch rest default st.
    unfold TemplateConditional.Parse. rewrite call_kwdsM_free by exact Hself.
    simpl. unfold bindM, TemplateConditionalPresence.Expression, call_kwdsM, binds.
    rewrite lookup_insert_ne by discriminate. now rewrite Hv.
Qed.

Lemma parameter_names_are_rejected_witness :
  TemplateConditional.Parse (Parse_node initial_functions no_closures) false
    [(Tuple [PartTag (TemplateTag.New "expr" [] [])], [Text "yes"])] None
    {[ "expr" := VBool true ]} ∅
  = (Raise PyTypeError, ∅).
Proof.
  assert (Hself : ({[ "expr" := VBool true ]} : kwds) !! "self" = None) by reflexivity.
  assert (Hexpr : is_Some (({[ "expr" := VBool true ]} : kwds) !! "expr"))
    by (exists (VBool true); reflexivity).
  apply (proj1 (proj2 (parameter_names_are_rejected initial_functions no_closures
                         (Parse_node initial_functions no_closures)
                         {[ "expr" := VBool true ]})) Hself Hexpr).
Defined.

Lemma presence_used_up (Parse_node : node -> kwds -> M string) (address : nat)
  (branch : list node) (rest : list (expression * list node))
  (default : option (list node)) (kw : kwds) (st : store) :
  kw !! "self" = None -> kw !! "tags" = None -> st !! address = Some [] ->
  TemplateConditional.Parse Parse_node true ((MapObject address, branch) :: rest) default kw st
  = join_Parse Parse_node branch (<["checking_presence" := VBool true]> kw) st.
Proof.
  intros Hself Htags Hst. unfold TemplateConditional.Parse.
  rewrite call_kwdsM_free by exact Hself. simpl. unfold bindM at 1.
  unfold TemplateConditional.condition, TemplateConditionalPresence.Expression.
  rewrite call_kwdsM_free by (rewrite lookup_insert_ne by discriminate; exact Htags).
  rewrite Hst. simpl. unfold TemplateConditionalPresence.checking.
  rewrite lookup_insert_eq. simpl. now rewrite (insert_id st address [] Hst).
Qed.

(** X13.  The tags of a presence branch are a [map] object, which is used
    up as it is read.  Once a parse has found every tag of the first branch
    of a presence conditional, the object is empty, and every later parse
    takes that branch, whatever the replacements then are. *)
Theorem presence_branch_taken_after_success
  (Parse_node : node -> kwds -> M string) (address : nat) (branch : list node)
  (rest : list (expression * list node)) (default : option (list node))
  (kw : kwds) (st : store) (pending : list string) :
  kw !! "self" = None -> kw !! "tags" = None ->
  st !! address = Some pending ->
  Forall (resolves (<["checking_presence" := VBool true]> kw)) pending ->
  TemplateConditional.Parse Parse_node true ((MapObject address, branch) :: rest) default kw st
  = join_Parse Parse_node branch (<["checking_presence" := VBool true]> kw)
      (<[address := []]> st)
  /\ (forall later : kwds,
        later !! "self" = None -> later !! "tags" = None ->
        TemplateConditional.Parse Parse_node true ((MapObject address, branch) :: rest)
          default later (<[address := []]> st)
        = join_Parse Parse_node branch (<["checking_presence" := VBool true]> later)
            (<[address := []]> st)).
Proof.
  intros Hself Htags Hst Hall. split.
  - unfold TemplateConditional.Parse.
    rewrite call_kwdsM_free by exact Hself. simpl. unfold bindM at 1.
    unfold TemplateConditional.condition, TemplateConditionalPresence.Expression.
    rewrite call_kwdsM_free by (rewrite lookup_insert_ne by discriminate; exact Htags).
    rewrite Hst, (presence_all_resolve _ _ Hall).
    unfold TemplateConditionalPresence.checking. rewrite lookup_insert_eq. reflexivity.
  - intros later Hs Ht. apply presence_used_up; [exact Hs|exact Ht|].
    apply lookup_insert_eq.
Qed.

Lemma presence_branch_taken_after_success_witness :
  TemplateConditional.Parse (Parse_node initial_functions no_closures) true
    [(MapObject 0, [Text "have"])] (Some [Text "none"]) ∅
    (<[0%nat := []]> {[ 0%nat := ["[a]"] ]})
  = (Ok "have", <[0%nat := []]> {[ 0%nat := ["[a]"] ]}).
Proof.
  assert (Hself : (∅ : kwds) !! "self" = None) by reflexivity.
  assert (Htags : (∅ : kwds) !! "tags" = None) by reflexivity.
  assert (Hst : ({[ 0%nat := ["[a]"] ]} : store) !! 0%nat = Some ["[a]"]) by reflexivity.
  assert (Hall : Forall (resolves (<["checking_presence" := VBool true]>
                                     ({[ "a" := VInt 1 ]} : kwds))) ["[a]"]).
  { constructor; [|constructor].
    exists (TemplateTag.New "a" [] []), (VInt 1). split; reflexivity. }
  assert (Hs : ({[ "a" := VInt 1 ]} : kwds) !! "self" = None) by reflexivity.
  assert (Ht : ({[ "a" := VInt 1 ]} : kwds) !! "tags" = None) by reflexivity.
  rewrite (proj2 (presence_branch_taken_after_success
                    (Parse_node initial_functions no_closures) 0 [Text "have"] []
                    (Some [Text "none"]) {[ "a" := VInt 1 ]} {[ 0%nat := ["[a]"] ]}
                    ["[a]"] Hs Ht Hst Hall) ∅ Hself Htags).
  reflexivity.
Defined.

(** X14.  [str] of a presence conditional reads the [map] objects of its
    branches to their ends: once the tags of a branch have been printed,
    every parse takes that branch. *)
Theorem str_uses_up_presence_tags
  (Parse_node : node -> kwds -> M string) (address : nat) (st st' : store) (s : string) :
  str_expression (MapObject address) st = (Ok s, st') ->
  st' !! address = Some []
  /\ (forall kw branch rest default,
        kw !! "self" = None -> kw !! "tags" = None ->
        TemplateConditional.Parse Parse_node true ((MapObject address, branch) :: rest)
          default kw st'
        = join_Parse Parse_node branch (<["checking_presence" := VBool true]> kw) st').
Proof.
  unfold str_expression, for_map.
  destruct (st !! address) as [pending|]; [|discriminate].
  destruct (map_loop _ pending EmptyString) as [r rest] eqn:L.
  intros [= -> <-]. apply map_loop_ok in L. subst rest.
  assert (H : <[address := []]> st !! address = Some []) by apply lookup_insert_eq.
  split; [exact H|].
  intros kw branch rest default Hself Htags. now apply presence_used_up.
Qed.

Lemma str_uses_up_presence_tags_witness :
  ({[ 0%nat := [] ]} : store) !! 0%nat = Some []
  /\ TemplateConditional.Parse (Parse_node initial_functions no_closures) true
       [(MapObject 0, [Text "have"])] None ∅ {[ 0%nat := [] ]}
     = join_Parse (Parse_node initial_functions no_closures) [Text "have"]
         (<["checking_presence" := VBool true]> ∅) {[ 0%nat := [] ]}.
Proof.
  assert (Hstr : str_expression (MapObject 0) {[ 0%nat := ["[a]"] ]}
                 = (Ok "[a]", {[ 0%nat := [] ]})) by (vm_compute; reflexivity).
  assert (Hself : (∅ : kwds) !! "self" = None) by reflexivity.
  assert (Htags : (∅ : kwds) !! "tags" = None) by reflexivity.
  destruct (str_uses_up_presence_tags (Parse_node initial_functions no_closures) 0
              {[ 0%nat := ["[a]"] ]} {[ 0%nat := [] ]} "[a]" Hstr) as [H1 H2].
  split; [exact H1|].
  apply (H2 ∅ [Text "have"] [] None Hself Htags).
Defined.

Lemma GetValue_error_classes (tag : TemplateTag.t) (kw : kwds) (e : exn) :
  TemplateTag.GetValue tag kw = Raise e -> is_KeyError e = false /\ is_NameError e = false.
Proof.
  intros G.
  destruct (GetValue_errors_of tag kw e G)
    as [E|[(needle & _ & E)|[E|(needle & _ & E & _)]]];
    subst e; split; reflexivity.
Qed.

(** X15.  A condition that is one tag has the value of that tag: the
    branch is taken when the value is true, and otherwise what follows is
    the [else] clause or nothing.  A tag of a condition is not parsed to its
    text when its value is not found: the error of [GetValue] leaves the
    conditional, [TemplateNameError] for a name that is not in the
    replacements. *)
Theorem Conditional_Parse_one_tag
  (Parse_node : node -> kwds -> M string) (tag : TemplateTag.t) (body : list node)
  (default : option (list node)) (kw : kwds) (st : store) :
  kw !! "self" = None -> kw !! "expr" = None ->
  TemplateConditional.Parse Parse_node false [(Tuple [PartTag tag], body)] default kw st
  = match TemplateTag.GetValue tag kw with
    | Ok v => if py_bool v then join_Parse Parse_node body kw st
              else otherwise Parse_node default kw st
    | Raise e => (Raise e, st)
    | Beyond => (Beyond, st)
    end.
Proof.
  intros Hself Hexpr. unfold TemplateConditional.Parse.
  rewrite call_kwdsM_free by exact Hself. simpl. unfold bindM at 1.
  unfold TemplateConditional.condition, lift, TemplateConditional.Expression.
  rewrite call_kwds_free by exact Hexpr.
  change (TemplateConditional.name_tags 0 [PartTag tag] (LazyTagValueRetrieval.__init__ kw))
    with (["__tmpl_var_0"],
          LazyTagValueRetrieval.__setitem__ (LazyTagValueRetrieval.__init__ kw)
            "__tmpl_var_0" tag).
  cbv iota beta.
  change (py_eval (concat_str ["__tmpl_var_0"])
            (LazyTagValueRetrieval.__setitem__ (LazyTagValueRetrieval.__init__ kw)
               "__tmpl_var_0" tag))
    with (match TemplateTag.GetValue tag kw with
          | Raise e => if is_KeyError e then Beyond else Raise e
          | r => r
          end).
  destruct (TemplateTag.GetValue tag kw) as [v|e|] eqn:G; simpl.
  - destruct (py_bool v); reflexivity.
  - destruct (GetValue_error_classes _ _ _ G) as [K N]. rewrite K. simpl. now rewrite N.
  - reflexivity.
Qed.

Lemma Conditional_Parse_one_tag_witness :
  TemplateConditional.Parse (Parse_node initial_functions no_closures) false
    [(Tuple [PartTag (TemplateTag.New "a" [] [])], [Text "yes"])] (Some [Text "no"]) ∅ ∅
  = (Raise (TemplateNameError (NoReplacement "a")), ∅).
Proof.
  assert (Hself : (∅ : kwds) !! "self" = None) by reflexivity.
  assert (Hexpr : (∅ : kwds) !! "expr" = None) by reflexivity.
  rewrite (Conditional_Parse_one_tag (Parse_node initial_functions no_closures)
             (TemplateTag.New "a" [] []) [Text "yes"] (Some [Text "no"]) ∅ ∅ Hself Hexpr).
  reflexivity.
Defined.

(** * Further properties: the compiler *)

Lemma str_nodes_of_parts (parts : list part) (st : store) :
  str_nodes (map Template.node_of_part parts) st
  = (Ok (concat_str (map str_part parts)), st).
Proof.
  induction parts as [|p rest IH]; [reflexivity|].
  change (str_nodes (map Template.node_of_part (p :: rest)) st)
    with (bindM (str_node (Template.node_of_part p))
            (fun a => b <~ str_nodes (map Template.node_of_part rest) ;; ret (a +:+ b)) st).
  assert (P : str_node (Template.node_of_part p) st = (Ok (str_part p), st))
    by (destruct p; reflexivity).
  unfold bindM. rewrite P, IH. reflexivity.
Qed.

Lemma FUNCTION_split_aux_plain (s : string) :
  contains_char "{" s = false ->
  forall text, FUNCTION_split_aux 0 text s = [String.rev text +:+ s].
Proof.
  induction s as [|c r IH]; intros H text.
  - simpl. now rewrite app_nil_r.
  - simpl in H. apply orb_false_iff in H as [Hc Hr].
    assert (M : FUNCTION_match (String c r) = None).
    { unfold FUNCTION_match. destruct c as [[] [] [] [] [] [] [] []]; try reflexivity.
      discriminate Hc. }
    change (FUNCTION_split_aux 0 text (String c r))
      with (match FUNCTION_match (String c r) with
            | Some (capture, rest) =>
                String.rev text :: capture
                :: FUNCTION_split_aux (String.length (String c r) - String.length rest - 1)
                     EmptyString r
            | None => FUNCTION_split_aux 0 (String c text) r
            end).
    rewrite M, (IH Hr). now rewrite rev_cons.
Qed.

(** X16.  A source without template functions (no opening brace, for one)
    compiles, leaves no scope open, and prints back as the source: [str] of
    the template is the text it was compiled from. *)
Theorem Template_str_of_plain_source (source : string) (parser : option Parser) :
  (contains_char "{" source = false -> FUNCTION_split source = [source])
  /\ (FUNCTION_split source = [source] ->
      exists tmpl,
        Template.__init__ source parser = (Ok tt, tmpl)
        /\ Template.scopes tmpl = []
        /\ forall st, str_nodes (Template.contents tmpl) st = (Ok source, st)).
Proof.
  split.
  - intros H. unfold FUNCTION_split. now rewrite (FUNCTION_split_aux_plain source H).
  - intros Hsplit.
    destruct (TagSplit_text source) as (parts & Hparts & Htext).
    exists (Template.New "Template" parser (map Template.node_of_part parts) [] ∅ 0).
    split; [|split].
    + unfold Template.__init__, Template.AddString. rewrite Hsplit.
      simpl Template.extend. unfold bindM at 1. unfold Template._ExtendText.
      unfold bindM at 1. unfold lift at 1. rewrite Hparts.
      rewrite add_all_top by reflexivity. reflexivity.
    + reflexivity.
    + intros st.
      change (Template.contents
                (Template.New "Template" parser (map Template.node_of_part parts) [] ∅ 0))
        with (map Template.node_of_part parts).
      now rewrite str_nodes_of_parts, Htext.
Qed.

Lemma Template_str_of_plain_source_witness :
  exists tmpl,
    Template.__init__ "Hello [name:first|raw]!" None = (Ok tt, tmpl)
    /\ Template.scopes tmpl = []
    /\ forall st, str_nodes (Template.contents tmpl) st = (Ok "Hello [name:first|raw]!", st).
Proof.
  apply (proj2 (Template_str_of_plain_source "Hello [name:first|raw]!" None)).
  apply (proj1 (Template_str_of_plain_source "Hello [name:first|raw]!" None)).
  reflexivity.
Defined.

Lemma to_lower_idempotent (c : ascii) : to_lower (to_lower c) = to_lower c.
Proof. destruct c as [[] [] [] [] [] [] [] []]; reflexivity. Qed.

Lemma to_upper_lower (c : ascii) : to_upper (to_lower c) = to_upper c.
Proof. destruct c as [[] [] [] [] [] [] [] []]; reflexivity. Qed.

Lemma is_alpha_lower (c : ascii) : is_alpha (to_lower c) = is_alpha c.
Proof. destruct c as [[] [] [] [] [] [] [] []]; reflexivity. Qed.

Lemma to_lower_other (c : ascii) : is_alpha c = false -> to_lower c = c.
Proof. destruct c as [[] [] [] [] [] [] [] []]; intros H; try reflexivity; discriminate H. Qed.

Lemma title_aux_lower (s : string) (prev_cased : bool) :
  title_aux prev_cased (lower s) = title_aux prev_cased s.
Proof.
  revert prev_cased. induction s as [|c r IH]; intros prev_cased; [reflexivity|].
  simpl. rewrite is_alpha_lower, to_lower_idempotent, to_upper_lower, !IH.
  destruct (is_alpha c) eqn:E; [reflexivity|].
  now rewrite (to_lower_other c E).
Qed.

(** X17.  The name of a template function is read without regard to the
    case of its letters: two names that are the same in lower case compile
    to the same. *)
Theorem construct_ignores_case (function other : string) (nodes : list string)
  (self : Template.t) :
  lower function = lower other ->
  Template.construct function nodes self = Template.construct other nodes self.
Proof.
  intros H.
  assert (T : title function = title other).
  { unfold title. rewrite <- (title_aux_lower function), <- (title_aux_lower other).
    now rewrite H. }
  unfold Template.construct. now rewrite T.
Qed.

Lemma construct_ignores_case_witness :
  Template.construct "ENDIF" [] (Template.New "Template" None [] [] ∅ 0)
  = Template.construct "endif" [] (Template.New "Template" None [] [] ∅ 0).
Proof.
  apply (construct_ignores_case "ENDIF" "endif" [] (Template.New "Template" None [] [] ∅ 0)).
  reflexivity.
Defined.

(** X18.  A [for] function reads its last word as the tag and the words
    before the last two as the aliases; the word between them is not looked
    at, [in] or any other. *)
Theorem construct_for_ignores_keyword (aliases : list string) (word tag : string)
  (self : Template.t) :
  Template.construct "for" (aliases ++ [word; tag]) self
  = match Template.new_loop tag aliases with
    | Ok scope => Template._StartScope scope self
    | Raise e => (Raise e, self)
    | Beyond => (Beyond, self)
    end.
Proof.
  change (Template.construct "for" (aliases ++ [word; tag]) self)
    with (bindM (lift (Template.last_node (aliases ++ [word; tag])))
            (fun tag' =>
               scope <~ lift (Template.new_loop tag'
                                (Template.but_last_two (aliases ++ [word; tag]))) ;;
               Template._StartScope scope) self).
  assert (L : Template.last_node (aliases ++ [word; tag]) = Ok tag).
  { unfold Template.last_node.
    replace (aliases ++ [word; tag]) with ((aliases ++ [word]) ++ [tag])
      by (now rewrite <- List.app_assoc).
    now rewrite last_snoc. }
  assert (B : Template.but_last_two (aliases ++ [word; tag]) = aliases).
  { unfold Template.but_last_two. rewrite List.length_app. simpl length.
    replace (length aliases + 2 - 2)%nat with (length aliases) by lia.
    apply take_app_length. }
  rewrite L, B. unfold bindM, lift.
  destruct (Template.new_loop tag aliases); reflexivity.
Qed.

Lemma str_split_blank (s : string) :
  all_chars is_space s = true -> str_split s = [].
Proof.
  unfold str_split. induction s as [|c r IH]; [reflexivity|].
  simpl. intros H. apply andb_true_iff in H as [Hc Hr]. rewrite Hc. exact (IH Hr).
Qed.

(** X19.  Errors of a template function that are not
    [TemplateSyntaxError]: a function without a name ([{{ }}]) and a [for]
    without words raise [IndexError]; words after [endfor], [endif] or
    [else] raise [TypeError]; [inline] in a template without a parser raises
    [TypeError].  The template is left as it was. *)
Theorem ExtendFunction_other_errors (self : Template.t) :
  (forall s, all_chars is_space s = true ->
     Template._ExtendFunction s self = (Raise PyIndexError, self))
  /\ (forall s function nodes,
        str_split s = function :: nodes ->
        (In (title function) ["Endfor"; "Endif"; "Else"] -> nodes <> [] ->
         Template._ExtendFunction s self = (Raise PyTypeError, self))
        /\ (title function = "For" -> nodes = [] ->
            Template._ExtendFunction s self = (Raise PyIndexError, self))
        /\ (title function = "Inline" -> Template.parser self = None ->
            Template._ExtendFunction s self = (Raise PyTypeError, self))).
Proof.
  split.
  - intros s H. unfold Template._ExtendFunction. now rewrite (str_split_blank s H).
  - intros s function nodes Hs. unfold Template._ExtendFunction. rewrite Hs.
    unfold catchM, Template.construct. split; [|split].
    + intros Hin Hne. destruct nodes as [|n more]; [contradiction|].
      destruct Hin as [<-|[<-|[<-|[]]]]; reflexivity.
    + intros -> ->. reflexivity.
    + intros -> Hp.
      destruct nodes as [|n [|n' more]]; simpl; unfold Template.AddFile;
        try rewrite Hp; reflexivity.
Qed.

Lemma ExtendFunction_other_errors_witness :
  Template._ExtendFunction "  " (Template.New "Template" None [] [] ∅ 0)
  = (Raise PyIndexError, Template.New "Template" None [] [] ∅ 0)
  /\ Template._ExtendFunction "endif now" (Template.New "Template" None [] [] ∅ 0)
     = (Raise PyTypeError, Template.New "Template" None [] [] ∅ 0).
Proof.
  split.
  - apply (proj1 (ExtendFunction_other_errors (Template.New "Template" None [] [] ∅ 0))).
    reflexivity.
  - apply (proj1 (proj2 (ExtendFunction_other_errors
                           (Template.New "Template" None [] [] ∅ 0))
                    "endif now" "endif" ["now"] eq_refl)).
    + right. left. reflexivity.
    + discriminate.
Defined.

(** X20.  A function whose name, in title case, is none of the ten that
    [Template] defines raises [TemplateSyntaxError] with the name as it was
    written, and leaves the template as it was. *)
Theorem ExtendFunction_unknown (s function : string) (nodes : list string)
  (self : Template.t) :
  str_split s = function :: nodes ->
  ~ In (title function) constructs ->
  Template._ExtendFunction s self
  = (Raise (TemplateSyntaxError (UnknownFunction function)), self).
Proof.
  intros Hs Hnot. unfold Template._ExtendFunction. rewrite Hs.
  unfold catchM, Template.construct.
  repeat match goal with
         | |- context [String.eqb (title function) ?name] =>
             destruct (String.eqb_spec (title function) name) as [E|_];
             [exfalso; apply Hnot; rewrite E; unfold constructs; simpl; tauto|]
         end.
  reflexivity.
Qed.

Lemma ExtendFunction_unknown_witness :
  Template._ExtendFunction "include header" (Template.New "Template" None [] [] ∅ 0)
  = (Raise (TemplateSyntaxError (UnknownFunction "include")),
     Template.New "Template" None [] [] ∅ 0).
Proof.
  apply (ExtendFunction_unknown "include header" "include" ["header"]
           (Template.New "Template" None [] [] ∅ 0) eq_refl).
  unfold constructs. simpl. intros H.
  repeat (destruct H as [H|H]; [discriminate H|]). exact H.
Defined.

(** X21.  [elif], [else] and [endif] need a conditional as the open scope,
    and [endfor] a loop: otherwise they raise [TemplateSyntaxError] naming
    the class of the scope that is open (of the template itself when none
    is) and leave the template as it was. *)
Theorem functions_need_their_scope (self : Template.t) (nodes : list string) :
  (open_conditional self = false ->
   Template.construct "elif" nodes self
   = (Raise (TemplateSyntaxError
               (ExpectedOpenScope "TemplateConditional" (open_scope_name self))), self)
   /\ Template.construct "else" [] self
      = (Raise (TemplateSyntaxError
                  (ExpectedOpenScope "TemplateConditional" (open_scope_name self))), self)
   /\ Template.construct "endif" [] self
      = (Raise (TemplateSyntaxError
                  (TriedToClose "TemplateConditional" (open_scope_name self))), self))
  /\ ((forall tag aliases body rest,
         Template.scopes self <> Loop tag aliases body :: rest) ->
      Template.construct "endfor" [] self
      = (Raise (TemplateSyntaxError
                  (TriedToClose "TemplateLoop" (open_scope_name self))), self)).
Proof.
  unfold open_conditional, open_scope_name. split.
  - intros H.
    change (Template.construct "elif" nodes self)
      with (bindM (Template._VerifyOpenScope Template.TemplateConditional)
              (fun _ => Template.Elif (join " " nodes)) self).
    change (Template.construct "else" [] self)
      with (bindM (Template._VerifyOpenScope Template.TemplateConditional)
              (fun _ => Template.Else) self).
    change (Template.construct "endif" [] self)
      with (Template._CloseScope Template.TemplateConditional self).
    unfold bindM, Template._VerifyOpenScope, Template._CloseScope.
    destruct (Template.scopes self) as [|top below]; [repeat split|].
    rewrite H. repeat split.
  - intros H.
    change (Template.construct "endfor" [] self)
      with (Template._CloseScope Template.TemplateLoop self).
    unfold Template._CloseScope.
    destruct (Template.scopes self) as [|top below]; [reflexivity|].
    destruct top; try reflexivity. exfalso. eapply H. reflexivity.
Qed.

Lemma functions_need_their_scope_witness :
  Template.construct "else" [] (Template.New "Template" None [] [] ∅ 0)
  = (Raise (TemplateSyntaxError (ExpectedOpenScope "TemplateConditional" "Template")),
     Template.New "Template" None [] [] ∅ 0).
Proof.
  apply (proj1 (proj2 (proj1 (functions_need_their_scope
                                (Template.New "Template" None [] [] ∅ 0) [])
                         eq_refl))).
Defined.

(** X22.  The [else] clause is the last clause of a conditional: once it
    is open, [elif] and a second [else] raise [TemplateSyntaxError] and
    leave the template as it was. *)
Theorem else_clause_is_last (self : Template.t) (p c : bool)
  (branches : list (expression * list node)) (d below : list node)
  (nodes : list string) :
  Template.scopes self = Conditional p c branches (Some d) :: below ->
  Template.construct "elif" nodes self = (Raise (TemplateSyntaxError ElifAfterElse), self)
  /\ Template.construct "else" [] self = (Raise (TemplateSyntaxError OnlyOneElse), self).
Proof.
  intros H.
  change (Template.construct "elif" nodes self)
    with (bindM (Template._VerifyOpenScope Template.TemplateConditional)
            (fun _ => Template.Elif (join " " nodes)) self).
  change (Template.construct "else" [] self)
    with (bindM (Template._VerifyOpenScope Template.TemplateConditional)
            (fun _ => Template.Else) self).
  unfold bindM, Template._VerifyOpenScope, Template.Elif, Template.Else.
  rewrite H. cbn [Template.isinstance]. cbv iota beta. rewrite H. split; reflexivity.
Qed.

Lemma else_clause_is_last_witness :
  Template.construct "else" []
    (Template.New "Template" None []
       [Conditional false true [(Tuple [PartText "1"], [])] (Some [])] ∅ 0)
  = (Raise (TemplateSyntaxError OnlyOneElse),
     Template.New "Template" None []
       [Conditional false true [(Tuple [PartText "1"], [])] (Some [])] ∅ 0).
Proof.
  apply (proj2 (else_clause_is_last
                  (Template.New "Template" None []
                     [Conditional false true [(Tuple [PartText "1"], [])] (Some [])] ∅ 0)
                  false true [(Tuple [PartText "1"], [])] [] [] [] eq_refl)).
Defined.

(** X23.  [elif] starts a branch of the class of the open conditional: in
    a presence conditional its words are tags whose presence is checked, a
    new [map] object over them, and not an expression that is evaluated. *)
Theorem elif_of_presence_is_presence (self : Template.t) (c : bool)
  (branches : list (expression * list node)) (below : list node) (nodes : list string) :
  Template.scopes self = Conditional true c branches None :: below ->
  Template.construct "elif" nodes self
  = (Ok tt,
     Template.New (Template.class_name self) (Template.parser self) (Template.nodes self)
       (Conditional true c (branches ++ [(MapObject (Template.next_map self), [])]) None
        :: below)
       (<[Template.next_map self := str_split (join " " nodes)]> (Template.maps self))
       (S (Template.next_map self))).
Proof.
  intros H.
  change (Template.construct "elif" nodes self)
    with (bindM (Template._VerifyOpenScope Template.TemplateConditional)
            (fun _ => Template.Elif (join " " nodes)) self).
  unfold bindM, Template._VerifyOpenScope, Template.Elif.
  rewrite H. cbn [Template.isinstance]. cbv iota beta. rewrite H. reflexivity.
Qed.

Lemma elif_of_presence_is_presence_witness :
  Template.construct "elif" ["[b]"]
    (Template.New "Template" None [] [Conditional true true [(MapObject 0, [])] None]
       {[ 0%nat := ["[a]"] ]} 1)
  = (Ok tt,
     Template.New "Template" None []
       [Conditional true true ([(MapObject 0, [])] ++ [(MapObject 1, [])]) None]
       (<[1%nat := str_split (join " " ["[b]"])]> {[ 0%nat := ["[a]"] ]}) 2).
Proof.
  rewrite (elif_of_presence_is_presence
             (Template.New "Template" None [] [Conditional true true [(MapObject 0, [])] None]
                {[ 0%nat := ["[a]"] ]} 1)
             true [(MapObject 0, [])] [] ["[b]"] eq_refl).
  reflexivity.
Defined.

(** * Further properties: what compiling keeps *)

Lemma appends_ret {A} (a : A) : appends (ret a).
Proof. intros self r self' [= _ <-]. repeat split. exists []. now rewrite List.app_nil_r. Qed.

Lemma appends_lift {A} (o : outcome A) : appends (lift o).
Proof. intros self r self' [= _ <-]. repeat split. exists []. now rewrite List.app_nil_r. Qed.

Lemma appends_trans (a b c : Template.t) :
  (Template.class_name b = Template.class_name a
   /\ Template.parser b = Template.parser a
   /\ exists added, Template.nodes b = Template.nodes a ++ added) ->
  (Template.class_name c = Template.class_name b
   /\ Template.parser c = Template.parser b
   /\ exists added, Template.nodes c = Template.nodes b ++ added) ->
  Template.class_name c = Template.class_name a
  /\ Template.parser c = Template.parser a
  /\ exists added, Template.nodes c = Template.nodes a ++ added.
Proof.
  intros (C1 & P1 & x & N1) (C2 & P2 & y & N2).
  split; [congruence|]. split; [congruence|].
  exists (x ++ y). now rewrite N2, N1, List.app_assoc.
Qed.

Lemma appends_bind {A B} (m : St Template.t A) (k : A -> St Template.t B) :
  appends m -> (forall a, appends (k a)) -> appends (bindM m k).
Proof.
  intros Hm Hk self r self'. unfold bindM.
  destruct (m self) as [[a|e|] s1] eqn:E.
  - intros K. eapply appends_trans; [eapply Hm; eauto|eapply Hk; eauto].
  - intros [= _ <-]. eapply Hm; eauto.
  - intros [= _ <-]. eapply Hm; eauto.
Qed.

Lemma appends_catch {A} (m : St Template.t A) (caught : exn -> bool)
  (h : exn -> St Template.t A) :
  appends m -> (forall e, appends (h e)) -> appends (catchM m caught h).
Proof.
  intros Hm Hh self r self'. unfold catchM.
  destruct (m self) as [[a|e|] s1] eqn:E.
  - intros [= _ <-]. eapply Hm; eauto.
  - destruct (caught e).
    + intros K. eapply appends_trans; [eapply Hm; eauto|eapply Hh; eauto].
    + intros [= _ <-]. eapply Hm; eauto.
  - intros [= _ <-]. eapply Hm; eauto.
Qed.

Lemma appends_same (self : Template.t) :
  Template.class_name self = Template.class_name self
  /\ Template.parser self = Template.parser self
  /\ exists added, Template.nodes self = Template.nodes self ++ added.
Proof. repeat split. exists []. now rewrite List.app_nil_r. Qed.

Ltac kept :=
  split; [reflexivity|split; [reflexivity|exists []; simpl; now rewrite List.app_nil_r]].

Lemma appends_AddToOpenScope (item : node) : appends (Template._AddToOpenScope item).
Proof.
  intros self r self'. unfold Template._AddToOpenScope.
  destruct (Template.scopes self) as [|top below].
  - intros [= _ <-]. repeat split. now exists [item].
  - destruct (Template.append top item); intros [= _ <-]; kept.
Qed.

Lemma appends_add_all (items : list node) : appends (Template.add_all items).
Proof.
  induction items as [|i rest IH]; simpl.
  - apply appends_ret.
  - apply appends_bind; [apply appends_AddToOpenScope | intros _; exact IH].
Qed.

Lemma appends_ExtendText (text : string) : appends (Template._ExtendText text).
Proof.
  unfold Template._ExtendText. apply appends_bind.
  - apply appends_lift.
  - intros parts. apply appends_add_all.
Qed.

Lemma appends_StartScope (scope : node) : appends (Template._StartScope scope).
Proof. intros self r self' [= _ <-]. kept. Qed.

Lemma appends_CloseScope (c : Template.scope_cls) : appends (Template._CloseScope c).
Proof.
  intros self r self'. unfold Template._CloseScope.
  destruct (Template.scopes self) as [|top below]; [intros [= _ <-]; kept|].
  destruct (Template.isinstance top c); [|intros [= _ <-]; kept].
  intros K. apply (appends_AddToOpenScope top) in K. exact K.
Qed.

Lemma appends_VerifyOpenScope (c : Template.scope_cls) :
  appends (Template._VerifyOpenScope c).
Proof.
  intros self r self'. unfold Template._VerifyOpenScope.
  destruct (Template.scopes self) as [|top below]; [intros [= _ <-]; kept|].
  destruct (Template.isinstance top c); intros [= _ <-]; kept.
Qed.

Lemma appends_NewBranch (presence : bool) (expr : string) :
  appends (Template.NewBranch presence expr).
Proof.
  unfold Template.NewBranch. destruct presence.
  - intros self r self' [= _ <-]. kept.
  - apply appends_bind; [apply appends_lift | intros; apply appends_ret].
Qed.

Lemma appends_new_conditional (presence : bool) (expr : string) (c : bool) :
  appends (Template.new_conditional presence expr c).
Proof.
  unfold Template.new_conditional.
  apply appends_bind; [apply appends_NewBranch | intros; apply appends_ret].
Qed.

Lemma appends_Elif (expr : string) : appends (Template.Elif expr).
Proof.
  intros self r self'. unfold Template.Elif.
  destruct (Template.scopes self) as [|[s|t|tag al body|p c br d] below];
    try (intros [= _ <-]; kept).
  destruct d; [intros [= _ <-]; kept|].
  destruct (Template.NewBranch p expr self) as [[x|e1|] s1] eqn:N;
    intros [= _ <-]; apply (appends_NewBranch p expr) in N; exact N.
Qed.

Lemma appends_Else : appends Template.Else.
Proof.
  intros self r self'. unfold Template.Else.
  destruct (Template.scopes self) as [|[s|t|tag al body|p c br d] below];
    try (intros [= _ <-]; kept).
  destruct d; intros [= _ <-]; kept.
Qed.

Lemma appends_AddFile (name : string) : appends (Template.AddFile name).
Proof.
  intros self r self'. unfold Template.AddFile. intros K.
  assert (E : self' = self) by (destruct (Template.parser self); now injection K).
  subst self'. kept.
Qed.

Lemma appends_construct (function : string) (nodes : list string) :
  appends (Template.construct function nodes).
Proof.
  unfold Template.construct.
  repeat match goal with
         | |- appends (if ?b then _ else _) => destruct b
         | |- appends (match ?l with [] => _ | _ :: _ => _ end) => destruct l
         | |- appends (match FUNCTION_split ?s with [] => _ | _ :: _ => _ end) =>
             destruct (FUNCTION_split s)
         | |- appends (bindM _ _) => apply appends_bind; [|intros ?]
         | |- appends (lift _) => apply appends_lift
         | |- appends (Template._ExtendText _) => apply appends_ExtendText
         | |- appends (Template._StartScope _) => apply appends_StartScope
         | |- appends (Template._CloseScope _) => apply appends_CloseScope
         | |- appends (Template._VerifyOpenScope _) => apply appends_VerifyOpenScope
         | |- appends (Template.new_conditional _ _ _) => apply appends_new_conditional
         | |- appends (Template.Elif _) => apply appends_Elif
         | |- appends Template.Else => apply appends_Else
         | |- appends (Template.AddFile _) => apply appends_AddFile
         end.
Qed.

Lemma appends_ExtendFunction (nodes : string) : appends (Template._ExtendFunction nodes).
Proof.
  unfold Template._ExtendFunction.
  destruct (str_split nodes) as [|function nodes'].
  - apply appends_lift.
  - apply appends_catch; [apply appends_construct|].
    intros e. apply appends_lift.
Qed.

Lemma appends_extend (nodes : list string) (odd : bool) : appends (Template.extend odd nodes).
Proof.
  revert odd. induction nodes as [|n rest IH]; intros odd; simpl.
  - apply appends_ret.
  - apply appends_bind; [|intros _; apply IH].
    destruct odd; [apply appends_ExtendFunction | apply appends_ExtendText].
Qed.

Lemma appends_AddString (raw_template : string) : appends (Template.AddString raw_template).
Proof.
  intros self r self'. unfold Template.AddString.
  destruct (Template.extend false (FUNCTION_split raw_template) self) as [[[]|e|] s1] eqn:E;
    pose proof (appends_extend _ _ _ _ _ E) as H.
  - destruct (negb _); [destruct (_ <? _)%Z|]; intros [= _ <-]; exact H.
  - intros [= _ <-]. exact H.
  - intros [= _ <-]. exact H.
Qed.

(** X24.  [AddString] adds to a template: whatever the text is, and also
    when it raises, the template keeps its class and its parser, and the
    nodes that it had at its top level stay where they were, in their
    order; what is new comes after them. *)
Theorem AddString_appends (raw_template : string) (self self' : Template.t)
  (r : outcome unit) :
  Template.AddString raw_template self = (r, self') ->
  Template.class_name self' = Template.class_name self
  /\ Template.parser self' = Template.parser self
  /\ exists added, Template.nodes self' = Template.nodes self ++ added.
Proof.
  unfold Template.AddString.
  destruct (Template.extend false (FUNCTION_split raw_template) self) as [[[]|e|] s1] eqn:E;
    pose proof (appends_extend _ _ _ _ _ E) as H.
  - destruct (negb (Template.depth s1 =? Template.depth self)%Z);
      [destruct (Template.depth s1 - Template.depth self <? 0)%Z|];
      intros [= _ <-]; exact H.
  - intros [= _ <-]. exact H.
  - intros [= _ <-]. exact H.
Qed.

Lemma AddString_appends_witness :
  Template.class_name
    (snd (Template.AddString "b{{ endif }}" (Template.New "Template" None [Text "a"] [] ∅ 0)))
  = "Template"
  /\ Template.parser
       (snd (Template.AddString "b{{ endif }}"
               (Template.New "Template" None [Text "a"] [] ∅ 0)))
     = None
  /\ exists added,
       Template.nodes
         (snd (Template.AddString "b{{ endif }}"
                 (Template.New "Template" None [Text "a"] [] ∅ 0)))
       = [Text "a"] ++ added.
Proof.
  apply (AddString_appends "b{{ endif }}" (Template.New "Template" None [Text "a"] [] ∅ 0)
           (snd (Template.AddString "b{{ endif }}"
                   (Template.New "Template" None [Text "a"] [] ∅ 0)))
           (fst (Template.AddString "b{{ endif }}"
                   (Template.New "Template" None [Text "a"] [] ∅ 0)))).
  apply surjective_pairing.
Defined.

(** * Further properties: the parser and its templates *)

Lemma Template_init_parser (source : string) (parser : option Parser) (r : outcome unit)
  (tmpl : Template.t) :
  Template.__init__ source parser = (r, tmpl) -> Template.parser tmpl = parser.
Proof.
  unfold Template.__init__. intros H.
  now destruct (appends_AddString _ _ _ _ H) as (_ & P & _).
Qed.

Lemma noparse_mode_parser (a b : Template.t) :
  Template.parser a = Template.parser b ->
  TemplateParse.noparse_mode a = TemplateParse.noparse_mode b.
Proof. unfold TemplateParse.noparse_mode. now intros ->. Qed.

Lemma Parse_kwds_parser (registered : registry)
  (eval_arguments : string -> outcome (list value)) (kw : kwds) (tmpl tmpl' : Template.t)
  (r : outcome HTMLsafestring) :
  TemplateParse.Parse_kwds registered eval_arguments kw tmpl = (r, tmpl') ->
  Template.parser tmpl' = Template.parser tmpl.
Proof.
  unfold TemplateParse.Parse_kwds, TemplateParse.Parse.
  destruct (binds _ "self"); [now intros [= _ <-]|].
  unfold TemplateParse.on_maps.
  destruct (TemplateParse.Parse_body _ _ _ _ _ _) as [res maps'].
  now intros [= _ <-].
Qed.

Lemma Parse_kwds_result (registered : registry)
  (eval_arguments : string -> outcome (list value)) (kw : kwds) (tmpl tmpl' : Template.t)
  (r : HTMLsafestring) :
  kw !! "returnRawTemplate" = None ->
  TemplateParse.Parse_kwds registered eval_arguments kw tmpl = (Ok r, tmpl') ->
  content_hash r = MD5 (text r)
  /\ (if TemplateParse.noparse_mode tmpl
      then is_Some (tags r) /\ is_Some (page_hash r)
      else tags r = None /\ page_hash r = None).
Proof.
  intros Hraw. unfold TemplateParse.Parse_kwds. rewrite Hraw, (delete_id kw _ Hraw).
  unfold TemplateParse.Parse. destruct (binds kw "self"); [discriminate|].
  unfold TemplateParse.on_maps.
  destruct (TemplateParse.Parse_body _ _ _ _ _ _) as [res maps'] eqn:B.
  intros [= -> _]. unfold TemplateParse.Parse_body in B.
  apply bindM_ok in B as (rendered & st1 & _ & B). cbv iota beta in B.
  destruct (TemplateParse.noparse_mode tmpl).
  - apply bindM_ok in B as (page & st2 & _ & B).
    apply bindM_ok in B as (found & st3 & _ & B).
    injection B as <- _. simpl. eauto.
  - injection B as <- _. simpl. eauto.
Qed.

Lemma Reload_keeps (f : FileTemplate.file) (self self' : FileTemplate.t) (r : outcome unit) :
  FileTemplate.ReloadIfModified f self = (r, self') ->
  Template.parser (FileTemplate.template self') = Template.parser (FileTemplate.template self)
  /\ FileTemplate._file_name self' = FileTemplate._file_name self.
Proof.
  unfold FileTemplate.ReloadIfModified, catchM.
  destruct (FileTemplate.getmtime f) as [mtime|e|].
  - destruct (mtime >? FileTemplate._file_mtime self)%Z; [|now intros [= _ <-]].
    destruct (FileTemplate.read f) as [source|e|].
    + destruct (Template.AddString source (FileTemplate.cleared (FileTemplate.template self)))
        as [[[]|e|] tmpl] eqn:A;
        destruct (appends_AddString _ _ _ _ A) as (_ & P & _).
      * now intros [= _ <-].
      * destruct (is_OSError e); now intros [= _ <-].
      * now intros [= _ <-].
    + destruct (is_OSError e); now intros [= _ <-].
    + now intros [= _ <-].
  - destruct (is_OSError e); now intros [= _ <-].
  - now intros [= _ <-].
Qed.

Lemma FileTemplate_Parse_keeps (registered : registry)
  (eval_arguments : string -> outcome (list value)) (f : FileTemplate.file) (kw : kwds)
  (self self' : FileTemplate.t) (r : outcome FileTemplate.parsed) :
  FileTemplate.Parse registered eval_arguments f kw self = (r, self') ->
  FileTemplate._file_name self' = FileTemplate._file_name self.
Proof.
  unfold FileTemplate.Parse. destruct (binds kw "self"); [now intros [= _ <-]|].
  destruct (FileTemplate.ReloadIfModified f self) as [[[]|e|] self1] eqn:R;
    destruct (Reload_keeps _ _ _ _ R) as [_ N]; try (now intros [= _ <-]).
  destruct (TemplateParse.Parse_kwds _ _ _ _) as [[result|e|] tmpl];
    try (now intros [= _ <-]).
  destruct (TemplateParse.noparse_mode tmpl); [|now intros [= _ <-]].
  destruct (tags result), (page_hash result); now intros [= _ <-].
Qed.

Lemma FileTemplate_Parse_report (registered : registry)
  (eval_arguments : string -> outcome (list value)) (f : FileTemplate.file) (kw : kwds)
  (self self' : FileTemplate.t) (r : FileTemplate.parsed) :
  kw !! "returnRawTemplate" = None ->
  FileTemplate.Parse registered eval_arguments f kw self = (Ok r, self') ->
  if TemplateParse.noparse_mode (FileTemplate.template self)
  then exists found content page,
         r = FileTemplate.Report (FileTemplate.file_part (FileTemplate._file_name self))
               found content page
  else exists result, r = FileTemplate.Rendered result /\ tags result = None.
Proof.
  intros Hraw. unfold FileTemplate.Parse. destruct (binds kw "self"); [discriminate|].
  destruct (FileTemplate.ReloadIfModified f self) as [[[]|e|] self1] eqn:R;
    try discriminate.
  destruct (Reload_keeps _ _ _ _ R) as [P N].
  destruct (TemplateParse.Parse_kwds _ _ _ _) as [[result|e|] tmpl] eqn:K;
    try discriminate.
  pose proof (Parse_kwds_parser _ _ _ _ _ _ K) as P'.
  destruct (Parse_kwds_result _ _ _ _ _ _ Hraw K) as [_ T].
  rewrite (noparse_mode_parser tmpl (FileTemplate.template self1) P').
  rewrite (noparse_mode_parser _ _ P) in T |- *.
  destruct (TemplateParse.noparse_mode (FileTemplate.template self)).
  - destruct T as [[found ->] [page ->]]. intros [= <- _].
    simpl. rewrite N. eauto.
  - intros [= <- _]. exists result. now split.
Qed.

Lemma FileTemplate_init_unreadable (template_path file_name : string)
  (f : FileTemplate.file) (parser : option Parser) (e : exn) :
  is_OSError e = true ->
  FileTemplate.getmtime f = Raise e
  \/ (exists mtime, FileTemplate.getmtime f = Ok mtime) /\ FileTemplate.read f = Raise e ->
  FileTemplate.__init__ template_path file_name f parser
  = Raise (TemplateReadError template_path).
Proof.
  intros He [G|[[mtime G] R]]; unfold FileTemplate.__init__; rewrite G; simpl.
  - now rewrite He.
  - rewrite R. simpl. now rewrite He.
Qed.

(** X25.  [Parser.Parse] of a template that the parser does not hold, and
    whose file cannot be stat'ed or cannot be read, raises
    [TemplateReadError] for the path made of the directory of the parser
    and the name, and leaves the parser as it was: nothing is stored under
    the name. *)
Theorem Parser_Parse_unreadable
  (abspath : string -> string) (disk : string -> FileTemplate.file)
  (registered : registry) (eval_arguments : string -> outcome (list value))
  (self : Parser.t) (name : string) (kw : kwds) (e : exn) :
  kw !! "self" = None -> kw !! "template" = None ->
  Parser.templates self !! name = None ->
  is_OSError e = true ->
  FileTemplate.getmtime (disk (abspath (path_join (Parser.template_dir self) name)))
  = Raise e
  \/ (exists mtime,
        FileTemplate.getmtime (disk (abspath (path_join (Parser.template_dir self) name)))
        = Ok mtime)
     /\ FileTemplate.read (disk (abspath (path_join (Parser.template_dir self) name)))
        = Raise e ->
  Parser.Parse abspath disk registered eval_arguments name kw self
  = (Raise (TemplateReadError (path_join (Parser.template_dir self) name)), self).
Proof.
  intros Hself Htmpl Hnone He Hfile.
  unfold Parser.Parse, binds. rewrite Hself, Htmpl. simpl orb. cbv iota.
  unfold Parser.__getitem__. rewrite Hnone. unfold Parser.AddTemplate.
  rewrite (FileTemplate_init_unreadable _ _ _ _ e He Hfile). reflexivity.
Qed.

Lemma Parser_Parse_unreadable_witness :
  Parser.Parse (fun path => "/srv/" +:+ path) (fun _ => missing_file) initial_functions
    no_closures "page.html" ∅ (Parser.New "templates" false ∅)
  = (Raise (TemplateReadError "templates/page.html"), Parser.New "templates" false ∅).
Proof.
  assert (Hself : (∅ : kwds) !! "self" = None) by reflexivity.
  assert (Htmpl : (∅ : kwds) !! "template" = None) by reflexivity.
  assert (Hnone : Parser.templates (Parser.New "templates" false ∅) !! "page.html" = None)
    by reflexivity.
  apply (Parser_Parse_unreadable (fun path => "/srv/" +:+ path) (fun _ => missing_file)
           initial_functions no_closures (Parser.New "templates" false ∅) "page.html" ∅
           PyOSError Hself Htmpl Hnone eq_refl).
  left. reflexivity.
Defined.

Lemma getitem_result (abspath : string -> string) (disk : string -> FileTemplate.file)
  (self self' : Parser.t) (name : string) (r : outcome FileTemplate.t) :
  Parser.__getitem__ abspath disk name self = (r, self') ->
  Parser.template_dir self' = Parser.template_dir self
  /\ Parser.noparse self' = Parser.noparse self
  /\ (forall k, k <> name -> Parser.templates self' !! k = Parser.templates self !! k)
  /\ (is_Some (Parser.templates self !! name) ->
      is_Some (Parser.templates self' !! name))
  /\ (forall tmpl, r = Ok tmpl -> Parser.templates self' !! name = Some tmpl).
Proof.
  unfold Parser.__getitem__.
  destruct (Parser.templates self !! name) as [tmpl|] eqn:L.
  - intros [= <- <-]. repeat split; eauto. now intros tmpl' [= <-].
  - unfold Parser.AddTemplate.
    destruct (catch _ _ _) as [tmpl|e|].
    + simpl. rewrite lookup_insert_eq. intros [= <- <-]. simpl.
      repeat split.
      * intros k Hk. now rewrite lookup_insert_ne by congruence.
      * intros _. rewrite lookup_insert_eq. eauto.
      * intros tmpl' [= <-]. apply lookup_insert_eq.
    + intros [= <- <-]. do 3 (split; [reflexivity|]).
      split; [intros [x Hx]; discriminate Hx|intros tmpl'; discriminate].
    + intros [= <- <-]. do 3 (split; [reflexivity|]).
      split; [intros [x Hx]; discriminate Hx|intros tmpl'; discriminate].
Qed.

(** X26.  [Parser.Parse] never drops a template and leaves the directory
    and the no-parse flag as they are; when it returns a result, the parser
    holds a template under the name it was given.  As long as no template
    loads another one through [inline] (that call is [Beyond]), the
    templates under the other names stay as they are: only the entry of the
    name is touched. *)
Theorem Parser_Parse_keeps_templates
  (abspath : string -> string) (disk : string -> FileTemplate.file)
  (registered : registry) (eval_arguments : string -> outcome (list value))
  (self self' : Parser.t) (name : string) (kw : kwds) (r : outcome FileTemplate.parsed) :
  Parser.Parse abspath disk registered eval_arguments name kw self = (r, self') ->
  Parser.template_dir self' = Parser.template_dir self
  /\ Parser.noparse self' = Parser.noparse self
  /\ (r <> Beyond ->
      forall k, k <> name -> Parser.templates self' !! k = Parser.templates self !! k)
  /\ (forall k, is_Some (Parser.templates self !! k) ->
        is_Some (Parser.templates self' !! k))
  /\ (forall result, r = Ok result -> is_Some (Parser.templates self' !! name)).
Proof.
  unfold Parser.Parse.
  destruct (binds kw "self" || binds kw "template").
  { intros [= <- <-]. repeat split; eauto; discriminate. }
  destruct (Parser.__getitem__ abspath disk name self) as [[tmpl|e|] self1] eqn:G;
    destruct (getitem_result _ _ _ _ _ _ G) as (D & N & O & S & T).
  - destruct (FileTemplate.Parse _ _ _ _ _) as [r' tmpl'].
    intros [= <- <-]. simpl. repeat split; try assumption.
    + intros _ k Hk. rewrite lookup_insert_ne by congruence. now apply O.
    + intros k Hk. destruct (decide (k = name)) as [->|Hne].
      * rewrite lookup_insert_eq. eauto.
      * rewrite lookup_insert_ne by congruence. rewrite (O k Hne). exact Hk.
    + intros _ _. rewrite lookup_insert_eq. eauto.
  - intros [= <- <-]. repeat split; try assumption; try discriminate.
    + intros _. exact O.
    + intros k Hk. destruct (decide (k = name)) as [->|Hne]; [now apply S|].
      now rewrite (O k Hne).
  - intros [= <- <-]. repeat split; try assumption; try discriminate.
    + intros _. exact O.
    + intros k Hk. destruct (decide (k = name)) as [->|Hne]; [now apply S|].
      now rewrite (O k Hne).
Qed.

Lemma Parser_Parse_keeps_templates_witness :
  Parser.templates
    (snd (Parser.Parse (fun path => "/srv/" +:+ path) (fun _ => missing_file)
            initial_functions no_closures "page.html" ∅
            (Parser.New "templates" false {[ "old.html" := old_template ]})))
  !! "old.html"
  = Parser.templates (Parser.New "templates" false {[ "old.html" := old_template ]})
    !! "old.html".
Proof.
  assert (Hr : fst (Parser.Parse (fun path => "/srv/" +:+ path) (fun _ => missing_file)
                      initial_functions no_closures "page.html" ∅
                      (Parser.New "templates" false {[ "old.html" := old_template ]}))
               <> Beyond) by (vm_compute; discriminate).
  assert (Hk : "old.html" <> "page.html") by discriminate.
  exact (proj1 (proj2 (proj2 (Parser_Parse_keeps_templates
                                (fun path => "/srv/" +:+ path) (fun _ => missing_file)
                                initial_functions no_closures
                                (Parser.New "templates" false
                                   {[ "old.html" := old_template ]})
                                (snd (Parser.Parse (fun path => "/srv/" +:+ path)
                                        (fun _ => missing_file) initial_functions
                                        no_closures "page.html" ∅
                                        (Parser.New "templates" false
                                           {[ "old.html" := old_template ]})))
                                "page.html" ∅
                                (fst (Parser.Parse (fun path => "/srv/" +:+ path)
                                        (fun _ => missing_file) initial_functions
                                        no_closures "page.html" ∅
                                        (Parser.New "templates" false
                                           {[ "old.html" := old_template ]})))
                                (surjective_pairing _)))) Hr "old.html" Hk).
Defined.

Lemma view_mode (self : Parser.t) (tmpl : Template.t) :
  Template.parser tmpl = Some (Parser.view self) ->
  TemplateParse.noparse_mode tmpl
  = negb (size (Parser.templates self) =? 0)%nat && Parser.noparse self.
Proof. unfold TemplateParse.noparse_mode. now intros ->. Qed.

(** X27.  The content hash of the result of [ParseString] is the digest of
    its text, and the no-parse mode (the replacements and the page hash
    added to the result) needs more than the flag: the parser is a dict,
    false when it is empty, so the mode is on only when the parser, as it is
    when [ParseString] returns, also holds a template. *)
Theorem ParseString_noparse_needs_templates
  (registered : registry) (eval_arguments : string -> outcome (list value))
  (self self' : Parser.t) (source : string) (kw : kwds) (r : HTMLsafestring) :
  kw !! "returnRawTemplate" = None ->
  Parser.ParseString registered eval_arguments source kw self = (Ok r, self') ->
  content_hash r = MD5 (text r)
  /\ (is_Some (tags r)
      <-> Parser.noparse self' = true /\ Parser.templates self' <> ∅).
Proof.
  intros Hraw. unfold Parser.ParseString.
  destruct (binds kw "self" || binds kw "template"); [discriminate|].
  destruct (Template.__init__ source (Some (Parser.view self))) as [[[]|e|] tmpl] eqn:I;
    try discriminate.
  pose proof (Template_init_parser _ _ _ _ I) as P.
  destruct (TemplateParse.Parse_kwds registered eval_arguments kw tmpl) as [res tmpl'] eqn:K.
  simpl. intros [= -> <-].
  destruct (Parse_kwds_result _ _ _ _ _ _ Hraw K) as [H T].
  split; [exact H|].
  rewrite (view_mode self tmpl P) in T.
  destruct (size (Parser.templates self) =? 0)%nat eqn:E.
  - apply Nat.eqb_eq, map_size_empty_iff in E. simpl in T. destruct T as [T _].
    rewrite T. split; [intros [x Hx]; discriminate|]. intros [_ Hne]. contradiction.
  - apply Nat.eqb_neq in E. simpl in T.
    assert (Hne : Parser.templates self <> ∅)
      by (intros Hm; apply E, map_size_empty_iff, Hm).
    destruct (Parser.noparse self).
    + destruct T as [T _]. split; [now intros _|now intros _].
    + destruct T as [T _]. rewrite T. split; [intros [x Hx]; discriminate|].
      intros [Hn _]. discriminate.
Qed.

Lemma ParseString_noparse_needs_templates_witness :
  content_hash {| text := "1"; content_hash := MD5 "1"; page_hash := None; tags := None |}
     = MD5 (text {| text := "1"; content_hash := MD5 "1"; page_hash := None;
                    tags := None |})
  /\ (is_Some (tags {| text := "1"; content_hash := MD5 "1"; page_hash := None;
                       tags := None |})
      <-> Parser.noparse (Parser.New "." true ∅) = true
          /\ Parser.templates (Parser.New "." true ∅) <> ∅).
Proof.
  assert (Hraw : ({[ "a" := VInt 1 ]} : kwds) !! "returnRawTemplate" = None) by reflexivity.
  apply (ParseString_noparse_needs_templates initial_functions no_closures
           (Parser.New "." true ∅) (Parser.New "." true ∅) "[a]" {[ "a" := VInt 1 ]}
           {| text := "1"; content_hash := MD5 "1"; page_hash := None; tags := None |}
           Hraw).
  vm_compute. reflexivity.
Defined.

(** X28.  In no-parse mode [Parser.Parse] returns the report and not the
    text: the parser holds the template that it parses, so it is not empty.
    The name in the report is the last part of the file name of the
    template. *)
Theorem Parser_Parse_reports_in_noparse
  (abspath : string -> string) (disk : string -> FileTemplate.file)
  (registered : registry) (eval_arguments : string -> outcome (list value))
  (self self' : Parser.t) (name : string) (kw : kwds) (r : FileTemplate.parsed) :
  Parser.noparse self = true ->
  kw !! "returnRawTemplate" = None ->
  Parser.Parse abspath disk registered eval_arguments name kw self = (Ok r, self') ->
  exists tmpl found content page,
    Parser.templates self' !! name = Some tmpl
    /\ r = FileTemplate.Report (FileTemplate.file_part (FileTemplate._file_name tmpl))
             found content page.
Proof.
  intros Hno Hraw. unfold Parser.Parse.
  destruct (binds kw "self" || binds kw "template"); [discriminate|].
  destruct (Parser.__getitem__ abspath disk name self) as [[tmpl|e|] self1] eqn:G;
    try discriminate.
  destruct (getitem_result _ _ _ _ _ _ G) as (_ & N & _ & _ & T).
  specialize (T tmpl eq_refl).
  destruct (FileTemplate.Parse _ _ _ _ _) as [r' tmpl'] eqn:P.
  intros [= -> <-]. simpl. rewrite lookup_insert_eq.
  pose proof (FileTemplate_Parse_keeps _ _ _ _ _ _ _ P) as F.
  pose proof (FileTemplate_Parse_report _ _ _ _ _ _ _ Hraw P) as R.
  assert (Hmode : TemplateParse.noparse_mode (FileTemplate.template (Parser.bound self1 tmpl))
                  = true).
  { rewrite (view_mode self1) by reflexivity. rewrite N, Hno, andb_true_r.
    apply negb_true_iff, Nat.eqb_neq. intros Hz.
    apply map_size_empty_iff in Hz. rewrite Hz in T. discriminate. }
  rewrite Hmode in R. destruct R as (found & content & page & ->).
  exists tmpl', found, content, page. split; [reflexivity|]. now rewrite F.
Qed.

Lemma Parser_Parse_reports_in_noparse_witness :
  exists tmpl found content page,
    Parser.templates
      (snd (Parser.Parse (fun path => "/srv/" +:+ path)
              (fun _ => {| FileTemplate.getmtime := Ok 1%Z; FileTemplate.read := Ok "[a]" |})
              initial_functions no_closures "page.html" {[ "a" := VInt 1 ]}
              (Parser.New "templates" true ∅)))
    !! "page.html" = Some tmpl
    /\ FileTemplate.Report "page.html" {[ "[a]" := "1" ]} (MD5 "1") (MD5 "[a]")
       = FileTemplate.Report (FileTemplate.file_part (FileTemplate._file_name tmpl))
           found content page.
Proof.
  assert (Hraw : ({[ "a" := VInt 1 ]} : kwds) !! "returnRawTemplate" = None) by reflexivity.
  apply (Parser_Parse_reports_in_noparse (fun path => "/srv/" +:+ path)
           (fun _ => {| FileTemplate.getmtime := Ok 1%Z; FileTemplate.read := Ok "[a]" |})
           initial_functions no_closures (Parser.New "templates" true ∅)
           (snd (Parser.Parse (fun path => "/srv/" +:+ path)
                   (fun _ => {| FileTemplate.getmtime := Ok 1%Z;
                                FileTemplate.read := Ok "[a]" |})
                   initial_functions no_closures "page.html" {[ "a" := VInt 1 ]}
                   (Parser.New "templates" true ∅)))
           "page.html" {[ "a" := VInt 1 ]}
           (FileTemplate.Report "page.html" {[ "[a]" := "1" ]} (MD5 "1") (MD5 "[a]"))
           eq_refl Hraw).
  vm_compute. reflexivity.
Defined.

(** * Further properties: the errors of compiling, and the raw template *)

Lemma compiling_ret {A} (a : A) : compiling (ret a).
Proof. intros self r self' W [= <- <-]. split; [exact W|discriminate]. Qed.

Lemma compiling_lift {A} (o : outcome A) :
  (forall e, o = Raise e -> compile_error e = true) -> compiling (lift o).
Proof. intros H self r self' W [= <- <-]. split; [exact W|exact H]. Qed.

Lemma compiling_raise {A} (e : exn) :
  compile_error e = true -> compiling (@lift Template.t A (Raise e)).
Proof. intros H. apply compiling_lift. now intros e' [= <-]. Qed.

Lemma compiling_bind {A B} (m : St Template.t A) (k : A -> St Template.t B) :
  compiling m -> (forall a, compiling (k a)) -> compiling (bindM m k).
Proof.
  intros Hm Hk self r self' W. unfold bindM.
  destruct (m self) as [[a|e|] s1] eqn:E; destruct (Hm _ _ _ W E) as [W1 H1].
  - now apply Hk.
  - intros [= <- <-]. split; [exact W1|]. intros e' [= <-]. now apply H1.
  - intros [= <- <-]. split; [exact W1|discriminate].
Qed.

Lemma FromString_errors (s : string) (e : exn) :
  TemplateTag.FromString s = Raise e -> e = TemplateSyntaxError (InvalidTag s).
Proof.
  unfold TemplateTag.FromString.
  destruct (TAG_match s) as [[[[? ?] ?] ?]|]; [discriminate|]. now intros [= <-].
Qed.

Lemma TagSplit_pieces_errors (pieces : list string) (odd : bool) (e : exn) :
  Template.TagSplit_pieces odd pieces = Raise e -> compile_error e = true.
Proof.
  revert odd. induction pieces as [|p rest IH]; intros odd; simpl; [discriminate|].
  destruct odd.
  - destruct (TemplateTag.FromString p) as [tag|e1|] eqn:F; simpl; try discriminate.
    + destruct (Template.TagSplit_pieces false rest) as [more|e2|] eqn:T; simpl;
        try discriminate.
      intros [= <-]. eapply IH; eauto.
    + intros [= <-]. now rewrite (FromString_errors _ _ F).
  - destruct (Template.TagSplit_pieces true rest) as [more|e2|] eqn:T; simpl;
      try discriminate.
    intros [= <-]. eapply IH; eauto.
Qed.

Lemma append_last_some (b : expression * list node) (rest : list (expression * list node))
  (item : node) :
  exists b' rest', Template.append_last (b :: rest) item = Some (b' :: rest').
Proof.
  revert b. induction rest as [|c more IH]; intros [expr branch].
  - simpl. eauto.
  - destruct (IH c) as (c' & more' & H).
    change (Template.append_last ((expr, branch) :: c :: more) item)
      with (r ← Template.append_last (c :: more) item; Some ((expr, branch) :: r)).
    rewrite H. simpl. eauto.
Qed.

Lemma append_scope (scope item : node) :
  is_scope scope -> exists scope', Template.append scope item = Ok scope' /\ is_scope scope'.
Proof.
  destruct scope as [s|t|tag al body|p c br d]; intros H;
    try (simpl in H; contradiction).
  - eexists. split; [reflexivity|exact I].
  - destruct br as [|b rest]; [simpl in H; contradiction|]. destruct d as [d|].
    + eexists. split; [reflexivity|exact I].
    + unfold Template.append.
      destruct (append_last_some b rest item) as (b' & rest' & E). rewrite E.
      eexists. split; [reflexivity|exact I].
Qed.

Lemma compiling_AddToOpenScope (item : node) : compiling (Template._AddToOpenScope item).
Proof.
  intros self r self' W. unfold Template._AddToOpenScope.
  destruct (Template.scopes self) as [|top below] eqn:S.
  - intros [= <- <-]. split; [|discriminate].
    unfold well_scoped. simpl. rewrite S. constructor.
  - unfold well_scoped in W. rewrite S in W. inversion W as [|? ? Htop Hbelow]; subst.
    destruct (append_scope top item Htop) as (top' & -> & Htop').
    intros [= <- <-]. split; [|discriminate]. unfold well_scoped. simpl.
    now constructor.
Qed.

Lemma compiling_add_all (items : list node) : compiling (Template.add_all items).
Proof.
  induction items as [|i rest IH]; simpl.
  - apply compiling_ret.
  - apply compiling_bind; [apply compiling_AddToOpenScope | intros _; exact IH].
Qed.

Lemma compiling_ExtendText (text : string) : compiling (Template._ExtendText text).
Proof.
  unfold Template._ExtendText. apply compiling_bind.
  - apply compiling_lift, TagSplit_pieces_errors.
  - intros parts. apply compiling_add_all.
Qed.

Lemma compiling_StartScope (scope : node) :
  is_scope scope -> compiling (Template._StartScope scope).
Proof.
  intros H self r self' W [= <- <-]. split; [|discriminate].
  unfold well_scoped. simpl. now constructor.
Qed.

Lemma compiling_CloseScope (c : Template.scope_cls) : compiling (Template._CloseScope c).
Proof.
  intros self r self' W. unfold Template._CloseScope.
  destruct (Template.scopes self) as [|top below] eqn:S.
  - intros [= <- <-]. split; [exact W|]. now intros e [= <-].
  - destruct (Template.isinstance top c).
    + apply compiling_AddToOpenScope. unfold well_scoped in *. simpl.
      rewrite S in W. now inversion W.
    + intros [= <- <-]. split; [exact W|]. now intros e [= <-].
Qed.

Lemma compiling_VerifyOpenScope (c : Template.scope_cls) :
  compiling (Template._VerifyOpenScope c).
Proof.
  intros self r self' W. unfold Template._VerifyOpenScope.
  destruct (Template.scopes self) as [|top below].
  - intros [= <- <-]. split; [exact W|]. now intros e [= <-].
  - destruct (Template.isinstance top c); intros [= <- <-]; split; try exact W;
      [discriminate|now intros e [= <-]].
Qed.

Lemma compiling_NewBranch (presence : bool) (expr : string) :
  compiling (Template.NewBranch presence expr).
Proof.
  unfold Template.NewBranch. destruct presence.
  - intros self r self' W [= <- <-]. split; [exact W|discriminate].
  - apply compiling_bind; [apply compiling_lift, TagSplit_pieces_errors|].
    intros; apply compiling_ret.
Qed.

Lemma compiling_conditional (presence : bool) (expr : string) (c : bool) :
  compiling (scope <~ Template.new_conditional presence expr c ;;
             Template._StartScope scope).
Proof.
  intros self r self' W. unfold bindM, Template.new_conditional, bindM, ret.
  destruct (Template.NewBranch presence expr self) as [[e|err|] s1] eqn:N;
    destruct (compiling_NewBranch _ _ _ _ _ W N) as [W1 H1].
  - apply compiling_StartScope; [exact I|exact W1].
  - intros [= <- <-]. split; [exact W1|]. intros e' [= <-]. now apply H1.
  - intros [= <- <-]. split; [exact W1|discriminate].
Qed.

Lemma new_loop_result (tag : string) (aliases : list string) :
  match Template.new_loop tag aliases with
  | Ok scope => is_scope scope
  | Raise e => compile_error e = true
  | Beyond => True
  end.
Proof.
  unfold Template.new_loop, catch.
  destruct (TemplateTag.FromString tag) as [t|e|] eqn:F; simpl; [exact I| |exact I].
  rewrite (FromString_errors _ _ F). reflexivity.
Qed.

Lemma compiling_for (nodes : list string) :
  compiling (tag <~ lift (Template.last_node nodes) ;;
             scope <~ lift (Template.new_loop tag (Template.but_last_two nodes)) ;;
             Template._StartScope scope).
Proof.
  intros self r self' W. unfold bindM, lift, Template.last_node.
  destruct (last nodes) as [tag|].
  - pose proof (new_loop_result tag (Template.but_last_two nodes)) as L.
    destruct (Template.new_loop tag (Template.but_last_two nodes)) as [scope|e|].
    + apply compiling_StartScope; [exact L|exact W].
    + intros [= <- <-]. split; [exact W|]. now intros e' [= <-].
    + intros [= <- <-]. split; [exact W|discriminate].
  - intros [= <- <-]. split; [exact W|]. now intros e [= <-].
Qed.

Lemma compiling_Elif (expr : string) :
  compiling (_ <~ Template._VerifyOpenScope Template.TemplateConditional ;;
             Template.Elif expr).
Proof.
  intros self r self' W. unfold bindM, Template._VerifyOpenScope, Template.Elif.
  destruct (Template.scopes self) as [|top below] eqn:S.
  - intros [= <- <-]. split; [exact W|]. now intros e [= <-].
  - destruct top as [s|t|tag al body|p c br d]; simpl;
      try (intros [= <- <-]; split; [exact W|]; now intros e [= <-]).
    rewrite S. destruct d as [d|].
    + intros [= <- <-]. split; [exact W|]. now intros e [= <-].
    + destruct (Template.NewBranch p expr self) as [[x|err|] s1] eqn:N;
        destruct (compiling_NewBranch _ _ _ _ _ W N) as [W1 H1].
      * intros [= <- <-]. split; [|discriminate].
        unfold well_scoped in *. simpl. rewrite S in W. inversion W; subst.
        constructor; [|assumption]. destruct br; exact I.
      * intros [= <- <-]. split; [exact W1|]. intros e' [= <-]. now apply H1.
      * intros [= <- <-]. split; [exact W1|discriminate].
Qed.

Lemma compiling_Else :
  compiling (_ <~ Template._VerifyOpenScope Template.TemplateConditional ;; Template.Else).
Proof.
  intros self r self' W. unfold bindM, Template._VerifyOpenScope, Template.Else.
  destruct (Template.scopes self) as [|top below] eqn:S.
  - intros [= <- <-]. split; [exact W|]. now intros e [= <-].
  - destruct top as [s|t|tag al body|p c br d]; simpl;
      try (intros [= <- <-]; split; [exact W|]; now intros e [= <-]).
    rewrite S. destruct d as [d|].
    + intros [= <- <-]. split; [exact W|]. now intros e [= <-].
    + intros [= <- <-]. split; [|discriminate].
      unfold well_scoped in *. simpl. rewrite S in W. inversion W; subst.
      constructor; assumption.
Qed.

Lemma compiling_AddFile (name : string) : compiling (Template.AddFile name).
Proof.
  intros self r self' W. unfold Template.AddFile.
  destruct (Template.parser self); intros [= <- <-]; split; try exact W;
    [discriminate|now intros e [= <-]].
Qed.

Lemma construct_errors (function : string) (nodes : list string)
  (self self' : Template.t) (r : outcome unit) :
  well_scoped self ->
  Template.construct function nodes self = (r, self') ->
  well_scoped self'
  /\ forall e, r = Raise e -> is_AttributeError e = true \/ compile_error e = true.
Proof.
  intros W. unfold Template.construct.
  assert (K : forall m : St Template.t unit, compiling m ->
                m self = (r, self') ->
                well_scoped self'
                /\ forall e, r = Raise e ->
                     is_AttributeError e = true \/ compile_error e = true).
  { intros m Hm E. destruct (Hm _ _ _ W E) as [W1 H1]. split; [exact W1|].
    intros e He. right. now apply H1. }
  repeat match goal with
         | |- (if ?b then _ else _) self = _ -> _ => destruct b
         | |- (match ?l with [] => _ | _ :: _ => _ end) self = _ -> _ => destruct l
         | |- (match FUNCTION_split ?s with [] => _ | _ :: _ => _ end) self = _ -> _ =>
             destruct (FUNCTION_split s)
         end;
    try (apply K;
         first [ apply compiling_ExtendText
               | apply compiling_AddFile
               | apply compiling_for
               | apply compiling_conditional
               | apply compiling_Elif
               | apply compiling_Else
               | apply compiling_CloseScope
               | apply compiling_raise; reflexivity
               | apply compiling_lift; discriminate ]).
  intros [= <- <-]. split; [exact W|]. intros e [= <-]. now left.
Qed.

Lemma compiling_ExtendFunction (nodes : string) :
  compiling (Template._ExtendFunction nodes).
Proof.
  unfold Template._ExtendFunction.
  destruct (str_split nodes) as [|function nodes'].
  - apply compiling_raise. reflexivity.
  - intros self r self' W. unfold catchM.
    destruct (Template.construct function nodes' self) as [[a|e|] s1] eqn:E;
      destruct (construct_errors _ _ _ _ _ W E) as [W1 H1].
    + intros [= <- <-]. split; [exact W1|discriminate].
    + destruct (is_AttributeError e) eqn:C.
      * intros [= <- <-]. split; [exact W1|]. now intros e' [= <-].
      * intros [= <- <-]. split; [exact W1|]. intros e' [= <-].
        destruct (H1 e eq_refl) as [K|K]; [congruence|exact K].
    + intros [= <- <-]. split; [exact W1|discriminate].
Qed.

Lemma compiling_extend (nodes : list string) (odd : bool) :
  compiling (Template.extend odd nodes).
Proof.
  revert odd. induction nodes as [|n rest IH]; intros odd; simpl.
  - apply compiling_ret.
  - apply compiling_bind; [|intros _; apply IH].
    destruct odd; [apply compiling_ExtendFunction | apply compiling_ExtendText].
Qed.

Lemma compiling_AddString (raw_template : string) :
  compiling (Template.AddString raw_template).
Proof.
  intros self r self' W. unfold Template.AddString.
  destruct (Template.extend false (FUNCTION_split raw_template) self) as [[[]|e|] s1] eqn:E;
    destruct (compiling_extend _ _ _ _ _ W E) as [W1 H1].
  - destruct (negb _); [destruct (_ <? _)%Z|]; intros [= <- <-]; split; try exact W1;
      try discriminate; now intros e [= <-].
  - intros [= <- <-]. split; [exact W1|]. intros e' [= <-]. now apply H1.
  - intros [= <- <-]. split; [exact W1|discriminate].
Qed.

(** X29.  The errors of compiling are [TemplateSyntaxError], [TypeError]
    and [IndexError], and no other: whatever the text is, [Template(text)]
    and [AddString] on a compiled template raise nothing else, and the
    [AttributeError] of a function that [Template] does not define never
    leaves the compiler.  (What [inline] raises when it reads a file through
    a parser is not part of this: that call is [Beyond].) *)
Theorem compile_errors (parser : option Parser) :
  (forall source e tmpl,
     Template.__init__ source parser = (Raise e, tmpl) -> compile_error e = true)
  /\ (forall first source tmpl e tmpl',
        Template.__init__ first parser = (Ok tt, tmpl) ->
        Template.AddString source tmpl = (Raise e, tmpl') ->
        compile_error e = true).
Proof.
  assert (W0 : well_scoped (Template.New "Template" parser [] [] ∅ 0)) by constructor.
  split.
  - intros source e tmpl H. unfold Template.__init__ in H.
    destruct (compiling_AddString _ _ _ _ W0 H) as [_ H1]. now apply H1.
  - intros first source tmpl e tmpl' Hfirst H. unfold Template.__init__ in Hfirst.
    destruct (compiling_AddString _ _ _ _ W0 Hfirst) as [W1 _].
    destruct (compiling_AddString _ _ _ _ W1 H) as [_ H1]. now apply H1.
Qed.

Lemma compile_errors_witness :
  compile_error (TemplateSyntaxError (UnknownFunction "include")) = true.
Proof.
  apply (proj1 (compile_errors None) "{{ include x }}"
           (TemplateSyntaxError (UnknownFunction "include"))
           (Template.New "Template" None [] [] ∅ 0)).
  reflexivity.
Defined.

(** X30.  With [returnRawTemplate] true among the replacements, [Parse]
    still parses the template, and raises what that raises; it returns the
    template as [str] prints it after the parse, with the digest of the
    parsed text as content hash, and no replacements or page hash.  The key
    [returnRawTemplate] is the parameter: no tag sees a replacement under
    that name. *)
Theorem Parse_returnRawTemplate
  (registered : registry) (eval_arguments : string -> outcome (list value))
  (kw : kwds) (v : value) (tmpl tmpl' : Template.t) (r : HTMLsafestring) :
  kw !! "returnRawTemplate" = Some v -> py_bool v = true ->
  TemplateParse.Parse_kwds registered eval_arguments kw tmpl = (Ok r, tmpl') ->
  exists rendered st1,
    join_Parse (Parse_node registered eval_arguments) (Template.contents tmpl)
      (delete "returnRawTemplate" kw) (Template.maps tmpl)
    = (Ok rendered, st1)
    /\ str_nodes (Template.contents tmpl) st1 = (Ok (text r), Template.maps tmpl')
    /\ content_hash r = MD5 rendered
    /\ tags r = None /\ page_hash r = None.
Proof.
  intros Hraw Hv. unfold TemplateParse.Parse_kwds. rewrite Hraw, Hv.
  unfold TemplateParse.Parse. destruct (binds _ "self"); [discriminate|].
  unfold TemplateParse.on_maps.
  destruct (TemplateParse.Parse_body _ _ _ _ _ _) as [res maps'] eqn:B.
  intros [= -> <-]. unfold TemplateParse.Parse_body in B.
  apply bindM_ok in B as (rendered & st1 & J & B). cbv iota beta in B.
  apply bindM_ok in B as (raw & st2 & S & B). injection B as <- <-.
  exists rendered, st1. simpl. repeat split; assumption.
Qed.

Lemma Parse_returnRawTemplate_witness :
  exists rendered st1,
    join_Parse (Parse_node initial_functions no_closures)
      (Template.contents (Template.New "Template" None [Tag (TemplateTag.New "a" [] [])]
                            [] ∅ 0))
      (delete "returnRawTemplate"
         ({[ "a" := VInt 1; "returnRawTemplate" := VBool true ]} : kwds))
      (Template.maps (Template.New "Template" None [Tag (TemplateTag.New "a" [] [])]
                        [] ∅ 0))
    = (Ok rendered, st1)
    /\ str_nodes (Template.contents
                    (Template.New "Template" None [Tag (TemplateTag.New "a" [] [])]
                       [] ∅ 0)) st1
       = (Ok (text {| text := "[a]"; content_hash := MD5 "1"; page_hash := None;
                      tags := None |}),
          Template.maps (Template.New "Template" None [Tag (TemplateTag.New "a" [] [])]
                           [] ∅ 0))
    /\ content_hash {| text := "[a]"; content_hash := MD5 "1"; page_hash := None;
                       tags := None |} = MD5 rendered
    /\ tags {| text := "[a]"; content_hash := MD5 "1"; page_hash := None; tags := None |}
       = None
    /\ page_hash {| text := "[a]"; content_hash := MD5 "1"; page_hash := None;
                    tags := None |} = None.
Proof.
  assert (Hraw : ({[ "a" := VInt 1; "returnRawTemplate" := VBool true ]} : kwds)
                 !! "returnRawTemplate" = Some (VBool true)) by reflexivity.
  apply (Parse_returnRawTemplate initial_functions no_closures
           {[ "a" := VInt 1; "returnRawTemplate" := VBool true ]} (VBool true)
           (Template.New "Template" None [Tag (TemplateTag.New "a" [] [])] [] ∅ 0)
           (Template.New "Template" None [Tag (TemplateTag.New "a" [] [])] [] ∅ 0)
           {| text := "[a]"; content_hash := MD5 "1"; page_hash := None; tags := None |}
           Hraw eq_refl).
  vm_compute. reflexivity.
Defined.
